(** * Weibo hot-topic analyser: rule engine, scorer and report shaping

    A shallow embedding of the deterministic core of the three scripts
    [weibo_hot_analyzer.py] (v1.0), [weibo_analyzer_sdk.py] (v2.0) and
    [weibo_analyzer_v2.py] (v2.1), with the properties the specification
    states about it.

    Conventions of the embedding:
    - a Python [str] is the list of its code points ([list N]); [len] is
      [length], [s[:k]] is [firstn k s], [a + b] and f-string interpolation
      are [++];
    - string literals of the source are written as Rocq strings (their UTF-8
      bytes) and decoded to code points by [u];
    - Python [int] is [Z];
    - [dict] objects whose keys the code looks up dynamically (the analysis
      record, its score table) are association lists inside [pyval]; a
      search result, always built as [{"title": ..., "url": ...}] with two
      strings, is a record;
    - the hidden state of the [random] module is threaded explicitly;
    - [print] calls are left out: nothing in the core reads the console. *)

From Stdlib Require Import ZArith NArith List Bool Ascii String Lia.
From Stdlib Require Import Permutation Sorted.
Import ListNotations.

Set Implicit Arguments.
#[local] Set Warnings "-register-all".

(* ===================================================================== *)
(** * Part I: definitions                                                 *)
(* ===================================================================== *)

(** ** Python strings *)

Module PyStr.

Definition str := list N.

(** UTF-8 decoding of a source literal.  A lead byte announces the number of
    continuation bytes; every continuation byte contributes six bits. *)
Fixpoint utf8_decode (pending : nat) (acc : N) (bs : list N) : list N :=
  match bs with
  | [] => []
  | b :: rest =>
      match pending with
      | O =>
          if (b <? 128)%N then b :: utf8_decode 0 0 rest
          else if (b <? 224)%N then utf8_decode 1 (b - 192) rest
          else if (b <? 240)%N then utf8_decode 2 (b - 224) rest
          else utf8_decode 3 (b - 240) rest
      | S O => (acc * 64 + (b - 128))%N :: utf8_decode 0 0 rest
      | S p => utf8_decode p (acc * 64 + (b - 128))%N rest
      end
  end.

Definition u (s : string) : str :=
  utf8_decode 0 0 (map N_of_ascii (list_ascii_of_string s)).

(** [a == b] *)
Fixpoint str_eqb (a b : str) : bool :=
  match a, b with
  | [], [] => true
  | c :: a', d :: b' => (c =? d)%N && str_eqb a' b'
  | _, _ => false
  end.

(** [x in xs] for a list of strings. *)
Definition in_list (x : str) (xs : list str) : bool :=
  existsb (str_eqb x) xs.

(** [s.startswith(p)] *)
Fixpoint startswith (s p : str) : bool :=
  match p, s with
  | [], _ => true
  | _ :: _, [] => false
  | c :: p', d :: s' => (c =? d)%N && startswith s' p'
  end.

(** [s.endswith(p)] *)
Definition endswith (s p : str) : bool :=
  startswith (rev s) (rev p).

(** [p in s] for strings: some suffix of [s] starts with [p]. *)
Fixpoint contains (s p : str) : bool :=
  startswith s p ||
  match s with
  | [] => false
  | _ :: s' => contains s' p
  end.

(** [sep.join(parts)] *)
Fixpoint join (sep : str) (parts : list str) : str :=
  match parts with
  | [] => []
  | [p] => p
  | p :: rest => p ++ sep ++ join sep rest
  end.

(** [m.get(k, default)] on a dictionary literal with string keys. *)
Fixpoint map_get {A} (k : str) (m : list (str * A)) (default : A) : A :=
  match m with
  | [] => default
  | (k', v) :: m' => if str_eqb k k' then v else map_get k m' default
  end.

(** [any(w in s for w in ws)] *)
Definition any_in (s : str) (ws : list str) : bool :=
  existsb (contains s) ws.

(** [s.split(sep)[0]] for a one-character separator: the part of [s] before
    the first [sep], the whole of [s] when there is none. *)
Fixpoint split_head (sep : N) (s : str) : str :=
  match s with
  | [] => []
  | c :: s' => if (c =? sep)%N then [] else c :: split_head sep s'
  end.

(** The code points [str.isspace] accepts; [str.strip()] removes them. *)
Definition isspace (c : N) : bool :=
  ((9 <=? c) && (c <=? 13) || (28 <=? c) && (c <=? 32) ||
   (c =? 133) || (c =? 160) || (c =? 5760) ||
   (8192 <=? c) && (c <=? 8202) || (c =? 8232) || (c =? 8233) ||
   (c =? 8239) || (c =? 8287) || (c =? 12288))%N.

Fixpoint lstrip (s : str) : str :=
  match s with
  | [] => []
  | c :: s' => if isspace c then lstrip s' else s
  end.

Definition strip (s : str) : str :=
  rev (lstrip (rev (lstrip s))).

(** [s.replace(old, new)] for a non-empty [old]: occurrences are replaced
    from the left and do not overlap.  [skip] counts the characters of a
    replaced occurrence that are still to be dropped. *)
Fixpoint replace_go (old new : str) (skip : nat) (s : str) : str :=
  match s with
  | [] => []
  | c :: s' =>
      match skip with
      | S k => replace_go old new k s'
      | O =>
          if startswith s old
          then new ++ replace_go old new (List.length old - 1) s'
          else c :: replace_go old new 0 s'
      end
  end.

Definition replace (s old new : str) : str := replace_go old new 0 s.

(** *** The three regular expressions of the source

    [\d] on a [str] pattern is the interpreter's table of decimal digits,
    passed as [isd]. *)

(** [re.findall(r'\d+', s)]: the maximal runs of digits. [run] is the run
    being read, most recent digit first. *)
Fixpoint findall_digits_go (isd : N -> bool) (run : str) (s : str) : list str :=
  match s with
  | [] => match run with [] => [] | _ => [rev run] end
  | c :: s' =>
      if isd c then findall_digits_go isd (c :: run) s'
      else match run with
           | [] => findall_digits_go isd [] s'
           | _ => rev run :: findall_digits_go isd [] s'
           end
  end.

Definition findall_digits (isd : N -> bool) (s : str) : list str :=
  findall_digits_go isd [] s.

(** [re.findall(r'\d+\.?\d*', s)]: a run of digits, then a dot if one
    follows, then the digits after it.  The matcher is greedy and never has
    to give anything back, since what follows [\d+] also matches the empty
    string. *)
Inductive number_phase :=
| Idle
| IntPart (run : str)
| FracPart (run : str).

Fixpoint findall_number_go (isd : N -> bool) (ph : number_phase) (s : str)
  : list str :=
  match s with
  | [] =>
      match ph with
      | Idle => []
      | IntPart run | FracPart run => [rev run]
      end
  | c :: s' =>
      match ph with
      | Idle =>
          if isd c then findall_number_go isd (IntPart [c]) s'
          else findall_number_go isd Idle s'
      | IntPart run =>
          if isd c then findall_number_go isd (IntPart (c :: run)) s'
          else if (c =? 46)%N then findall_number_go isd (FracPart (c :: run)) s'
          else rev run :: findall_number_go isd Idle s'
      | FracPart run =>
          if isd c then findall_number_go isd (FracPart (c :: run)) s'
          else rev run :: findall_number_go isd Idle s'
      end
  end.

Definition findall_number (isd : N -> bool) (s : str) : list str :=
  findall_number_go isd Idle s.

(** [re.search(r'(a1|a2|...)', s)] for literal alternatives: the leftmost
    position where one of them matches, and there the first that does;
    the result is [group(1)]. *)
Fixpoint search_alt (alts : list str) (s : str) : option str :=
  match find (startswith s) alts with
  | Some a => Some a
  | None =>
      match s with
      | [] => None
      | _ :: s' => search_alt alts s'
      end
  end.

End PyStr.
Import PyStr.

(** ** Integers as text

    [str(n)] and the [{n}] of an f-string write an [int] in decimal, with
    a minus sign when it is negative; [int(s)], on a string made of
    decimal digits only, reads it back, every digit with the value the
    interpreter's table gives it (passed as [dv]). *)

Module PyInt.

(** The decimal digits of a positive [n], least significant first.
    [fuel] bounds the number of digits. *)
Fixpoint digits_rev (fuel : nat) (n : Z) : str :=
  match fuel with
  | O => []
  | S f =>
      if (n <=? 0)%Z then []
      else Z.to_N (48 + n mod 10) :: digits_rev f (n / 10)
  end.

Definition str_of_nonneg (n : Z) : str :=
  if (n =? 0)%Z then [48%N]
  else rev (digits_rev (S (Z.to_nat (Z.log2 n))) n).

Definition str_of_int (n : Z) : str :=
  if (n <? 0)%Z then 45%N :: str_of_nonneg (- n) else str_of_nonneg n.

Definition int_of_digits (dv : N -> Z) (s : str) : Z :=
  fold_left (fun acc c => (10 * acc + dv c)%Z) s 0%Z.

End PyInt.
Import PyInt.

(** ** Dynamic values, dictionaries and exceptions *)

Module PyVal.

(** The values a decoded JSON document and the analysis records are made
    of.  JSON numbers with a fraction or an exponent become Python floats
    and are outside this type. *)
Inductive pyval :=
| VNone
| VBool (b : bool)
| VInt (n : Z)
| VStr (s : str)
| VList (l : list pyval)
| VDict (d : list (str * pyval)).

Definition dict := list (str * pyval).

(** [d.get(k)] *)
Fixpoint dict_get (k : str) (d : dict) : option pyval :=
  match d with
  | [] => None
  | (k', v) :: d' => if str_eqb k k' then Some v else dict_get k d'
  end.

(** [d[k] = v]: an existing key keeps its place, a new key goes last. *)
Fixpoint dict_set (k : str) (v : pyval) (d : dict) : dict :=
  match d with
  | [] => [(k, v)]
  | (k', v') :: d' =>
      if str_eqb k k' then (k, v) :: d' else (k', v') :: dict_set k v d'
  end.

(** The exceptions the modelled code can meet.  All of them derive from
    [Exception]; signals that do not ([KeyboardInterrupt], [SystemExit])
    are not part of the model. *)
Inductive exn :=
| JSONDecodeError
| KeyError (k : str)
| TypeError
| AttributeError
| IndexError
| APIError (msg : str).

Inductive res (A : Type) :=
| Ok (a : A)
| Raise (e : exn).
Arguments Ok {A} a.
Arguments Raise {A} e.

Definition bind {A B} (r : res A) (k : A -> res B) : res B :=
  match r with
  | Ok a => k a
  | Raise e => Raise e
  end.

Notation "x <- c ;; k" := (bind c (fun x => k))
  (at level 61, c at next level, right associativity).

(** [v[k]] on a value: [KeyError] on a dictionary without the key,
    [TypeError] on anything that is not a dictionary. *)
Definition subscript (v : pyval) (k : str) : res pyval :=
  match v with
  | VDict d =>
      match dict_get k d with
      | Some x => Ok x
      | None => Raise (KeyError k)
      end
  | _ => Raise TypeError
  end.

(** [a + b].  [bool] is a subclass of [int]; strings and lists
    concatenate; everything else is a [TypeError]. *)
Definition as_int (v : pyval) : option Z :=
  match v with
  | VInt n => Some n
  | VBool b => Some (if b then 1 else 0)%Z
  | _ => None
  end.

Definition py_add (a b : pyval) : res pyval :=
  match as_int a, as_int b with
  | Some x, Some y => Ok (VInt (x + y))
  | _, _ =>
      match a, b with
      | VStr x, VStr y => Ok (VStr (x ++ y))
      | VList x, VList y => Ok (VList (x ++ y))
      | _, _ => Raise TypeError
      end
  end.

(** [int.__round__]: [round(n, ndigits)] is [n] itself for
    [ndigits >= 0]; a negative [ndigits] rounds to a multiple of
    [10 ** -ndigits], ties to the even multiple. *)
Definition round_int (n ndigits : Z) : Z :=
  if (0 <=? ndigits)%Z then n
  else
    let p := (10 ^ (- ndigits))%Z in
    let q := (n / p)%Z in
    let r := (n mod p)%Z in
    if (p <? 2 * r)%Z || ((p =? 2 * r)%Z && Z.odd q)
    then ((q + 1) * p)%Z else (q * p)%Z.

(** [round(v, 1)]: only numbers can be rounded. *)
Definition py_round1 (v : pyval) : res pyval :=
  match as_int v with
  | Some x => Ok (VInt (round_int x 1))
  | None => Raise TypeError
  end.

(** *** Reading a score table

    The nine entries of a [scores] dictionary, when all of them are there
    and hold an [int]. *)
Record ScoreSet := {
  total : Z;
  interest_score : Z;
  utility_score : Z;
  innovation : Z;
  pain_point : Z;
  potential : Z;
  social : Z;
  practicality : Z;
  feasibility : Z
}.

Definition get_int (k : str) (d : dict) : option Z :=
  match dict_get k d with
  | Some (VInt n) => Some n
  | _ => None
  end.

Definition as_scoreset (v : pyval) : option ScoreSet :=
  match v with
  | VDict d =>
      match get_int (u "total") d, get_int (u "interest_score") d,
            get_int (u "utility_score") d, get_int (u "innovation") d,
            get_int (u "pain_point") d, get_int (u "potential") d,
            get_int (u "social") d, get_int (u "practicality") d,
            get_int (u "feasibility") d with
      | Some t, Some i, Some ut, Some a, Some b, Some c, Some d', Some e, Some f =>
          Some {| total := t; interest_score := i; utility_score := ut;
                  innovation := a; pain_point := b; potential := c;
                  social := d'; practicality := e; feasibility := f |}
      | _, _, _, _, _, _, _, _, _ => None
      end
  | _ => None
  end.

(** The entry [k] of a score table as a number; [bool] counts as [int]. *)
Definition sub_int (k : str) (d : dict) : option Z :=
  match dict_get k d with
  | Some v => as_int v
  | None => None
  end.

(** The sum of the six sub-scores. *)
Definition sub_score_sum (s : ScoreSet) : Z :=
  (innovation s + pain_point s + potential s + social s +
   practicality s + feasibility s)%Z.

(** *** Filled text

    A string with at least one character, or a sequence or dictionary
    with at least one entry and only filled entries. *)
Fixpoint filled (v : pyval) : bool :=
  match v with
  | VNone => false
  | VBool _ => false
  | VInt _ => false
  | VStr s => match s with [] => false | _ => true end
  | VList l => match l with [] => false | _ => forallb filled l end
  | VDict d =>
      match d with
      | [] => false
      | _ => forallb (fun kv => filled (snd kv)) d
      end
  end.

(** *** More built-ins on values *)

(** [v.get(k, default)]: only dictionaries have the method. *)
Definition py_get (v : pyval) (k : str) (default : pyval) : res pyval :=
  match v with
  | VDict d =>
      match dict_get k d with
      | Some x => Ok x
      | None => Ok default
      end
  | _ => Raise AttributeError
  end.

(** [v == n] for an [int] literal [n]. *)
Definition eq_int (v : pyval) (n : Z) : bool :=
  match as_int v with
  | Some x => (x =? n)%Z
  | None => false
  end.

(** [l[:n]] on a sequence: the first [n] elements, or all but the last
    [-n] when [n] is negative. *)
Definition slice_to {A} (n : Z) (l : list A) : list A :=
  if (0 <=? n)%Z then firstn (Z.to_nat n) l
  else firstn (List.length l - Z.to_nat (- n)) l.

(** [v[:n]]: lists and strings can be sliced. *)
Definition py_slice_to (v : pyval) (n : Z) : res pyval :=
  match v with
  | VList l => Ok (VList (slice_to n l))
  | VStr s => Ok (VStr (slice_to n s))
  | _ => Raise TypeError
  end.

(** [len(v)] *)
Definition py_len (v : pyval) : res Z :=
  match v with
  | VList l => Ok (Z.of_nat (List.length l))
  | VStr s => Ok (Z.of_nat (List.length s))
  | VDict d => Ok (Z.of_nat (List.length d))
  | _ => Raise TypeError
  end.

(** [range(a, b)] *)
Definition py_range (a b : Z) : list Z :=
  map (fun k => (a + Z.of_nat k)%Z) (seq 0 (Z.to_nat (b - a))).

End PyVal.
Import PyVal.

(** ** The interpreter

    What the scripts take from the Python runtime and cannot see inside:
    the built-in [hash] on strings, the generator behind the [random]
    module, and the table of decimal digits the [re] module uses for [\d].
    An [Interpreter] is one running process: [hash] is fixed for its whole
    life.  [randint_range] is the documented contract of
    [random.randint(a, b)]: an integer [N] with [a <= N <= b]. *)

Class Interpreter := {
  rng : Type;
  hash : str -> Z;
  seed : Z -> rng;
  randint : Z -> Z -> rng -> Z * rng;
  isdecimal : N -> bool;
  randint_range :
    forall a b g, (a <= b)%Z -> (a <= fst (randint a b g) <= b)%Z
}.
Arguments randint_range {Interpreter} a b g _.

(** ** [sorted]

    [sorted(iterable, key=..., reverse=...)] computes the key of every
    element first, in order, and then sorts on the keys with [<] alone.
    The sort is stable; with [reverse=True] the list is reversed, sorted
    and reversed back, which keeps it stable.  The stable sort is written
    as the insertion sort it is on short lists. *)

Module PySort.
Section Sorted.
Variable A : Type.

(** Put [x], which came before everything in [l], before the first
    element that is not smaller. *)
Fixpoint insert_by (x : Z * A) (l : list (Z * A)) : list (Z * A) :=
  match l with
  | [] => [x]
  | y :: l' =>
      if (fst y <? fst x)%Z then y :: insert_by x l' else x :: y :: l'
  end.

Fixpoint sort_by (l : list (Z * A)) : list (Z * A) :=
  match l with
  | [] => []
  | x :: l' => insert_by x (sort_by l')
  end.

Fixpoint decorate (key : A -> res Z) (l : list A) : res (list (Z * A)) :=
  match l with
  | [] => Ok []
  | x :: l' =>
      k <- key x ;;
      rest <- decorate key l' ;;
      Ok ((k, x) :: rest)
  end.

Definition sorted (key : A -> res Z) (reverse : bool) (l : list A)
  : res (list A) :=
  d <- decorate key l ;;
  Ok (map snd (if reverse then rev (sort_by (rev d)) else sort_by d)).

(** What [sorted(..., reverse=True)] does to the decorated list. *)
Definition reversed_sort (d : list (Z * A)) : list (Z * A) :=
  rev (sort_by (rev d)).

(** The pairs whose key is [v]. *)
Definition keq (v : Z) (p : Z * A) : bool := (fst p =? v)%Z.

(** A decorated pair carries the key of its element. *)
Definition faithful (key : A -> res Z) (p : Z * A) : Prop :=
  key (snd p) = Ok (fst p).

(** Non-decreasing and non-increasing keys. *)
Definition asc (p q : Z * A) : Prop := (fst p <= fst q)%Z.
Definition desc (p q : Z * A) : Prop := (fst q <= fst p)%Z.

(** The elements whose key is [v]: what a stable sort leaves in the
    order of the input. *)
Definition has_key (key : A -> res Z) (v : Z) (x : A) : bool :=
  match key x with
  | Ok k => (k =? v)%Z
  | Raise _ => false
  end.

End Sorted.
End PySort.
Import PySort.

(** ** Report file names

    The reports of one day are [weibo_hot_<date>_<n>.html].  [date_str]
    comes from [strftime("%Y%m%d")]: it is made of digits, so it stands
    for itself both in the glob pattern and in the regular expression. *)

Module PyFiles.

Definition file_prefix (date_str : str) : str :=
  u "weibo_hot_" ++ date_str ++ u "_".

(** [output_dir.glob(f"weibo_hot_{date_str}_*.html")], on the names of
    the directory: the name starts with the prefix, ends with [.html],
    and the two do not overlap. *)
Definition glob_match (date_str : str) (name : str) : bool :=
  startswith name (file_prefix date_str) &&
  endswith name (u ".html") &&
  (List.length (file_prefix date_str) + List.length (u ".html")
     <=? List.length name).

(** The longest prefix of [s] made of digits. *)
Fixpoint take_digits (isd : N -> bool) (s : str) : str :=
  match s with
  | [] => []
  | c :: s' => if isd c then c :: take_digits isd s' else []
  end.

(** One position of [re.search(rf'weibo_hot_{date_str}_(\d+)\.html', name)]:
    the prefix, then as many digits as there are, at least one, then
    [.html].  Giving digits back cannot help: what follows would be a
    digit, not the dot. *)
Definition match_here (isd : N -> bool) (date_str : str) (s : str)
  : option str :=
  if startswith s (file_prefix date_str) then
    let rest := skipn (List.length (file_prefix date_str)) s in
    let digits := take_digits isd rest in
    match digits with
    | [] => None
    | _ =>
        if startswith (skipn (List.length digits) rest) (u ".html")
        then Some digits else None
    end
  else None.

(** The search itself: the leftmost position that matches; the result is
    [match.group(1)]. *)
Fixpoint search_number (isd : N -> bool) (date_str : str) (name : str)
  : option str :=
  match match_here isd date_str name with
  | Some digits => Some digits
  | None =>
      match name with
      | [] => None
      | _ :: rest => search_number isd date_str rest
      end
  end.

(** [numbers]: for every file of the glob, in order, the number the
    search finds in its name, if any. *)
Definition numbers_of (isd : N -> bool) (dv : N -> Z) (date_str : str)
  (existing_files : list str) : list Z :=
  flat_map
    (fun name =>
       match search_number isd date_str name with
       | Some digits => [int_of_digits dv digits]
       | None => []
       end)
    existing_files.

(** [max(numbers)] for a list with head [n]. *)
Definition py_max (n : Z) (ns : list Z) : Z := fold_left Z.max ns n.

(** [get_next_file_number(date_str)], given the names in the output
    directory.  v2.1 has the same lines inside [generate_html_report]. *)
Definition get_next_file_number (isd : N -> bool) (dv : N -> Z)
  (date_str : str) (names : list str) : Z :=
  let existing_files := filter (glob_match date_str) names in
  match existing_files with
  | [] => 1%Z
  | _ =>
      match numbers_of isd dv date_str existing_files with
      | [] => 1%Z
      | n :: ns => (py_max n ns + 1)%Z
      end
  end.

(** [f"weibo_hot_{date_str}_{file_number}.html"] *)
Definition report_filename (date_str : str) (file_number : Z) : str :=
  file_prefix date_str ++ str_of_int file_number ++ u ".html".

End PyFiles.
Import PyFiles.

(** ** Shared shapes *)

(** A search result, [{"title": title, "url": url}]. *)
Record SearchResult := {
  title : str;
  url : str
}.

(** The three-stage timeline, [{'cause': ..., 'develop': ..., 'impact': ...}]. *)
Record timeline := {
  cause : str;
  develop : str;
  impact : str
}.

(** One entry of [hot_topics_with_analysis], as [main] appends it:
    [{"topic", "rank", "hot_score", "search_results", "analysis"}]. *)
Record topic_data := {
  td_topic : str;
  td_rank : Z;
  td_hot_score : Z;
  td_search_results : list SearchResult;
  td_analysis : pyval
}.

(** An entry of the hot list, after the probing of its key spellings. *)
Record hot_item := {
  hotWord : str;
  hotScore : Z
}.

(** ** v1.0: weibo_hot_analyzer.py *)

Module V1.
Section WithInterpreter.
Context {I : Interpreter}.

(** *** Topic classifier *)

Record topic_analysis := {
  type : str;
  theme : str
}.

Definition theme_patterns : list (str * list str) :=
  [ (u "电商零售", map u ["胖东来"; "京东"; "淘宝"; "天猫"; "价格"; "商品"; "购物"; "优惠"; "羽绒服"; "好物"]);
    (u "娱乐影视", map u ["轧戏"; "演员"; "电影"; "电视剧"; "综艺"; "明星"; "薛之谦"; "蔡徐坤"; "有歌"]);
    (u "游戏", map u ["世界之外"; "第五人格"; "游戏"; "开大"; "王者"; "原神"; "英雄联盟"]);
    (u "科技数码", map u ["手机"; "华为"; "小米"; "苹果"; "芯片"; "AI"; "发布"; "新品"]);
    (u "社会热点", map u ["火灾"; "事故"; "女孩"; "晕倒"; "离职"; "被封"; "争议"]);
    (u "汽车", map u ["汽车"; "长城"; "特斯拉"; "比亚迪"; "发布会"; "新车"]);
    (u "国际", map u ["韩国"; "日本"; "美国"; "全球"; "国际"]);
    (u "节日活动", map u ["新年"; "春节"; "双11"; "618"; "大紫大红"]) ]%string.

(** First loop: [if topic in keywords: return]. *)
Fixpoint exact_pass (topic : str) (patterns : list (str * list str))
  : option str :=
  match patterns with
  | [] => None
  | (theme_name, keywords) :: rest =>
      if in_list topic keywords then Some theme_name
      else exact_pass topic rest
  end.

(** Second loop: [if any(kw in topic for kw in keywords): break]. *)
Fixpoint substring_pass (topic : str) (patterns : list (str * list str))
  : option str :=
  match patterns with
  | [] => None
  | (theme_name, keywords) :: rest =>
      if existsb (fun kw => contains topic kw) keywords then Some theme_name
      else substring_pass topic rest
  end.

Definition analyze_topic_keywords (topic : str) : topic_analysis :=
  match exact_pass topic theme_patterns with
  | Some theme_name => {| type := theme_name; theme := theme_name |}
  | None =>
      match substring_pass topic theme_patterns with
      | Some theme_name => {| type := theme_name; theme := theme_name |}
      | None => {| type := u "综合资讯"; theme := u "热点追踪" |}
      end
  end.

(** *** Templates *)

Definition generate_product_name (topic topic_type theme : str) : str :=
  let product_names :=
    [ (u "电商零售", u "「" ++ firstn 6 topic ++ u "」智能比价助手");
      (u "娱乐影视", u "「" ++ firstn 6 topic ++ u "」影视追踪器");
      (u "游戏", u "「" ++ firstn 6 topic ++ u "」游戏攻略社区");
      (u "科技数码", u "「" ++ firstn 6 topic ++ u "」评测分析平台");
      (u "社会热点", u "「" ++ firstn 6 topic ++ u "」事件追踪报");
      (u "汽车", u "「" ++ firstn 6 topic ++ u "」选车决策助手");
      (u "国际", u "「" ++ firstn 6 topic ++ u "」全球资讯聚合");
      (u "节日活动", u "「" ++ firstn 6 topic ++ u "」活动攻略指南") ] in
  map_get topic_type product_names
    (u "「" ++ firstn 8 topic ++ u "」智能分析助手").

Definition generate_core_features_by_topic (topic topic_type theme : str)
  : list str :=
  let features_map :=
    [ (u "电商零售",
        [ u "实时价格监控 - 追踪'" ++ topic ++ u "'相关商品的价格波动，第一时间通知降价";
          u "历史价格走势 - 展示商品过去3个月的价格变化曲线，智能预测最佳购买时机";
          u "全网比价功能 - 一键对比京东、淘宝、天猫等平台同款商品价格";
          u "品质评价分析 - 基于'" ++ topic ++ u "'的用户评价，AI生成真实的质量分析报告";
          u "优惠券聚合 - 自动收集各平台相关商品的隐藏优惠券和促销信息" ]);
      (u "娱乐影视",
        [ u "影视资讯追踪 - 实时推送'" ++ topic ++ u "'相关影视动态、开机消息、播出时间";
          u "剧情智能解析 - AI分析剧情走向，提供角色关系图谱和关键情节解读";
          u "口碑评分预测 - 基于社交媒体数据，预测影视作品的口碑走向";
          u "追剧日程管理 - 自动整理更新时间表，不错过任何一集精彩内容";
          u "同好社区互动 - 与关注'{topic}'的观众实时交流讨论" ]);
      (u "游戏",
        [ u "游戏攻略库 - 精选'" ++ topic ++ u "'最新攻略、隐藏彩蛋、通关技巧";
          u "实时战报追踪 - 关注游戏赛事动态，职业选手操作分析";
          u "组队匹配系统 - 快速找到志同道合的队友一起游戏";
          u "版本更新解读 - 每次更新后第一时间解析改动内容和影响";
          u "游戏数据分析 - 个人游戏数据可视化，提供提升建议" ]);
      (u "科技数码",
        [ u "深度评测解读 - 针对'" ++ topic ++ u "'的专业评测汇总和购买建议";
          u "参数对比工具 - 与竞品进行详细参数对比，一目了然";
          u "用户真实反馈 - 收集真实用户的使用体验和问题反馈";
          u "发布时间提醒 - 新品发布倒计时，第一时间获取购买链接";
          u "性价比分析 - 综合价格、性能、口碑计算性价比得分" ]);
      (u "社会热点",
        [ u "事件时间线还原 - 梳理'" ++ topic ++ u "'的完整发展脉络，关键节点一目了然";
          u "多方观点聚合 - 汇集不同立场、不同角度的报道和评论";
          u "信息真伪辨析 - AI辅助判断信息真实性，标注不实传闻";
          u "影响范围分析 - 展示事件涉及的地域、人群和行业影响";
          u "后续跟踪提醒 - 事件有新进展时自动推送更新" ]);
      (u "汽车",
        [ u "车型深度对比 - '" ++ topic ++ u "'与同级竞品的全方位对比分析";
          u "真实车主口碑 - 收集长期使用该车型的真实反馈";
          u "购车时机建议 - 分析优惠政策、库存情况，建议最佳购车时间";
          u "配置智能推荐 - 根据使用场景推荐最适合的配置组合";
          u "用车成本计算 - 包含保险、油耗、保养的全生命周期成本" ]);
      (u "国际",
        [ u "多语言资讯聚合 - 收集全球媒体对'" ++ topic ++ u "'的不同报道";
          u "背景知识科普 - 提供事件相关的历史、地理、政治背景";
          u "专家观点解读 - 邀请国际关系专家分析事件深层含义";
          u "实时动态推送 - 重大进展第一时间通知";
          u "影响预测分析 - 分析事件对各领域可能产生的影响" ]);
      (u "节日活动",
        [ u "活动攻略大全 - '" ++ topic ++ u "'期间各平台优惠活动整理";
          u "省钱方案推荐 - AI计算最优购买组合，最大化省钱";
          u "时间轴提醒 - 重要活动节点倒计时提醒";
          u "避坑指南 - 基于往年经验，提醒常见套路和陷阱";
          u "礼品推荐助手 - 根据预算和对象智能推荐礼物" ]) ] in
  map_get topic_type features_map
    [ u "智能内容推荐 - AI根据'" ++ topic ++ u "'推送最相关的内容";
      u "实时动态追踪 - 第一时间获取'{topic}'的最新进展";
      u "个性化定制 - 根据用户偏好自定义展示内容";
      u "社交互动分享 - 支持一键分享到各大平台";
      u "数据可视化看板 - 直观展示关键数据和趋势" ].

Definition generate_pain_points_by_topic (topic topic_type theme : str)
  : list str :=
  let pain_points_map :=
    [ (u "电商零售",
        [ u "想了解'" ++ topic ++ u "'的真实价格，但不同平台价格差异大，对比耗时耗力";
          u "不知道什么时候是最佳购买时机，怕买贵了";
          u "商品评价真假难辨，刷单好评混杂，难以判断真实质量";
          u "优惠券分散在各个平台，领取和使用流程繁琐";
          u "缺乏专业的商品分析，购买决策缺乏数据支撑" ]);
      (u "娱乐影视",
        [ u "'" ++ topic ++ u "'相关信息分散在各大平台，收集整理麻烦";
          u "剧情讨论剧透混杂，想看分析又怕被剧透";
          u "影视作品质量参差不齐，浪费时间在烂片上";
          u "更新时间不固定，经常错过最新一集";
          u "找不到同好交流，独自追剧/追星缺少互动乐趣" ]);
      (u "游戏",
        [ u "'" ++ topic ++ u "'攻略散落各处，查找困难且质量参差";
          u "单排游戏体验差，找不到靠谱的队友";
          u "游戏频繁更新，跟不上版本变化导致操作变形";
          u "想提升技术但缺乏系统性的学习资源";
          u "游戏数据分散，无法直观看到自己的进步" ]);
      (u "科技数码",
        [ u "'" ++ topic ++ u "'相关评测信息杂乱，专业和客观的内容难找";
          u "参数复杂看不懂，不知道哪款更适合自己";
          u "用户反馈分散，购买前很难了解真实使用体验";
          u "新品发布信息滞后，错过首发优惠";
          u "缺乏横向对比，不清楚性价比如何" ]);
      (u "社会热点",
        [ u "'" ++ topic ++ u "'信息真假难辨，谣言和官方消息混杂";
          u "事件报道片面，只看到单方面立场，缺乏全面视角";
          u "后续跟进不及时，想知道结果却找不到下文";
          u "讨论情绪化严重，理性客观的分析难以发现";
          u "缺乏背景知识，看不懂事件的深层含义" ]);
      (u "汽车",
        [ u "'" ++ topic ++ u "'车型众多，不知道哪款最适合自己的需求";
          u "销售话术真假难辨，担心被忽悠";
          u "配置复杂选装困难，不知道哪些配置实用";
          u "购车时机难把握，怕买早了优惠，买晚了涨价";
          u "缺乏真实车主反馈，提车后发现问题" ]);
      (u "国际",
        [ u "'" ++ topic ++ u "'报道语言障碍，只能看中文二手资讯";
          u "缺乏国际背景知识，看不懂事件的来龙去脉";
          u "信息来源单一，容易形成片面认知";
          u "专业分析门槛高，普通用户难以深入理解";
          u "时效性差，重要新闻延迟才能看到" ]);
      (u "节日活动",
        [ u "'" ++ topic ++ u "'期间活动规则复杂，看半天也搞不清楚";
          u "优惠券限制条件多，使用时发现不符合条件";
          u "跟风消费后发现不实用，浪费钱";
          u "活动信息分散，错过了很多真正优惠的好机会";
          u "礼品选择困难，送重复了或者送的不合适" ]) ] in
  map_get topic_type pain_points_map
    [ u "关于'" ++ topic ++ u "'的信息分散在各个平台，收集整理耗时";
      u "缺乏专业深度分析，只看到表面现象";
      u "个性化推荐不足，被无关信息干扰";
      u "互动分享体验差，优质内容传播受限";
      u "数据可视化不够，关键信息不直观" ].

Definition generate_target_users_by_topic (topic topic_type : str) : str :=
  let user_map :=
    [ (u "电商零售", u "关注'" ++ topic ++ u "'的网购爱好者，追求高性价比，注重商品真实评价，希望用最优惠的价格买到心仪商品");
      (u "娱乐影视", u "关注'" ++ topic ++ u "'的影视娱乐爱好者，追剧追星族，喜欢与他人讨论分享，希望获取最新最全的娱乐资讯");
      (u "游戏", u "'" ++ topic ++ u "'的玩家群体，包括新手和老玩家，希望提升游戏技巧，寻找游戏伙伴，了解游戏最新动态");
      (u "科技数码", u "对'" ++ topic ++ u "'感兴趣的科技爱好者，注重产品性能和性价比，购买前喜欢做功课研究");
      (u "社会热点", u "关注'" ++ topic ++ u "'的社会公众，希望了解事件真相和各方观点，追求客观理性的信息");
      (u "汽车", u "考虑购买'" ++ topic ++ u "'相关车型的消费者，正在选车对比，需要专业的购车建议");
      (u "国际", u "关注'" ++ topic ++ u "'国际新闻的用户，希望获取多角度的深度报道");
      (u "节日活动", u "参与'" ++ topic ++ u "'相关活动的用户，希望最大化优惠，获得最佳活动体验") ] in
  map_get topic_type user_map
    (u "关注'" ++ topic ++ u "'话题的用户群体，希望获取相关深度信息和专业分析").

Definition generate_innovation_points_by_topic (topic theme : str) : list str :=
  [ u "首创针对'" ++ topic ++ u "'场景的专业分析模型";
    u "AI智能识别关键信息，过滤噪音内容";
    u "多维度数据融合，提供全景式视角";
    u "实时追踪+历史回溯，完整把握事件脉络";
    u "社交化协作，让用户参与内容共建" ].

Definition generate_market_potential_by_topic (topic theme : str) : dict :=
  [ (u "market_size", VStr (u "基于'" ++ topic ++ u "'的垂直细分市场，用户基数持续增长"));
    (u "growth_stage", VStr (u "快速成长期，市场潜力大"));
    (u "competitive_advantage", VStr (u "深耕" ++ topic ++ u "细分领域，形成专业壁垒"));
    (u "revenue_model", VStr (u "会员订阅+增值服务+精准广告")) ].

(** *** Scorer

    [random.seed(hash(topic))] replaces the state of the module-level
    generator, whatever it was; the six draws follow in the order of the
    source.  All the operands are [int], so [round(..., 1)] is
    [int.__round__]. *)
Definition calculate_scores (topic : str) (g : rng) : pyval * rng :=
  let g := seed (hash topic) in
  let '(innovation, g) := randint 15 30 g in
  let '(pain_point, g) := randint 15 25 g in
  let '(potential, g) := randint 10 15 g in
  let '(social, g) := randint 5 10 g in
  let interest_score := (innovation + pain_point + potential + social)%Z in
  let '(practicality, g) := randint 5 10 g in
  let '(feasibility, g) := randint 5 10 g in
  let utility_score := (practicality + feasibility)%Z in
  let total_score := round_int (interest_score + utility_score) 1 in
  (VDict
     [ (u "total", VInt total_score);
       (u "interest_score", VInt interest_score);
       (u "utility_score", VInt utility_score);
       (u "innovation", VInt innovation);
       (u "pain_point", VInt pain_point);
       (u "potential", VInt potential);
       (u "social", VInt social);
       (u "practicality", VInt practicality);
       (u "feasibility", VInt feasibility) ],
   g).

(** *** One-paragraph event timeline *)

(** The loop that fills [key_info]: the first five results, titles cut at
    the first [_], [-] and [|], kept when 11 to 79 characters long. *)
Definition event_key_info (search_results : list SearchResult) : list str :=
  flat_map
    (fun result =>
       let title := title result in
       match title with
       | [] => []
       | _ =>
           let clean_title := split_head 124 (split_head 45 (split_head 95 title)) in
           if (10 <? List.length clean_title) && (List.length clean_title <? 80)
           then [strip clean_title] else []
       end)
    (firstn 5 search_results).

(** [any(w in t for t in key_info for w in words)] *)
Definition any_word_in (key_info words : list str) : bool :=
  existsb (fun t => existsb (fun w => contains t w) words) key_info.

(** [s[:n] if len(s) > n else s] *)
Definition clip (n : nat) (s : str) : str :=
  if n <? List.length s then firstn n s else s.

(** The keyword fallback of [generate_event_timeline]. *)
Definition event_timeline_fallback (topic : str) : str :=
  if any_in topic (map u ["价格"; "进价"; "成本"; "售价"; "元"; "羽绒服"; "商品"]%string) then
    u "'" ++ topic ++ u "'引发热议。网友热议定价合理性，相关品牌方备受关注。目前话题持续发酵，成为消费热点。"
  else if any_in topic (map u ["火灾"; "事故"; "晕倒"; "去世"; "伤亡"; "意外"; "韩国火灾"]%string) then
    u "'" ++ topic ++ u "'事件令人揪心。相关部门已介入处理，公众持续关注事件进展。具体情况有待进一步通报。"
  else if any_in topic (map u ["发布"; "新品"; "上市"; "推出"; "亮相"; "发布会"]%string) then
    u "'" ++ topic ++ u "'引发广泛关注。产品亮点成为讨论焦点，市场反响热烈。消费者期待了解更多详情。"
  else if any_in topic (map u ["道歉"; "回应"; "澄清"; "声明"; "解释"; "离职"]%string) then
    u "'" ++ topic ++ u "'事件持续发酵。涉事方发布声明，公众对此反应不一。事件后续发展仍需关注。"
  else if any_in topic (map u ["游戏"; "开大"; "王者"; "原神"; "第五人格"; "世界之外"; "英雄联盟"]%string) then
    u "'" ++ topic ++ u "'在游戏圈引发热议。玩家讨论游戏玩法和更新内容，社区活跃度显著提升。"
  else if any_in topic (map u ["明星"; "演员"; "艺人"; "歌手"; "综艺"; "薛之谦"; "蔡徐坤"; "轧戏"; "有歌"]%string) then
    u "'" ++ topic ++ u "'成为娱乐热点。粉丝和网友热烈讨论相关话题，社交媒体热度持续攀升。"
  else if any_in topic (map u ["新年"; "春节"; "双11"; "618"; "活动"; "大紫大红"]%string) then
    u "'" ++ topic ++ u "'相关活动开启。各大平台推出优惠，消费者积极参与，销售额屡创新高。"
  else if any_in topic (map u ["汽车"; "长城"; "特斯拉"; "比亚迪"; "发布会"]%string) then
    u "'" ++ topic ++ u "'引发车圈关注。消费者关注产品性能和价格，期待更多产品细节披露。"
  else
    u "'" ++ topic ++ u "'话题引发广泛讨论。网友从不同角度表达观点，相关内容在社交平台快速传播，热度持续走高。".

(** [generate_event_timeline].  The indexings [key_info[0]], [key_info[1]]
    and [key_info[-1]] sit under [len(key_info) >= 2], which is the second
    pattern below; an empty [search_results] gives an empty [key_info]. *)
Definition generate_event_timeline (topic : str)
  (search_results : list SearchResult) : str :=
  match event_key_info search_results with
  | k0 :: k1 :: rest =>
      let key_info := k0 :: k1 :: rest in
      let has_early := any_word_in key_info (map u ["曝光"; "曝光了"; "首次"; "爆料"; "起因"]%string) in
      let has_develop := any_word_in key_info (map u ["回应"; "澄清"; "进展"; "最新"; "后续"; "发酵"]%string) in
      let has_result := any_word_in key_info (map u ["结果"; "宣布"; "定论"; "处罚"; "解决"]%string) in
      let parts :=
        [ u "'" ++ topic ++ u "'事件引发关注";
          if has_early then u "初期" ++ clip 30 k0
          else u "相关内容在网络上开始传播";
          if has_develop then u "随后" ++ clip 30 k1
          else u "讨论热度持续攀升";
          if has_result then u "最终" ++ clip 25 (last key_info k0)
          else u "目前事件仍在持续发酵中" ] in
      let timeline_text := join (u "。") parts ++ u "。" in
      if 100 <? List.length timeline_text then
        u "'" ++ topic ++ u "'引发热议。" ++ firstn 25 k0 ++ u "...目前持续关注。"
      else if List.length timeline_text <? 50 then
        timeline_text ++ u "相关讨论热度居高不下。"
      else timeline_text
  | _ => event_timeline_fallback topic
  end.

(** *** The rule-based synthesizer *)

Definition strs (l : list str) : pyval := VList (map VStr l).

Definition mock_ai_analysis (topic : str) (search_results : list SearchResult)
  (g : rng) : pyval * rng :=
  let topic_analysis := analyze_topic_keywords topic in
  let topic_type := type topic_analysis in
  let theme := theme topic_analysis in
  let '(scores, g) := calculate_scores topic g in
  (VDict
     [ (u "name", VStr (generate_product_name topic topic_type theme));
       (u "event_timeline", VStr (generate_event_timeline topic search_results));
       (u "core_features", strs (generate_core_features_by_topic topic topic_type theme));
       (u "market_pain_points", strs (generate_pain_points_by_topic topic topic_type theme));
       (u "target_users", VStr (generate_target_users_by_topic topic topic_type));
       (u "scores", scores);
       (u "innovation_points", strs (generate_innovation_points_by_topic topic theme));
       (u "market_potential", VDict (generate_market_potential_by_topic topic theme)) ],
   g).

(** [analyze_product_idea]: the [context] string it builds is never used. *)
Definition analyze_product_idea (topic : str)
  (search_results : list SearchResult) (g : rng) : pyval * rng :=
  mock_ai_analysis topic search_results g.

(** *** Three-stage timeline *)

(** The loop that fills [key_info] here: the first five results, titles
    longer than 10 characters, cut and stripped, kept when 9 to 59
    characters long. *)
Definition stage_key_info (search_results : list SearchResult) : list str :=
  flat_map
    (fun result =>
       let title := title result in
       if 10 <? List.length title then
         let clean_title :=
           strip (split_head 124 (split_head 45 (split_head 95 title))) in
         if (8 <? List.length clean_title) && (List.length clean_title <? 60)
         then [clean_title] else []
       else [])
    (firstn 5 search_results).

(** The closing [{'cause': cause[:100], 'develop': develop[:100],
    'impact': impact[:100]}] of every branch. *)
Definition capped (cause develop impact : str) : timeline :=
  {| cause := firstn 100 cause;
     develop := firstn 100 develop;
     impact := firstn 100 impact |}.

(** 1. prices and goods *)
Definition stage_price (topic : str) : timeline :=
  let numbers := findall_number isdecimal topic in
  let entity :=
    match search_alt (map u ["胖东来"; "京东"; "淘宝"; "天猫"; "商品"]%string) topic with
    | Some e => e
    | None => u "品牌方"
    end in
  match numbers with
  | n0 :: more =>
      if contains topic (u "羽绒服") then
        capped
          (topic ++ u "曝光，" ++ entity ++ u "商品定价引发热议")
          (u "网友热议'" ++ n0 ++ u "元'售价与'" ++
             match more with n1 :: _ => n1 | [] => [] end ++ u "元'进价的价差")
          (entity ++ u "回应舆论，公众关注商品定价透明度与商业利润")
      else
        capped
          (topic ++ u "价格信息曝光，引发消费者讨论")
          (u "网友热议'" ++ n0 ++ u "元'的定价合理性")
          (u "消费者对价格敏感度提升，相关品牌受到关注")
  | [] =>
      capped
        (topic ++ u "商品定价问题引发关注")
        (u "网友对比各平台价格，讨论性价比")
        (u "消费观念受到影响，更加注重价格透明度")
  end.

(** 2. entertainment *)
Definition stage_entertainment (topic : str) : timeline :=
  if contains topic (u "轧戏") then
    capped
      (u "有演员被指'" ++ topic ++ u "'，行业潜规则引发讨论")
      (u "网友热议演员职业操守和行业规范")
      (u "影视行业职业道德受到关注，演员管理规范被讨论")
  else if contains topic (u "连开") && contains topic (u "场") then
    let numbers := findall_digits isdecimal topic in
    let num := match numbers with n0 :: _ => n0 | [] => u "多" end in
    capped
      (topic ++ u "演唱会官宣，粉丝抢票热情高涨")
      (u "粉丝讨论" ++ num ++ u "场演出城市和门票信息")
      (u "演出市场复苏，歌手影响力获得关注")
  else
    capped
      (topic ++ u "成为娱乐热点，粉丝关注")
      (u "网友热议相关作品和动态")
      (u "艺人/作品热度提升，相关话题持续发酵").

(** 3. games *)
Definition stage_game (topic : str) : timeline :=
  if contains topic (u "世界之外") || contains topic (u "第五人格") then
    let game_name :=
      if contains topic (u "世界之外") then u "世界之外" else u "第五人格" in
    capped
      (game_name ++ u "游戏相关内容引发玩家关注")
      (u "玩家讨论游戏玩法、攻略和更新内容")
      (u "游戏社区活跃度提升，" ++ game_name ++ u "热度持续走高")
  else if contains topic (u "开大") then
    capped
      (u "游戏'" ++ topic ++ u "'操作或事件引发热议")
      (u "玩家分享游戏经验和技巧")
      (u "游戏话题出圈，引发更广泛讨论")
  else
    capped
      (topic ++ u "游戏相关话题引发关注")
      (u "玩家讨论游戏内容和玩法")
      (u "游戏社区热度提升，相关产品受关注").

(** 4. technology and medicine *)
Definition stage_tech (topic : str) : timeline :=
  if contains topic (u "3D打印") && contains topic (u "器官") then
    capped
      (topic ++ u "技术突破引发关注")
      (u "网友热议医疗科技进展和未来应用")
      (u "医疗科技受到关注，公众对生物打印技术讨论增多")
  else if contains topic (u "发布") || contains topic (u "新品") then
    capped
      (topic ++ u "相关产品发布，引发市场关注")
      (u "用户讨论产品性能、价格和购买信息")
      (u "相关行业受到影响，市场竞争加剧")
  else
    capped
      (topic ++ u "科技进展引发关注")
      (u "专业人士和用户讨论相关技术")
      (u "技术创新受到关注，行业受到影响").

(** 5. incidents and accidents *)
Definition stage_incident (topic : str) : timeline :=
  if contains topic (u "韩国") &&
     (contains topic (u "火灾") || contains topic (u "事故")) then
    let numbers := findall_digits isdecimal topic in
    let death_num :=
      match numbers with n0 :: _ => n0 ++ u "人" | [] => u "多人" end in
    capped
      (u "韩国发生" ++ replace topic (u "韩国") [] ++ u "事故，引发关注")
      (u "事故详情被报道，" ++ death_num ++ u "伤亡引发关注")
      (u "相关部门介入处理，公众关注事故原因和后续")
  else
    capped
      (topic ++ u "事件发生，引发公众关注")
      (u "媒体报道事件进展，网友持续关注")
      (u "事件影响扩散，相关讨论持续发酵").

(** 6. cars *)
Definition stage_car (topic : str) : timeline :=
  capped
    (topic ++ u "相关话题引发车圈关注")
    (u "消费者讨论产品性能、价格和配置")
    (u "汽车市场关注度提升，相关品牌受关注").

(** 7. festivals *)
Definition stage_festival (topic : str) : timeline :=
  capped
    (topic ++ u "相关活动开启，引发关注")
    (u "各大平台推出活动，消费者参与讨论")
    (u "消费热度提升，相关话题持续发酵").

(** the default *)
Definition stage_default (topic : str) : timeline :=
  if List.length topic <=? 20 then
    capped
      (topic ++ u "成为热门话题")
      (u "网友从不同角度讨论" ++ topic)
      (topic ++ u "相关讨论热度持续，影响扩大")
  else
    let key_part := firstn 20 topic in
    capped
      (key_part ++ u "...引发关注")
      (u "网友热议" ++ firstn 15 topic ++ u "...相关内容")
      (u "话题持续发酵，相关讨论热度走高").

(** The keyword-driven part: the [if]/[elif] chain in the order of the
    source. *)
Definition stage_by_keywords (topic : str) : timeline :=
  if any_in topic (map u ["胖东来"; "价格"; "进价"; "成本"; "羽绒服"; "元"]%string) then
    stage_price topic
  else if any_in topic (map u ["轧戏"; "薛之谦"; "蔡徐坤"; "连开"; "场"; "有歌"]%string) then
    stage_entertainment topic
  else if any_in topic (map u ["世界之外"; "第五人格"; "游戏"; "开大"; "王者"; "原神"]%string) then
    stage_game topic
  else if any_in topic (map u ["3D打印"; "器官"; "AI"; "芯片"; "发布"; "新品"]%string) then
    stage_tech topic
  else if any_in topic (map u ["火灾"; "事故"; "晕倒"; "伤亡"; "韩国"]%string) then
    stage_incident topic
  else if any_in topic (map u ["汽车"; "长城"; "特斯拉"; "比亚迪"; "发布会"]%string) then
    stage_car topic
  else if any_in topic (map u ["新年"; "春节"; "双11"; "618"; "大紫大红"]%string) then
    stage_festival topic
  else stage_default topic.

(** [generate_three_stage_timeline].  Under [len(key_info) >= 2] the
    conditional [... if len(key_info) > 1 else '相关话题'] always takes its
    first arm; [key_info[-1]] is used when there is a third entry. *)
Definition generate_three_stage_timeline (topic : str)
  (search_results : list SearchResult) : timeline :=
  match stage_key_info search_results with
  | k0 :: k1 :: rest =>
      let key_info := k0 :: k1 :: rest in
      let cause_text := firstn 40 k0 ++ u "成为关注焦点" in
      let develop_text := u "网友热议" ++ firstn 30 k1 in
      let impact_text :=
        u "事件持续发酵，" ++
        (if 2 <? List.length key_info then firstn 30 (last key_info k0)
         else u "相关讨论") ++
        u "热度居高不下" in
      capped cause_text develop_text impact_text
  | _ => stage_by_keywords topic
  end.

(** *** Analysis loop of [main]

    [web_search_topic] is the search collaborator; it returns [[]] when
    the search is switched off or fails. *)
Fixpoint analyze_hot_list (web_search_topic : str -> list SearchResult)
  (i : Z) (hot_list : list hot_item) (g : rng) : list topic_data * rng :=
  match hot_list with
  | [] => ([], g)
  | hot :: rest =>
      let topic := hotWord hot in
      let rank := i in
      let search_results := web_search_topic topic in
      let '(analysis, g) := analyze_product_idea topic search_results g in
      let entry :=
        {| td_topic := topic;
           td_rank := rank;
           td_hot_score := hotScore hot;
           td_search_results := search_results;
           td_analysis := analysis |} in
      let '(entries, g) := analyze_hot_list web_search_topic (i + 1) rest g in
      (entry :: entries, g)
  end.

(** *** Report data

    The HTML page is a fixed template around the values below; the
    template text itself is not modelled. *)

(** [x['analysis']['scores']['total']], the sort key.  Both synthesis
    paths store an [int] there; any other kind of value is reported as a
    [TypeError]. *)
Definition total_of (x : topic_data) : res Z :=
  scores <- subscript (td_analysis x) (u "scores") ;;
  total <- subscript scores (u "total") ;;
  match as_int total with
  | Some t => Ok t
  | None => Raise TypeError
  end.

(** Truth value of an object, as [if v] tests it. *)
Definition truthy (v : pyval) : bool :=
  match v with
  | VNone => false
  | VBool b => b
  | VInt n => negb (n =? 0)%Z
  | VStr s => match s with [] => false | _ => true end
  | VList l => match l with [] => false | _ => true end
  | VDict d => match d with [] => false | _ => true end
  end.

(** What [generate_three_stage_timeline] reads of the value found under
    [analysis['search_results']].  The function tests the value, takes
    [len] of it, slices its first five elements and calls
    [.get('title', '')] on each; a title passes [if title and
    len(title) > 10] and is then split.  A shape on which one of these
    steps raises gives the exception; a title the test skips is recorded
    as the empty title, which the test skips as well. *)
Definition title_of_value (v : pyval) : res str :=
  match v with
  | VStr s => Ok s
  | VNone => Ok []
  | VBool b => if b then Raise TypeError else Ok []
  | VInt n => if (n =? 0)%Z then Ok [] else Raise TypeError
  | VList l => if List.length l <=? 10 then Ok [] else Raise AttributeError
  | VDict d => if List.length d <=? 10 then Ok [] else Raise AttributeError
  end.

Definition result_of_value (v : pyval) : res SearchResult :=
  match v with
  | VDict d =>
      t <- match dict_get (u "title") d with
           | Some x => title_of_value x
           | None => Ok []
           end ;;
      Ok {| title := t; url := [] |}
  | _ => Raise AttributeError
  end.

Fixpoint results_of_values (l : list pyval) : res (list SearchResult) :=
  match l with
  | [] => Ok []
  | v :: l' =>
      r <- result_of_value v ;;
      rest <- results_of_values l' ;;
      Ok (r :: rest)
  end.

Definition search_results_of_value (v : pyval) : res (list SearchResult) :=
  if negb (truthy v) then Ok []
  else
    match v with
    | VList l => results_of_values (firstn 5 l)
    | VStr _ => Raise AttributeError
    | _ => Raise TypeError
    end.

(** [analysis.get('search_results', [])] passed on to the timeline
    generator. *)
Definition card_timeline_of (topic : str) (analysis : dict) : res timeline :=
  match dict_get (u "search_results") analysis with
  | None => Ok (generate_three_stage_timeline topic [])
  | Some v =>
      search_results <- search_results_of_value v ;;
      Ok (generate_three_stage_timeline topic search_results)
  end.

(** ['; '.join(analysis['core_features'][:3])] *)
Fixpoint all_strs (l : list pyval) : res (list str) :=
  match l with
  | [] => Ok []
  | VStr s :: l' => rest <- all_strs l' ;; Ok (s :: rest)
  | _ :: _ => Raise TypeError
  end.

Definition join_first3 (v : pyval) : res str :=
  match v with
  | VList l => parts <- all_strs (firstn 3 l) ;; Ok (join (u "; ") parts)
  | VStr s => Ok (join (u "; ") (map (fun c => [c]) (firstn 3 s)))
  | _ => Raise TypeError
  end.

(** The values one card of the page is filled with. *)
Record card := {
  card_topic : str;
  card_rank : Z;
  card_hot_score : Z;
  card_total : pyval;
  card_interest_score : pyval;
  card_utility_score : pyval;
  card_timeline : timeline;
  card_name : pyval;
  card_core_features : str;
  card_target_users : pyval
}.

Definition make_card (topic_data : topic_data) : res card :=
  let topic := td_topic topic_data in
  let rank := td_rank topic_data in
  let hot_score := td_hot_score topic_data in
  let analysis := td_analysis topic_data in
  scores <- subscript analysis (u "scores") ;;
  total_score <- subscript scores (u "total") ;;
  interest_score <- subscript scores (u "interest_score") ;;
  utility_score <- subscript scores (u "utility_score") ;;
  timeline <- match analysis with
              | VDict d => card_timeline_of topic d
              | _ => Raise AttributeError
              end ;;
  name <- subscript analysis (u "name") ;;
  core_features <- subscript analysis (u "core_features") ;;
  features <- join_first3 core_features ;;
  target_users <- subscript analysis (u "target_users") ;;
  Ok {| card_topic := topic;
        card_rank := rank;
        card_hot_score := hot_score;
        card_total := total_score;
        card_interest_score := interest_score;
        card_utility_score := utility_score;
        card_timeline := timeline;
        card_name := name;
        card_core_features := features;
        card_target_users := target_users |}.

Fixpoint make_cards (sorted_topics : list topic_data) : res (list card) :=
  match sorted_topics with
  | [] => Ok []
  | t :: rest =>
      c <- make_card t ;;
      cs <- make_cards rest ;;
      Ok (c :: cs)
  end.

(** [sum(1 for t in sorted_topics if p(total))]; the totals were all read
    once by the sort. *)
Fixpoint count_total (p : Z -> bool) (l : list topic_data) : res Z :=
  match l with
  | [] => Ok 0%Z
  | t :: rest =>
      total <- total_of t ;;
      n <- count_total p rest ;;
      Ok (if p total then n + 1 else n)%Z
  end.

Record report := {
  sorted_topics : list topic_data;
  excellent : Z;
  good : Z;
  average : Z;
  cards : list card
}.

Definition generate_html_report (hot_topics_with_analysis : list topic_data)
  : res report :=
  sorted_topics <- sorted total_of true hot_topics_with_analysis ;;
  excellent <- count_total (fun t => 80 <=? t)%Z sorted_topics ;;
  good <- count_total (fun t => (60 <=? t) && (t <? 80))%Z sorted_topics ;;
  average <- count_total (fun t => t <? 60)%Z sorted_topics ;;
  cards <- make_cards sorted_topics ;;
  Ok {| sorted_topics := sorted_topics;
        excellent := excellent;
        good := good;
        average := average;
        cards := cards |}.

(** *** The hot list *)

(** [get_backup_hot_list(count)] *)
Definition get_backup_hot_list (count : Z) : list dict :=
  map
    (fun i =>
       [ (u "hotWord", VStr (u "测试热搜话题" ++ str_of_int i));
         (u "hotRank", VInt i);
         (u "hotScore", VInt (1000000 - i * 10000)) ])
    (py_range 1 (count + 1)).

(** The [try] block of [fetch_weibo_hot].  [response] is what
    [requests.get(...)] followed by [response.json()] gives: the decoded
    body, or the exception one of the two raised. *)
Definition fetch_attempt (response : res pyval) (count : Z) : res pyval :=
  data <- response ;;
  code <- py_get data (u "code") VNone ;;
  if eq_int code 200 then
    result <- py_get data (u "result") (VDict []) ;;
    hot_list <- py_get result (u "list") (VList []) ;;
    hot_list <- py_slice_to hot_list count ;;
    _ <- py_len hot_list ;;
    Ok hot_list
  else
    _ <- py_get data (u "msg") (VStr (u "未知错误")) ;;
    Ok (VList (map VDict (get_backup_hot_list count))).

(** [fetch_weibo_hot(count)]: one request; whatever goes wrong gives the
    backup list. *)
Definition fetch_weibo_hot (response : res pyval) (count : Z) : pyval :=
  match fetch_attempt response count with
  | Ok hot_list => hot_list
  | Raise _ => VList (map VDict (get_backup_hot_list count))
  end.

(** [hot.get("hotword", hot.get("hotWord", hot.get("word", "")))], the
    topic of an entry of the hot list: the three spellings are tried,
    the first of them that is there wins. *)
Definition topic_of (hot : dict) : pyval :=
  let word :=
    match dict_get (u "word") hot with Some v => v | None => VStr [] end in
  let hotWord :=
    match dict_get (u "hotWord") hot with Some v => v | None => word end in
  match dict_get (u "hotword") hot with Some v => v | None => hotWord end.

(** *** The summary of [main] *)

(** [sorted_by_score[:3]], the three entries printed as the top three. *)
Definition top3 (hot_topics_with_analysis : list topic_data)
  : res (list topic_data) :=
  sorted_by_score <- sorted total_of true hot_topics_with_analysis ;;
  Ok (firstn 3 sorted_by_score).

End WithInterpreter.
End V1.

(** ** The model client

    [messages_create] stands for [client.messages.create(...)] followed by
    the read of [response.content]: it is given the pieces interpolated
    into the fixed prompt text and yields the texts of the content blocks,
    or the exception the call raised.  [json_loads] is [json.loads]. *)

Class Adapter := {
  messages_create : list str -> res (list str);
  json_loads : str -> res pyval
}.

(** What both LLM wrappers do with the response, up to the [print]. *)
Module Llm.

(** [response.content[0].text] *)
Definition first_text (content : list str) : res str :=
  match content with
  | t :: _ => Ok t
  | [] => Raise IndexError
  end.

(** The clean-up of Markdown fences around the payload. *)
Definition strip_fences (result_text : str) : str :=
  let result_text :=
    if startswith result_text (u "```json") then skipn 7 result_text
    else result_text in
  let result_text :=
    if startswith result_text (u "```") then skipn 3 result_text
    else result_text in
  let result_text :=
    if endswith result_text (u "```")
    then firstn (List.length result_text - 3) result_text
    else result_text in
  strip result_text.

(** The block under the comment that announces the computation of the
    total: the three derived scores are computed from the six sub-scores
    and stored into [scores], which is the object inside [analysis]. *)
Definition add_totals (analysis : pyval) : res pyval :=
  scores <- subscript analysis (u "scores") ;;
  innovation <- subscript scores (u "innovation") ;;
  pain_point <- subscript scores (u "pain_point") ;;
  s1 <- py_add innovation pain_point ;;
  potential <- subscript scores (u "potential") ;;
  s2 <- py_add s1 potential ;;
  social <- subscript scores (u "social") ;;
  interest_score <- py_add s2 social ;;
  practicality <- subscript scores (u "practicality") ;;
  feasibility <- subscript scores (u "feasibility") ;;
  utility_score <- py_add practicality feasibility ;;
  sum <- py_add interest_score utility_score ;;
  total <- py_round1 sum ;;
  match analysis, scores with
  | VDict a, VDict sc =>
      let sc := dict_set (u "total") total sc in
      let sc := dict_set (u "interest_score") interest_score sc in
      let sc := dict_set (u "utility_score") utility_score sc in
      Ok (VDict (dict_set (u "scores") (VDict sc) a))
  | _, _ => Raise TypeError
  end.

(** [analysis['name'][:20]], evaluated for the message of v2.1: the name
    has to be there and has to be sliceable. *)
Definition name_slice (analysis : pyval) : res unit :=
  name <- subscript analysis (u "name") ;;
  match name with
  | VStr _ | VList _ => Ok tt
  | _ => Raise TypeError
  end.

(** [analysis['name']], evaluated for the message of v2.0. *)
Definition name_lookup (analysis : pyval) : res unit :=
  name <- subscript analysis (u "name") ;;
  Ok tt.

End Llm.

(** ** Runs and retries *)

(** How a call of [main] ends: it returns, or an exception leaves it.
    [UnboundLocalError] is the use of a local variable nothing was
    assigned to. *)
Inductive crash :=
| UnboundLocalError (name : str)
| Uncaught (e : exn).

Inductive outcome (A : Type) :=
| Returned (a : A)
| Crashed (c : crash).
Arguments Returned {A} a.
Arguments Crashed {A} c.

(** What one [requests.get] gives in v2.1: an exception, or a response
    with its status code and what [response.json()] makes of its body. *)
Record http_reply := {
  status_code : Z;
  body : res pyval
}.

Module Retry.

(** The accepted answer, code 200 with its list cut to [count], written
    once for the three scripts: [None] stands for the end of the [try]
    block without a [return]. *)
Definition read_data (data : pyval) (count : Z) : res (option pyval) :=
  code <- py_get data (u "code") VNone ;;
  if eq_int code 200 then
    result <- py_get data (u "result") (VDict []) ;;
    hot_list <- py_get result (u "list") (VList []) ;;
    hot_list <- py_slice_to hot_list count ;;
    _ <- py_len hot_list ;;
    Ok (Some hot_list)
  else
    _ <- py_get data (u "msg") (VStr (u "未知错误")) ;;
    Ok None.

(** The loop [for attempt in range(max_retries)]: a pass that does not
    return the list goes on to the next attempt while
    [attempt < max_retries - 1] and returns the backup list otherwise,
    whether it ended in an exception or not.  [replies] is what the
    successive requests meet; the second component counts the requests
    made. *)
Definition max_retries : nat := 3.

Fixpoint loop {R} (try_block : R -> Z -> res (option pyval))
  (backup : pyval) (replies : nat -> R) (count : Z)
  (remaining attempt : nat) : pyval * nat :=
  match remaining with
  | O => (backup, attempt)
  | S r =>
      match try_block (replies attempt) count with
      | Ok (Some hot_list) => (hot_list, S attempt)
      | _ =>
          if attempt <? max_retries - 1
          then loop try_block backup replies count r (S attempt)
          else (backup, S attempt)
      end
  end.

End Retry.

(** ** v2.1: weibo_analyzer_v2.py *)

Module V2.
Section WithInterpreter.
Context {I : Interpreter} {L : Adapter}.

Definition _format_search_results (search_results : list SearchResult) : str :=
  match search_results with
  | [] => u "（暂无搜索结果）"
  | _ => join [10%N] (map (fun r => u "- " ++ title r) (firstn 3 search_results))
  end.

(** The fallback of v2.1.  The dictionary display is evaluated in order,
    so the six draws come in the order of the keys; the three derived
    entries are written as the constant [0]. *)
Definition _rule_based_analysis (topic : str)
  (search_results : list SearchResult) (g : rng) : pyval * rng :=
  let g := seed (hash topic) in
  let '(innovation, g) := randint 15 30 g in
  let '(pain_point, g) := randint 15 25 g in
  let '(potential, g) := randint 10 15 g in
  let '(social, g) := randint 5 10 g in
  let '(practicality, g) := randint 5 10 g in
  let '(feasibility, g) := randint 5 10 g in
  (VDict
     [ (u "name", VStr (u "「" ++ firstn 8 topic ++ u "」智能助手"));
       (u "core_features",
         V1.strs
           [ u "实时追踪'" ++ topic ++ u "'相关动态";
             u "AI智能分析与推荐";
             u "个性化内容定制";
             u "社交互动分享";
             u "数据可视化展示" ]);
       (u "market_pain_points",
         V1.strs
           [ u "关于'" ++ topic ++ u "'的信息分散";
             u "缺乏专业深度分析";
             u "个性化推荐不足";
             u "互动体验差";
             u "数据不直观" ]);
       (u "target_users", VStr (u "关注'" ++ topic ++ u "'的用户群体"));
       (u "innovation_points",
         V1.strs
           [ u "针对'" ++ topic ++ u "'的专业分析";
             u "AI智能推荐";
             u "多维度数据融合";
             u "实时追踪";
             u "社交化协作" ]);
       (u "market_potential",
         VDict
           [ (u "market_size", VStr (u "基于'" ++ topic ++ u "'的垂直市场"));
             (u "growth_stage", VStr (u "成长期"));
             (u "competitive_advantage", VStr (u "专业壁垒"));
             (u "revenue_model", VStr (u "会员+增值服务")) ]);
       (u "scores",
         VDict
           [ (u "innovation", VInt innovation);
             (u "pain_point", VInt pain_point);
             (u "potential", VInt potential);
             (u "social", VInt social);
             (u "practicality", VInt practicality);
             (u "feasibility", VInt feasibility);
             (u "total", VInt 0);
             (u "interest_score", VInt 0);
             (u "utility_score", VInt 0) ]) ],
   g).

(** The body of the [try] block. *)
Definition llm_attempt (topic : str) (search_results : list SearchResult)
  : res pyval :=
  content <- messages_create [topic; _format_search_results search_results] ;;
  result_text <- Llm.first_text content ;;
  analysis <- json_loads (Llm.strip_fences result_text) ;;
  analysis <- Llm.add_totals analysis ;;
  _ <- Llm.name_slice analysis ;;
  Ok analysis.

(** [ZhipuProductAnalyzer.analyze_product_idea]: the two handlers,
    [except json.JSONDecodeError] and [except Exception], do the same. *)
Definition analyze_product_idea (topic : str)
  (search_results : list SearchResult) (g : rng) : pyval * rng :=
  match llm_attempt topic search_results with
  | Ok analysis => (analysis, g)
  | Raise JSONDecodeError => _rule_based_analysis topic search_results g
  | Raise _ => _rule_based_analysis topic search_results g
  end.

(** The sort of [generate_html_report] and [print_summary]. *)
Definition sorted_topics (hot_topics_with_analysis : list topic_data)
  : res (list topic_data) :=
  sorted V1.total_of true hot_topics_with_analysis.

(** *** The hot list *)

Definition get_backup_hot_list (count : Z) : list dict :=
  map
    (fun i =>
       [ (u "hotWord", VStr (u "AI技术突破" ++ str_of_int i));
         (u "hotRank", VInt i);
         (u "hotScore", VInt (1000000 - i * 10000)) ])
    (py_range 1 (count + 1)).

(** The [try] block of [fetch_weibo_hot]. *)
Definition fetch_attempt (reply : res http_reply) (count : Z)
  : res (option pyval) :=
  response <- reply ;;
  if (status_code response =? 200)%Z then
    data <- body response ;;
    Retry.read_data data count
  else Ok None.

(** [fetch_weibo_hot(count)], with the number of requests made. *)
Definition fetch_weibo_hot (replies : nat -> res http_reply) (count : Z)
  : pyval * nat :=
  Retry.loop fetch_attempt (VList (map VDict (get_backup_hot_list count)))
    replies count Retry.max_retries 0.

(** [hot.get("hotword", hot.get("hotWord", ""))]: v2.1 tries two
    spellings. *)
Definition topic_of (hot : dict) : pyval :=
  let hotWord :=
    match dict_get (u "hotWord") hot with Some v => v | None => VStr [] end in
  match dict_get (u "hotword") hot with Some v => v | None => hotWord end.

(** *** Report data *)

(** [analysis['core_features'][:5]], the values the list items are
    written from. *)
Definition first5 (v : pyval) : res (list pyval) :=
  match v with
  | VList l => Ok (firstn 5 l)
  | VStr s => Ok (map (fun c => VStr [c]) (firstn 5 s))
  | _ => Raise TypeError
  end.

Record card := {
  card_topic : str;
  card_total : pyval;
  card_name : pyval;
  card_core_features : list pyval;
  card_target_users : pyval;
  card_interest_score : pyval;
  card_utility_score : pyval
}.

Definition make_card (topic_data : topic_data) : res card :=
  let topic := td_topic topic_data in
  let analysis := td_analysis topic_data in
  scores <- subscript analysis (u "scores") ;;
  total <- subscript scores (u "total") ;;
  name <- subscript analysis (u "name") ;;
  core_features <- subscript analysis (u "core_features") ;;
  features <- first5 core_features ;;
  target_users <- subscript analysis (u "target_users") ;;
  interest_score <- py_get scores (u "interest_score") (VInt 0) ;;
  utility_score <- py_get scores (u "utility_score") (VInt 0) ;;
  Ok {| card_topic := topic;
        card_total := total;
        card_name := name;
        card_core_features := features;
        card_target_users := target_users;
        card_interest_score := interest_score;
        card_utility_score := utility_score |}.

Fixpoint make_cards (sorted_topics : list topic_data) : res (list card) :=
  match sorted_topics with
  | [] => Ok []
  | t :: rest =>
      c <- make_card t ;;
      cs <- make_cards rest ;;
      Ok (c :: cs)
  end.

Record report := {
  report_sorted : list topic_data;
  excellent : Z;
  good : Z;
  average : Z;
  filename : str;
  cards : list card
}.

(** [generate_html_report]: [names] are the names in the output
    directory, [date_str] is today, [dv] the value of a digit. *)
Definition generate_html_report (dv : N -> Z) (date_str : str)
  (names : list str) (hot_topics_with_analysis : list topic_data)
  : res report :=
  sorted_topics <- sorted_topics hot_topics_with_analysis ;;
  excellent <- V1.count_total (fun t => 80 <=? t)%Z sorted_topics ;;
  good <- V1.count_total (fun t => (60 <=? t) && (t <? 80))%Z sorted_topics ;;
  average <- V1.count_total (fun t => t <? 60)%Z sorted_topics ;;
  let file_number := get_next_file_number isdecimal dv date_str names in
  let filename := report_filename date_str file_number in
  cards <- make_cards sorted_topics ;;
  Ok {| report_sorted := sorted_topics;
        excellent := excellent;
        good := good;
        average := average;
        filename := filename;
        cards := cards |}.

(** [print_summary]: the sort again, the two counts, and for the first
    three entries [t['analysis']['name'][:30]] and the total. *)
Fixpoint summary_lines (top : list topic_data) : res unit :=
  match top with
  | [] => Ok tt
  | t :: rest =>
      _ <- Llm.name_slice (td_analysis t) ;;
      _ <- V1.total_of t ;;
      summary_lines rest
  end.

Definition print_summary (hot_topics_with_analysis : list topic_data)
  : res unit :=
  sorted_by_score <- sorted_topics hot_topics_with_analysis ;;
  _ <- V1.count_total (fun t => 80 <=? t)%Z sorted_by_score ;;
  _ <- V1.count_total (fun t => (60 <=? t) && (t <? 80))%Z sorted_by_score ;;
  summary_lines (firstn 3 sorted_by_score).

(** *** [main] *)

(** The loop over the hot list.  [use_ai] is set by the [try] around
    [ZhipuProductAnalyzer()]; when the constructor raised, the name
    [analyzer] was never assigned, and the [else] arm reads it. *)
Fixpoint analyze_hot_list (use_ai : bool)
  (web_search_topic : str -> list SearchResult)
  (i : Z) (hot_list : list hot_item) (g : rng)
  : outcome (list topic_data) * rng :=
  match hot_list with
  | [] => (Returned [], g)
  | hot :: rest =>
      let topic := hotWord hot in
      let rank := i in
      let search_results := web_search_topic topic in
      if use_ai then
        let '(analysis, g) := analyze_product_idea topic search_results g in
        let entry :=
          {| td_topic := topic;
             td_rank := rank;
             td_hot_score := hotScore hot;
             td_search_results := search_results;
             td_analysis := analysis |} in
        match analyze_hot_list use_ai web_search_topic (i + 1) rest g with
        | (Returned entries, g) => (Returned (entry :: entries), g)
        | (Crashed c, g) => (Crashed c, g)
        end
      else (Crashed (UnboundLocalError (u "analyzer")), g)
  end.

(** [main]: [init] is how [ZhipuProductAnalyzer()] ended.  The result is
    the report written, or [None] for the early return on an empty hot
    list. *)
Definition main (init : res unit) (dv : N -> Z) (date_str : str)
  (names : list str) (web_search_topic : str -> list SearchResult)
  (hot_list : list hot_item) (g : rng) : outcome (option report) * rng :=
  let use_ai := match init with Ok _ => true | Raise _ => false end in
  match hot_list with
  | [] => (Returned None, g)
  | _ =>
      match analyze_hot_list use_ai web_search_topic 1 hot_list g with
      | (Crashed c, g) => (Crashed c, g)
      | (Returned hot_topics_with_analysis, g) =>
          match generate_html_report dv date_str names
                  hot_topics_with_analysis with
          | Raise e => (Crashed (Uncaught e), g)
          | Ok r =>
              match print_summary hot_topics_with_analysis with
              | Raise e => (Crashed (Uncaught e), g)
              | Ok _ => (Returned (Some r), g)
              end
          end
      end
  end.

End WithInterpreter.
End V2.

(** ** v2.0: weibo_analyzer_sdk.py *)

Module Sdk.
Section WithInterpreter.
Context {I : Interpreter} {L : Adapter}.

Definition _build_context (topic : str) (search_results : list SearchResult)
  : str :=
  let context :=
    u "## 热搜话题" ++ [10%N] ++ topic ++ [10%N; 10%N] ++
    u "## 话题分析" ++ [10%N] ++
    u "请分析这个热搜话题背后反映的用户需求、市场趋势和社会情绪。" ++ [10%N; 10%N] ++
    u "## 背景信息" ++ [10%N] in
  match search_results with
  | [] => context ++ u "（暂无搜索结果，请基于话题名称本身进行分析）"
  | _ =>
      context ++ u "### 相关新闻/讨论" ++ [10%N] ++
      List.concat
        (map (fun ir => fst ir ++ u ". " ++ title (snd ir) ++ [10%N])
           (combine (map u ["1"; "2"; "3"; "4"; "5"]%string)
              (firstn 5 search_results)))
  end.

(** [_fallback_analysis]: the rule engine of v1.0, imported on the spot. *)
Definition _fallback_analysis (topic : str)
  (search_results : list SearchResult) (g : rng) : pyval * rng :=
  V1.mock_ai_analysis topic search_results g.

(** The body of the [try] block. *)
Definition llm_attempt (topic : str) (search_results : list SearchResult)
  : res pyval :=
  content <- messages_create [_build_context topic search_results] ;;
  result_text <- Llm.first_text content ;;
  analysis <- json_loads (Llm.strip_fences result_text) ;;
  analysis <- Llm.add_totals analysis ;;
  _ <- Llm.name_lookup analysis ;;
  Ok analysis.

(** [ClaudeProductAnalyzer.analyze_product_idea] *)
Definition analyze_product_idea (topic : str)
  (search_results : list SearchResult) (g : rng) : pyval * rng :=
  match llm_attempt topic search_results with
  | Ok analysis => (analysis, g)
  | Raise JSONDecodeError => _fallback_analysis topic search_results g
  | Raise _ => _fallback_analysis topic search_results g
  end.

(** *** The module-level entry and [main] *)

(** The function [analyze_product_idea] of the module.  [use_claude_sdk]
    is the configuration flag together with the availability of the
    package; [init] is how [ClaudeProductAnalyzer()] ended.  The method
    catches everything itself, so the [try] here only meets what the
    constructor raises. *)
Definition module_analyze_product_idea (use_claude_sdk : bool)
  (init : res unit) (topic : str) (search_results : list SearchResult)
  (g : rng) : pyval * rng :=
  if use_claude_sdk then
    match init with
    | Ok _ => analyze_product_idea topic search_results g
    | Raise _ => V1.mock_ai_analysis topic search_results g
    end
  else V1.mock_ai_analysis topic search_results g.

(** The loop of [main]; [init] may differ from topic to topic, the
    analyzer being built anew for each. *)
Fixpoint analyze_hot_list (use_claude_sdk : bool) (init : Z -> res unit)
  (web_search_topic : str -> list SearchResult)
  (i : Z) (hot_list : list hot_item) (g : rng) : list topic_data * rng :=
  match hot_list with
  | [] => ([], g)
  | hot :: rest =>
      let topic := hotWord hot in
      let rank := i in
      let search_results := web_search_topic topic in
      let '(analysis, g) :=
        module_analyze_product_idea use_claude_sdk (init i) topic
          search_results g in
      let entry :=
        {| td_topic := topic;
           td_rank := rank;
           td_hot_score := hotScore hot;
           td_search_results := search_results;
           td_analysis := analysis |} in
      let '(entries, g) :=
        analyze_hot_list use_claude_sdk init web_search_topic (i + 1) rest g in
      (entry :: entries, g)
  end.

(** [fetch_weibo_hot(count)]: the retries of v2.1 without the test of
    the status code; a reply is the decoded body or an exception. *)
Definition fetch_attempt (reply : res pyval) (count : Z)
  : res (option pyval) :=
  data <- reply ;;
  Retry.read_data data count.

Definition fetch_weibo_hot (replies : nat -> res pyval) (count : Z)
  : pyval * nat :=
  Retry.loop fetch_attempt
    (VList (map VDict (V1.get_backup_hot_list count))) replies count Retry.max_retries 0.

End WithInterpreter.
End Sdk.

(** ** CPython 3.11 on a 64-bit little-endian machine

    A model of what the interpreter supplies: the SipHash-1-3 string hash
    keyed by the process secret, the Mersenne Twister behind [random],
    and the decimal digits of Unicode 14. *)

Module CPython.

Local Open Scope Z_scope.

Definition u64 (x : Z) : Z := x mod 2 ^ 64.
Definition u32 (x : Z) : Z := x mod 2 ^ 32.

(** *** String hash *)

Definition rotate (x b : Z) : Z :=
  u64 (Z.lor (Z.shiftl x b) (Z.shiftr x (64 - b))).

Record sip := { v0 : Z; v1 : Z; v2 : Z; v3 : Z }.

(** [SINGLE_ROUND]: two half rounds. *)
Definition single_round (s : sip) : sip :=
  let '(a, b, c, d) := (v0 s, v1 s, v2 s, v3 s) in
  let a := u64 (a + b) in
  let c := u64 (c + d) in
  let b := Z.lxor (rotate b 13) a in
  let d := Z.lxor (rotate d 16) c in
  let a := rotate a 32 in
  let c := u64 (c + b) in
  let a := u64 (a + d) in
  let b := Z.lxor (rotate b 17) c in
  let d := Z.lxor (rotate d 21) a in
  let c := rotate c 32 in
  {| v0 := a; v1 := b; v2 := c; v3 := d |}.

(** Little-endian value of at most eight bytes. *)
Fixpoint le_bytes (bs : list Z) : Z :=
  match bs with
  | [] => 0
  | b :: rest => b + 256 * le_bytes rest
  end.

Definition absorb (s : sip) (m : Z) : sip :=
  let s := {| v0 := v0 s; v1 := v1 s; v2 := v2 s; v3 := Z.lxor (v3 s) m |} in
  let s := single_round s in
  {| v0 := Z.lxor (v0 s) m; v1 := v1 s; v2 := v2 s; v3 := v3 s |}.

(** The [while (src_sz >= 8)] loop; [n] counts the whole blocks. *)
Fixpoint blocks (n : nat) (s : sip) (bs : list Z) : sip * list Z :=
  match n with
  | O => (s, bs)
  | S n' => blocks n' (absorb s (le_bytes (firstn 8 bs))) (skipn 8 bs)
  end.

Definition siphash13 (k0 k1 : Z) (src : list Z) : Z :=
  let src_sz := Z.of_nat (List.length src) in
  let b := u64 (Z.shiftl src_sz 56) in
  let s := {| v0 := Z.lxor k0 0x736f6d6570736575;
              v1 := Z.lxor k1 0x646f72616e646f6d;
              v2 := Z.lxor k0 0x6c7967656e657261;
              v3 := Z.lxor k1 0x7465646279746573 |} in
  let '(s, tail) := blocks (Nat.div (List.length src) 8) s src in
  let b := Z.lor b (le_bytes tail) in
  let s := absorb s b in
  let s := {| v0 := v0 s; v1 := v1 s; v2 := Z.lxor (v2 s) 0xff; v3 := v3 s |} in
  let s := single_round (single_round (single_round s)) in
  Z.lxor (Z.lxor (v0 s) (v1 s)) (Z.lxor (v2 s) (v3 s)).

(** The buffer of a [str] object: one, two or four bytes for every code
    point, as the largest code point of the string requires. *)
Fixpoint le_unit (width : nat) (c : Z) : list Z :=
  match width with
  | O => []
  | S w => c mod 256 :: le_unit w (c / 256)
  end.

Definition str_buffer (s : str) : list Z :=
  let maxchar := fold_right N.max 0%N s in
  let kind := if (maxchar <? 256)%N then 1%nat
              else if (maxchar <? 65536)%N then 2%nat else 4%nat in
  flat_map (fun c => le_unit kind (Z.of_N c)) s.

(** The process secret: the two 64-bit keys of the hash. *)
Record secret := { k0 : Z; k1 : Z }.

(** [hash(s)] for a string: [0] for the empty string, otherwise the
    SipHash value read as a signed 64-bit integer, with [-1] replaced by
    [-2]. *)
Definition str_hash (sec : secret) (s : str) : Z :=
  match s with
  | [] => 0
  | _ =>
      let x := siphash13 (k0 sec) (k1 sec) (str_buffer s) in
      let x := if 2 ^ 63 <=? x then x - 2 ^ 64 else x in
      if x =? -1 then -2 else x
  end.

(** The secret the interpreter derives from [PYTHONHASHSEED=n], for
    [n > 0]: 24 bytes of a linear congruential generator, of which the
    hash uses the first 16.  [PYTHONHASHSEED=0] is the all-zero secret;
    without the variable the secret is random. *)
Fixpoint lcg_urandom (size : nat) (x : Z) : list Z :=
  match size with
  | O => []
  | S n =>
      let x := u32 (x * 214013 + 2531011) in
      Z.land (Z.shiftr x 16) 255 :: lcg_urandom n x
  end.

Definition secret_of_seed (n : Z) : secret :=
  if n =? 0 then {| k0 := 0; k1 := 0 |}
  else
    let bytes := lcg_urandom 24 n in
    {| k0 := le_bytes (firstn 8 bytes);
       k1 := le_bytes (firstn 8 (skipn 8 bytes)) |}.

(** *** The Mersenne Twister of [_random] *)

(** The generator: the 624 words of [state] and [index]. *)
Record mt_state := { mt : list Z; index : nat }.

Definition getw (i : nat) (l : list Z) : Z := nth i l 0.

Fixpoint setw (i : nat) (v : Z) (l : list Z) : list Z :=
  match l, i with
  | [], _ => []
  | _ :: l', O => v :: l'
  | x :: l', S i' => x :: setw i' v l'
  end.

(** [init_genrand(s)] *)
Fixpoint init_genrand_go (n : nat) (mti prev : Z) : list Z :=
  match n with
  | O => []
  | S n' =>
      let x := u32 (1812433253 * Z.lxor prev (Z.shiftr prev 30) + mti) in
      x :: init_genrand_go n' (mti + 1) x
  end.

Definition init_genrand (s : Z) : list Z :=
  s :: init_genrand_go 623 1 s.

(** The wrap-around both loops of [init_by_array] end with:
    [if (i >= N) { mt[0] = mt[N-1]; i = 1; }] *)
Definition wrap (i : nat) (l : list Z) : nat * list Z :=
  if (624 <=? i)%nat then (1%nat, setw 0 (getw 623 l) l) else (i, l).

Fixpoint mix_key (k : nat) (i j : nat) (key l : list Z) : nat * list Z :=
  match k with
  | O => (i, l)
  | S k' =>
      let prev := getw (i - 1) l in
      let v := u32 (Z.lxor (getw i l)
                      (u32 (Z.lxor prev (Z.shiftr prev 30) * 1664525))
                    + getw j key + Z.of_nat j) in
      let '(i, l) := wrap (S i) (setw i v l) in
      let j := if (List.length key <=? S j)%nat then O else S j in
      mix_key k' i j key l
  end.

Fixpoint mix_index (k : nat) (i : nat) (l : list Z) : list Z :=
  match k with
  | O => l
  | S k' =>
      let prev := getw (i - 1) l in
      let v := u32 (Z.lxor (getw i l)
                      (u32 (Z.lxor prev (Z.shiftr prev 30) * 1566083941))
                    - Z.of_nat i) in
      let '(i, l) := wrap (S i) (setw i v l) in
      mix_index k' i l
  end.

Definition init_by_array (key : list Z) : mt_state :=
  let l := init_genrand 19650218 in
  let '(i, l) := mix_key (Nat.max 624 (List.length key)) 1 0 key l in
  let l := mix_index 623 i l in
  {| mt := setw 0 0x80000000 l; index := 624 |}.

(** The 32-bit words of a non-negative integer, least significant first;
    [n] is the number of words. *)
Fixpoint words32 (n : nat) (x : Z) : list Z :=
  match n with
  | O => []
  | S n' => u32 x :: words32 n' (Z.shiftr x 32)
  end.

(** [random.seed(a)] for an [int]: the key is the absolute value. *)
Definition random_seed (a : Z) : mt_state :=
  let n := Z.abs a in
  let bits := if n =? 0 then 0 else Z.log2 n + 1 in
  let keyused := if bits =? 0 then 1 else (bits - 1) / 32 + 1 in
  init_by_array (words32 (Z.to_nat keyused) n).

(** The regeneration of the 624 words, in place and in order: word [kk]
    is computed from the words [kk], [kk + 1] and [kk + 397], indices
    taken modulo 624. *)
Fixpoint twist (n : nat) (kk : nat) (l : list Z) : list Z :=
  match n with
  | O => l
  | S n' =>
      let y := Z.lor (Z.land (getw kk l) 0x80000000)
                     (Z.land (getw (Nat.modulo (kk + 1) 624) l) 0x7fffffff) in
      let v := Z.lxor (Z.lxor (getw (Nat.modulo (kk + 397) 624) l) (Z.shiftr y 1))
                      (if Z.odd y then 0x9908b0df else 0) in
      twist n' (S kk) (setw kk v l)
  end.

(** [genrand_uint32]; the result is a [uint32_t]. *)
Definition genrand_uint32 (st : mt_state) : Z * mt_state :=
  let st := if (624 <=? index st)%nat
            then {| mt := twist 624 0 (mt st); index := 0 |} else st in
  let y := getw (index st) (mt st) in
  let y := Z.lxor y (Z.shiftr y 11) in
  let y := Z.lxor y (Z.land (Z.shiftl y 7) 0x9d2c5680) in
  let y := Z.lxor y (Z.land (Z.shiftl y 15) 0xefc60000) in
  let y := Z.lxor y (Z.shiftr y 18) in
  (u32 y, {| mt := mt st; index := S (index st) |}).

(** [getrandbits(k)] for [k > 0]: one word when [k <= 32], otherwise
    [words] words, least significant first, the last one cut to the bits
    that remain. *)
Fixpoint getrandbits_words (words : nat) (k : Z) (st : mt_state)
  : Z * mt_state :=
  match words with
  | O => (0, st)
  | S w =>
      let '(r, st) := genrand_uint32 st in
      let r := if k <? 32 then Z.shiftr r (32 - k) else r in
      let '(high, st) := getrandbits_words w (k - 32) st in
      (r + 2 ^ 32 * high, st)
  end.

Definition getrandbits (k : Z) (st : mt_state) : Z * mt_state :=
  if k <=? 32 then
    let '(r, st) := genrand_uint32 st in (Z.shiftr r (32 - k), st)
  else getrandbits_words (Z.to_nat ((k - 1) / 32 + 1)) k st.

(** [_randbelow_with_getrandbits(n)]: draw [k = n.bit_length()] bits
    until the value is below [n].  [draws] bounds the number of rounds
    followed. *)
Fixpoint randbelow (draws : nat) (n k : Z) (st : mt_state)
  : option (Z * mt_state) :=
  match draws with
  | O => None
  | S d =>
      let '(r, st) := getrandbits k st in
      if r <? n then Some (r, st) else randbelow d n k st
  end.

Definition bit_length (n : Z) : Z :=
  if n =? 0 then 0 else Z.log2 (Z.abs n) + 1.

(** [random.randint(a, b)], that is [randrange(a, b + 1)], for
    [a <= b].  The loop of [_randbelow] has no bound in CPython, and
    every round ends it with probability above one half; the interface
    wants a total function, so after [max_draws] rounds without a value
    the model answers [a]. *)
Definition max_draws : nat := 128.

Definition py_randint (a b : Z) (st : mt_state) : Z * mt_state :=
  let width := b + 1 - a in
  match randbelow max_draws width (bit_length width) st with
  | Some (r, st) => (a + r, st)
  | None => (a, st)
  end.

(** *** Decimal digits

    The code points of category Nd in Unicode 14, which [\d] matches in a
    [str] pattern, as inclusive ranges. *)
Definition decimal_ranges : list (N * N) :=
  [ (48, 57); (1632, 1641); (1776, 1785); (1984, 1993); (2406, 2415);
    (2534, 2543); (2662, 2671); (2790, 2799); (2918, 2927); (3046, 3055);
    (3174, 3183); (3302, 3311); (3430, 3439); (3558, 3567); (3664, 3673);
    (3792, 3801); (3872, 3881); (4160, 4169); (4240, 4249); (6112, 6121);
    (6160, 6169); (6470, 6479); (6608, 6617); (6784, 6793); (6800, 6809);
    (6992, 7001); (7088, 7097); (7232, 7241); (7248, 7257); (42528, 42537);
    (43216, 43225); (43264, 43273); (43472, 43481); (43504, 43513);
    (43600, 43609); (44016, 44025); (65296, 65305); (66720, 66729);
    (68912, 68921); (69734, 69743); (69872, 69881); (69942, 69951);
    (70096, 70105); (70384, 70393); (70736, 70745); (70864, 70873);
    (71248, 71257); (71360, 71369); (71472, 71481); (71904, 71913);
    (72016, 72025); (72784, 72793); (73040, 73049); (73120, 73129);
    (92768, 92777); (92864, 92873); (93008, 93017); (120782, 120831);
    (123200, 123209); (123632, 123641); (125264, 125273);
    (130032, 130041) ]%N.

Definition py_isdecimal (c : N) : bool :=
  existsb (fun r => (fst r <=? c) && (c <=? snd r))%N decimal_ranges.

(** The value of a decimal digit, as [int] reads it: its place in its
    block of ten.  Every range of the table starts at a digit zero. *)
Definition py_digit_value (c : N) : Z :=
  match find (fun r => (fst r <=? c) && (c <=? snd r))%N decimal_ranges with
  | Some r => Z.of_N ((c - fst r) mod 10)
  | None => 0
  end.

End CPython.

(** ** Vocabulary of the statements *)

(** The six documented intervals. *)
Definition in_ranges (a b c d e f : Z) : Prop :=
  (15 <= a <= 30 /\ 15 <= b <= 25 /\ 10 <= c <= 15 /\
   5 <= d <= 10 /\ 5 <= e <= 10 /\ 5 <= f <= 10)%Z.

(** The score table of v1.0, entry by entry. *)
Definition v1_table (a b c d e f : Z) : pyval :=
  VDict
    [ (u "total", VInt (a + b + c + d + (e + f))%Z);
      (u "interest_score", VInt (a + b + c + d)%Z);
      (u "utility_score", VInt (e + f)%Z);
      (u "innovation", VInt a);
      (u "pain_point", VInt b);
      (u "potential", VInt c);
      (u "social", VInt d);
      (u "practicality", VInt e);
      (u "feasibility", VInt f) ].

(** The score table of the fallback of v2.1, entry by entry. *)
Definition v2_table (a b c d e f : Z) : pyval :=
  VDict
    [ (u "innovation", VInt a);
      (u "pain_point", VInt b);
      (u "potential", VInt c);
      (u "social", VInt d);
      (u "practicality", VInt e);
      (u "feasibility", VInt f);
      (u "total", VInt 0);
      (u "interest_score", VInt 0);
      (u "utility_score", VInt 0) ].

(** The record of v1.0 with its eight values left open. *)
Definition v1_record (name event features pains users scores points market
  : pyval) : pyval :=
  VDict
    [ (u "name", name);
      (u "event_timeline", event);
      (u "core_features", features);
      (u "market_pain_points", pains);
      (u "target_users", users);
      (u "scores", scores);
      (u "innovation_points", points);
      (u "market_potential", market) ].

(** Every keyword of the table, looked up by the exact-match pass, gives
    the category it is listed under. *)
Definition exact_pass_finds (entry : str * list str) : bool :=
  forallb
    (fun kw =>
       match V1.exact_pass kw V1.theme_patterns with
       | Some theme_name => str_eqb theme_name (fst entry)
       | None => false
       end)
    (snd entry).

Section Situations.
Context {I : Interpreter} {L : Adapter}.

(** The call for the prompt built from [fragments] fails: the client
    raises, or the text of its first content block, fences removed, is
    refused by [json.loads]. *)
Definition llm_failed (fragments : list str) : Prop :=
  (exists e, messages_create fragments = Raise e) \/
  (exists content text e,
      messages_create fragments = Ok content /\
      Llm.first_text content = Ok text /\
      json_loads (Llm.strip_fences text) = Raise e).

(** An entry as the loop of [main] builds it: the search results sit
    next to the analysis, and the analysis is a record of v1.0. *)
Definition main_entry (web_search_topic : str -> list SearchResult)
  (x : topic_data) : Prop :=
  td_search_results x = web_search_topic (td_topic x) /\
  exists g, td_analysis x =
              fst (V1.mock_ai_analysis (td_topic x) (td_search_results x) g).

End Situations.

(** *** Scenarios of the examples *)

(** A model that answers in prose: the text is not JSON. *)
Definition prose_adapter : Adapter :=
  {| messages_create := fun _ => Ok [u "Sorry, I cannot help with that."];
     json_loads := fun _ => Raise JSONDecodeError |}.

(** A model that answers with a fenced document; [json_loads] gives the
    value that document decodes to.  The response brings a [total] of its
    own. *)
Definition answered_scores : dict :=
  [ (u "innovation", VInt 25); (u "pain_point", VInt 20);
    (u "potential", VInt 12); (u "social", VInt 8);
    (u "practicality", VInt 7); (u "feasibility", VInt 6);
    (u "total", VInt 999) ]%Z.

Definition answered_record : dict :=
  [ (u "name", VStr (u "比价助手"));
    (u "scores", VDict answered_scores) ].

Definition fenced_adapter : Adapter :=
  {| messages_create := fun _ => Ok [u "```json" ++ [10%N] ++ u "{...}" ++ [10%N] ++ u "```"];
     json_loads := fun _ => Ok (VDict answered_record) |}.

(** A client whose call fails. *)
Definition offline_adapter : Adapter :=
  {| messages_create := fun _ => Raise (APIError (u "Connection error."));
     json_loads := fun _ => Raise JSONDecodeError |}.

(** An analysed topic with nothing but its total. *)
Definition scored (name : string) (t : Z) : topic_data :=
  {| td_topic := u name;
     td_rank := 0;
     td_hot_score := 0;
     td_search_results := [];
     td_analysis := VDict [(u "scores", VDict [(u "total", VInt t)])] |}.

(** A search that found two usable titles. *)
Definition found_titles (_ : str) : list SearchResult :=
  [ {| title := u "胖东来回应羽绒服定价争议并公布进价明细"; url := u "https://example.com/1" |};
    {| title := u "市场监管部门介入调查胖东来羽绒服价格"; url := u "https://example.com/2" |} ].

(** The record of the fallback of v2.1 around its score table. *)
Definition v2_record (topic : str) (scores : pyval) : pyval :=
  VDict
    [ (u "name", VStr (u "「" ++ firstn 8 topic ++ u "」智能助手"));
      (u "core_features",
        V1.strs
          [ u "实时追踪'" ++ topic ++ u "'相关动态";
            u "AI智能分析与推荐";
            u "个性化内容定制";
            u "社交互动分享";
            u "数据可视化展示" ]);
      (u "market_pain_points",
        V1.strs
          [ u "关于'" ++ topic ++ u "'的信息分散";
            u "缺乏专业深度分析";
            u "个性化推荐不足";
            u "互动体验差";
            u "数据不直观" ]);
      (u "target_users", VStr (u "关注'" ++ topic ++ u "'的用户群体"));
      (u "innovation_points",
        V1.strs
          [ u "针对'" ++ topic ++ u "'的专业分析";
            u "AI智能推荐";
            u "多维度数据融合";
            u "实时追踪";
            u "社交化协作" ]);
      (u "market_potential",
        VDict
          [ (u "market_size", VStr (u "基于'" ++ topic ++ u "'的垂直市场"));
            (u "growth_stage", VStr (u "成长期"));
            (u "competitive_advantage", VStr (u "专业壁垒"));
            (u "revenue_model", VStr (u "会员+增值服务")) ]);
      (u "scores", scores) ].

(** An entry of the hot list with the analysis [a]. *)
Definition entry_of (topic : str) (rank hot_score : Z)
  (search_results : list SearchResult) (a : pyval) : topic_data :=
  {| td_topic := topic;
     td_rank := rank;
     td_hot_score := hot_score;
     td_search_results := search_results;
     td_analysis := a |}.

Section Situations2.
Context {I : Interpreter}.

(** An entry whose analysis is a record of the fallback of v2.1. *)
Definition fallback_entry (x : topic_data) : Prop :=
  exists search_results g,
    td_analysis x =
      fst (V2._rule_based_analysis (td_topic x) search_results g).

End Situations2.

(** The part of the tables of digits the file numbers rely on: the ten
    ASCII digits are digits and have their usual values, the dot is not
    a digit, and no digit has a negative value. *)
Definition digit_table (isd : N -> bool) (dv : N -> Z) : Prop :=
  (forall c, (48 <= c <= 57)%N -> isd c = true /\ dv c = (Z.of_N c - 48)%Z) /\
  isd 46%N = false /\
  (forall c, isd c = true -> (0 <= dv c)%Z).

(** A date as [strftime("%Y%m%d")] writes it: ASCII digits only. *)
Definition date_of_digits (date_str : str) : bool :=
  forallb (fun c => (48 <=? c) && (c <=? 57))%N date_str.

(** The value of a numeral written with its last digit first. *)
Definition value_lsd (dv : N -> Z) (l : str) : Z :=
  fold_right (fun c acc => dv c + 10 * acc)%Z 0%Z l.


(** Each of the three stages has text. *)
Definition all_stages_filled (t : timeline) : Prop :=
  cause t <> [] /\ develop t <> [] /\ impact t <> [].

(** What [print_summary] reads of an entry can be read: the total, and a
    name that can be sliced. *)
Definition summary_ready (x : topic_data) : Prop :=
  Llm.name_slice (td_analysis x) = Ok tt /\
  exists t, V1.total_of x = Ok t.

(** A model whose answer has every field the report reads. *)
Definition complete_record : dict :=
  [ (u "name", VStr (u "比价助手"));
    (u "core_features", V1.strs [u "全网比价"; u "降价提醒"; u "价格走势"]);
    (u "target_users", VStr (u "网购用户"));
    (u "scores", VDict answered_scores) ].

Definition complete_adapter : Adapter :=
  {| messages_create := fun _ => Ok [u "{...}"];
     json_loads := fun _ => Ok (VDict complete_record) |}.

(* ===================================================================== *)
(** * Part II: properties                                                 *)
(* ===================================================================== *)

(** ** The CPython model meets the interface *)

Module CPythonFacts.
Import CPython.
Local Open Scope Z_scope.

Lemma u32_nonneg x : 0 <= u32 x.
Proof. unfold u32. apply Z.mod_pos_bound. reflexivity. Qed.

Lemma genrand_uint32_nonneg st : 0 <= fst (genrand_uint32 st).
Proof. unfold genrand_uint32. cbv zeta. cbn [fst]. apply u32_nonneg. Qed.

Lemma getrandbits_words_nonneg words :
  forall k st, 0 <= fst (getrandbits_words words k st).
Proof.
  induction words as [|w IH]; intros k st; cbn [getrandbits_words fst].
  - lia.
  - pose proof (genrand_uint32_nonneg st) as Hr.
    destruct (genrand_uint32 st) as [r st1]. cbn [fst] in Hr.
    specialize (IH (k - 32) st1).
    destruct (getrandbits_words w (k - 32) st1) as [high st2].
    cbn [fst] in *.
    assert (0 <= (if k <? 32 then Z.shiftr r (32 - k) else r)).
    { destruct (k <? 32); [apply Z.shiftr_nonneg|]; assumption. }
    lia.
Qed.

Lemma getrandbits_nonneg k st : 0 <= fst (getrandbits k st).
Proof.
  unfold getrandbits. destruct (k <=? 32).
  - pose proof (genrand_uint32_nonneg st) as Hr.
    destruct (genrand_uint32 st) as [r st1]. cbn [fst] in *.
    apply Z.shiftr_nonneg. assumption.
  - apply getrandbits_words_nonneg.
Qed.

(** A value the rejection loop hands out lies below [n]. *)
Lemma randbelow_range draws :
  forall n k st r st',
    randbelow draws n k st = Some (r, st') -> 0 <= r < n.
Proof.
  induction draws as [|d IH]; intros n k st r st' H; cbn [randbelow] in H.
  - discriminate.
  - pose proof (getrandbits_nonneg k st) as Hr.
    destruct (getrandbits k st) as [r0 st0]. cbn [fst] in Hr.
    destruct (r0 <? n) eqn:Hlt.
    + inversion H; subst. apply Z.ltb_lt in Hlt. lia.
    + eapply IH; eassumption.
Qed.

Lemma py_randint_range a b st :
  a <= b -> a <= fst (py_randint a b st) <= b.
Proof.
  intros Hab. unfold py_randint.
  destruct (randbelow max_draws (b + 1 - a) (bit_length (b + 1 - a)) st)
    as [[r st']|] eqn:E; cbn [fst].
  - apply randbelow_range in E. lia.
  - lia.
Qed.

End CPythonFacts.

(** One CPython process, with the hash secret it started with. *)
Definition cpython (sec : CPython.secret) : Interpreter :=
  {| rng := CPython.mt_state;
     hash := CPython.str_hash sec;
     seed := CPython.random_seed;
     randint := CPython.py_randint;
     isdecimal := CPython.py_isdecimal;
     randint_range := CPythonFacts.py_randint_range |}.

(** ** [sorted] is a stable sort *)

Module PySortFacts.
Section Facts.
Variable A : Type.
Variable key : A -> res Z.

Local Open Scope Z_scope.

Lemma insert_by_perm (x : Z * A) l : Permutation (insert_by x l) (x :: l).
Proof.
  induction l as [|y l IH]; cbn [insert_by].
  - apply Permutation_refl.
  - destruct (fst y <? fst x).
    + eapply perm_trans; [apply perm_skip, IH | apply perm_swap].
    + apply Permutation_refl.
Qed.

Lemma sort_by_perm (l : list (Z * A)) : Permutation (sort_by l) l.
Proof.
  induction l as [|x l IH]; cbn [sort_by].
  - apply perm_nil.
  - eapply perm_trans; [apply insert_by_perm | apply perm_skip, IH].
Qed.

(** Insertion never moves [x] past an element with the same key. *)
Lemma filter_insert_by v (x : Z * A) l :
  filter (keq v) (insert_by x l) = filter (keq v) (x :: l).
Proof.
  induction l as [|y l IH]; cbn [insert_by]; [reflexivity|].
  destruct (fst y <? fst x) eqn:Hlt; [|reflexivity].
  apply Z.ltb_lt in Hlt.
  cbn [filter] in *. rewrite IH. unfold keq.
  destruct (fst x =? v) eqn:Hx; [|reflexivity].
  apply Z.eqb_eq in Hx.
  destruct (fst y =? v) eqn:Hy; [|reflexivity].
  apply Z.eqb_eq in Hy. lia.
Qed.

Lemma filter_sort_by v (l : list (Z * A)) :
  filter (keq v) (sort_by l) = filter (keq v) l.
Proof.
  induction l as [|x l IH]; cbn [sort_by]; [reflexivity|].
  rewrite filter_insert_by. cbn [filter]. rewrite IH. reflexivity.
Qed.

Lemma insert_by_sorted (x : Z * A) l :
  StronglySorted (@asc A) l -> StronglySorted (@asc A) (insert_by x l).
Proof.
  induction 1 as [|y l Hs IH Hall]; cbn [insert_by].
  - constructor; constructor.
  - destruct (fst y <? fst x) eqn:Hlt.
    + apply Z.ltb_lt in Hlt. constructor; [exact IH|].
      eapply Permutation_Forall.
      * apply Permutation_sym, insert_by_perm.
      * constructor; [unfold asc; lia | exact Hall].
    + apply Z.ltb_ge in Hlt. constructor.
      * constructor; assumption.
      * constructor; [exact Hlt|].
        eapply Forall_impl; [|exact Hall].
        unfold asc. intros; lia.
Qed.

Lemma sort_by_sorted (l : list (Z * A)) : StronglySorted (@asc A) (sort_by l).
Proof.
  induction l as [|x l IH]; cbn [sort_by].
  - constructor.
  - apply insert_by_sorted, IH.
Qed.

Lemma sorted_snoc (R : Z * A -> Z * A -> Prop) l x :
  StronglySorted R l -> Forall (fun y => R y x) l ->
  StronglySorted R (l ++ [x]).
Proof.
  induction 1 as [|y l Hs IH Hall]; intros Hx; cbn [app].
  - constructor; constructor.
  - inversion Hx; subst. constructor.
    + apply IH; assumption.
    + apply Forall_app. split; [assumption|]. constructor; [assumption|constructor].
Qed.

Lemma rev_sorted (l : list (Z * A)) : StronglySorted (@asc A) l -> StronglySorted (@desc A) (rev l).
Proof.
  induction 1 as [|y l Hs IH Hall]; cbn [rev].
  - constructor.
  - apply sorted_snoc; [exact IH|].
    apply Forall_rev. exact Hall.
Qed.

Lemma reversed_sort_perm (d : list (Z * A)) : Permutation d (reversed_sort d).
Proof.
  unfold reversed_sort.
  eapply perm_trans; [apply Permutation_rev|].
  eapply perm_trans; [apply Permutation_sym, sort_by_perm|].
  apply Permutation_rev.
Qed.

Lemma reversed_sort_desc (d : list (Z * A)) : StronglySorted (@desc A) (reversed_sort d).
Proof. apply rev_sorted, sort_by_sorted. Qed.

Lemma reversed_sort_stable v (d : list (Z * A)) :
  filter (keq v) (reversed_sort d) = filter (keq v) d.
Proof.
  unfold reversed_sort.
  rewrite filter_rev, filter_sort_by, filter_rev, rev_involutive.
  reflexivity.
Qed.

(** Decoration succeeds exactly when every key can be computed. *)
Lemma decorate_ok l :
  forall ks, Forall2 (fun x k => key x = Ok k) l ks ->
  decorate key l = Ok (combine ks l).
Proof.
  induction l as [|x l IH]; intros ks H; inversion H; subst;
    cbn [decorate combine]; [reflexivity|].
  match goal with Hk : key x = Ok _ |- _ => rewrite Hk end.
  cbn [bind]. erewrite IH by eassumption. reflexivity.
Qed.

Lemma decorate_inv l :
  forall d, decorate key l = Ok d ->
  map snd d = l /\ Forall (faithful key) d.
Proof.
  induction l as [|x l IH]; intros d H; cbn [decorate] in H.
  - inversion H; subst. split; constructor.
  - destruct (key x) as [k|e] eqn:Hk; cbn [bind] in H; [|discriminate].
    destruct (decorate key l) as [d'|e]; cbn [bind] in H; [|discriminate].
    inversion H; subst. destruct (IH d' eq_refl) as [Hm Hf].
    cbn [map snd]. split; [f_equal; exact Hm|].
    constructor; [exact Hk | exact Hf].
Qed.

Lemma filter_faithful v d :
  Forall (faithful key) d ->
  filter (has_key key v) (map snd d) = map snd (filter (keq v) d).
Proof.
  induction 1 as [|p d Hp Hd IH]; cbn [map filter]; [reflexivity|].
  rewrite IH.
  replace (has_key key v (snd p)) with (keq v p)
    by (unfold has_key, keq; rewrite Hp; reflexivity).
  destruct (keq v p); reflexivity.
Qed.

Lemma faithful_keys d :
  Forall (faithful key) d ->
  Forall2 (fun x k => key x = Ok k) (map snd d) (map fst d).
Proof.
  induction 1 as [|p d Hp Hd IH]; cbn [map]; constructor; assumption.
Qed.

Lemma desc_keys d :
  StronglySorted (@desc A) d -> StronglySorted Z.ge (map fst d).
Proof.
  induction 1 as [|p d Hs IH Hall]; cbn [map]; constructor; [exact IH|].
  apply Forall_map. eapply Forall_impl; [|exact Hall].
  unfold desc. intros; lia.
Qed.

(** The three facts together, for [sorted(l, key=key, reverse=True)]. *)
Lemma sorted_reverse_spec l s :
  sorted key true l = Ok s ->
  Permutation l s /\
  (exists ks, Forall2 (fun x k => key x = Ok k) s ks /\
              StronglySorted Z.ge ks) /\
  (forall v, filter (has_key key v) s = filter (has_key key v) l).
Proof.
  unfold sorted. intros H.
  destruct (decorate key l) as [d|e] eqn:Hd; cbn [bind] in H; [|discriminate].
  inversion H; subst; clear H.
  destruct (decorate_inv _ Hd) as [Hm Hf].
  fold (reversed_sort d).
  assert (Hf' : Forall (faithful key) (reversed_sort d)).
  { eapply Permutation_Forall; [apply reversed_sort_perm | exact Hf]. }
  split; [|split].
  - rewrite <- Hm at 1. apply Permutation_map, reversed_sort_perm.
  - exists (map fst (reversed_sort d)). split.
    + apply faithful_keys, Hf'.
    + apply desc_keys, reversed_sort_desc.
  - intros v. rewrite (filter_faithful v Hf'), reversed_sort_stable.
    rewrite <- (filter_faithful v Hf), Hm. reflexivity.
Qed.

Lemma sorted_reverse_ok l ks :
  Forall2 (fun x k => key x = Ok k) l ks ->
  exists s, sorted key true l = Ok s.
Proof.
  intros H. unfold sorted. rewrite (decorate_ok H). cbn [bind].
  eexists. reflexivity.
Qed.

End Facts.
End PySortFacts.

Unset Implicit Arguments.

(** ** Strings and dictionaries *)

Lemma str_eqb_eq a : forall b, str_eqb a b = true <-> a = b.
Proof.
  induction a as [|c a IH]; intros [|d b]; cbn [str_eqb]; split; intros H;
    try reflexivity; try discriminate.
  - apply andb_true_iff in H. destruct H as [Hc Hab].
    apply N.eqb_eq in Hc. apply IH in Hab. subst. reflexivity.
  - inversion H; subst. apply andb_true_iff. split.
    + apply N.eqb_refl.
    + apply IH. reflexivity.
Qed.

(** ** Topic classifier *)


Lemma exact_pass_table : forallb exact_pass_finds V1.theme_patterns = true.
Proof. vm_compute. reflexivity. Qed.

(** C6. A topic that is verbatim one of the keywords of the table is
    given the category of that keyword: the exact-match pass answers
    before the substring pass is tried, whatever other keywords the topic
    contains. *)
Theorem C6_exact_match_precedence :
  forall (theme_name : str) (keywords : list str) (topic : str),
    In (theme_name, keywords) V1.theme_patterns ->
    In topic keywords ->
    V1.analyze_topic_keywords topic =
      {| V1.type := theme_name; V1.theme := theme_name |}.
Proof.
  intros theme_name keywords topic Hentry Hkw.
  pose proof exact_pass_table as Htable.
  rewrite forallb_forall in Htable. specialize (Htable _ Hentry).
  unfold exact_pass_finds in Htable. rewrite forallb_forall in Htable.
  specialize (Htable _ Hkw). cbn [fst snd] in Htable.
  unfold V1.analyze_topic_keywords.
  destruct (V1.exact_pass topic V1.theme_patterns) as [found|];
    [|discriminate].
  apply str_eqb_eq in Htable. subst. reflexivity.
Qed.

(** The car keyword [发布会] contains the technology keyword [发布],
    whose category comes first in the table. *)
Lemma C6_witness :
  V1.analyze_topic_keywords (u "发布会") =
    {| V1.type := u "汽车"; V1.theme := u "汽车" |}.
Proof.
  apply (C6_exact_match_precedence
           (u "汽车")
           (map u ["汽车"; "长城"; "特斯拉"; "比亚迪"; "发布会"; "新车"]%string)
           (u "发布会")).
  - vm_compute. do 5 right. left. reflexivity.
  - vm_compute. do 4 right. left. reflexivity.
Defined.

Example substring_pass_alone_says_tech :
  V1.substring_pass (u "发布会") V1.theme_patterns = Some (u "科技数码").
Proof. vm_compute. reflexivity. Qed.

Example classify_retail :
  V1.type (V1.analyze_topic_keywords (u "胖东来羽绒服599元进价199元")) = u "电商零售".
Proof. vm_compute. reflexivity. Qed.

Example classify_general :
  V1.analyze_topic_keywords [] =
    {| V1.type := u "综合资讯"; V1.theme := u "热点追踪" |}.
Proof. vm_compute. reflexivity. Qed.

(** ** Scorer *)

Section ScorerFacts.
Context {I : Interpreter}.
Local Open Scope Z_scope.

Lemma round_int_1 n : round_int n 1 = n.
Proof. reflexivity. Qed.

(** Names one draw of the generator and records its range. *)
Ltac draw x g H :=
  match goal with
  | |- context [randint ?lo ?hi ?g0] =>
      pose proof (randint_range lo hi g0 ltac:(lia)) as H;
      destruct (randint lo hi g0) as [x g];
      cbn [fst] in H; cbv beta iota
  end.



Lemma calculate_scores_draws topic g :
  exists a b c d e f,
    in_ranges a b c d e f /\
    fst (V1.calculate_scores topic g) = v1_table a b c d e f.
Proof.
  unfold V1.calculate_scores. cbv zeta.
  draw a g1 Ha. draw b g2 Hb. draw c g3 Hc. draw d g4 Hd.
  draw e g5 He. draw f g6 Hf.
  exists a, b, c, d, e, f. split.
  - unfold in_ranges. lia.
  - cbn [fst]. rewrite round_int_1. reflexivity.
Qed.

Lemma as_scoreset_v1_table a b c d e f :
  as_scoreset (v1_table a b c d e f) =
    Some {| total := a + b + c + d + (e + f);
            interest_score := a + b + c + d;
            utility_score := e + f;
            innovation := a; pain_point := b; potential := c;
            social := d; practicality := e; feasibility := f |}.
Proof. reflexivity. Qed.

(** The scorer overwrites the state of the generator before it draws: the
    state it is called in does not matter. *)
Lemma calculate_scores_reseeds topic g g' :
  V1.calculate_scores topic g = V1.calculate_scores topic g'.
Proof. reflexivity. Qed.

End ScorerFacts.

(** C2. For every topic the score table of the rule-based scorer can be
    read as a ScoreSet; each of its six sub-scores lies in its documented
    closed interval, interest_score and utility_score are the sums of
    their four and two sub-scores, and total = interest_score +
    utility_score = the sum of the six sub-scores. *)
Theorem C2_score_range_invariant :
  forall (I : Interpreter) (topic : str) (g : rng),
  exists s : ScoreSet,
    as_scoreset (fst (V1.calculate_scores topic g)) = Some s /\
    (15 <= innovation s <= 30)%Z /\
    (15 <= pain_point s <= 25)%Z /\
    (10 <= potential s <= 15)%Z /\
    (5 <= social s <= 10)%Z /\
    (5 <= practicality s <= 10)%Z /\
    (5 <= feasibility s <= 10)%Z /\
    interest_score s =
      (innovation s + pain_point s + potential s + social s)%Z /\
    utility_score s = (practicality s + feasibility s)%Z /\
    total s = (interest_score s + utility_score s)%Z /\
    total s = sub_score_sum s.
Proof.
  intros I topic g.
  destruct (calculate_scores_draws topic g)
    as (a & b & c & d & e & f & Hr & Heq).
  rewrite Heq, as_scoreset_v1_table. eexists. split; [reflexivity|].
  unfold in_ranges in Hr. unfold sub_score_sum. cbn. lia.
Qed.

(** C3, as amended. For every topic the derived scores of the rule-based
    scorer lie in the ranges the six intervals add up to:
    interest_score in [45, 80], utility_score in [10, 20] and total in
    [55, 100]. *)
Theorem C3_derived_score_ranges :
  forall (I : Interpreter) (topic : str) (g : rng),
  exists s : ScoreSet,
    as_scoreset (fst (V1.calculate_scores topic g)) = Some s /\
    (45 <= interest_score s <= 80)%Z /\
    (10 <= utility_score s <= 20)%Z /\
    (55 <= total s <= 100)%Z.
Proof.
  intros I topic g.
  destruct (calculate_scores_draws topic g)
    as (a & b & c & d & e & f & Hr & Heq).
  rewrite Heq, as_scoreset_v1_table. eexists. split; [reflexivity|].
  unfold in_ranges in Hr. cbn. lia.
Qed.

(** C2 at one topic, under CPython started with [PYTHONHASHSEED=0]. *)
Lemma C2_witness :
  exists s : ScoreSet,
    as_scoreset
      (fst (V1.calculate_scores (I := cpython (CPython.secret_of_seed 0))
              (u "胖东来羽绒服599元进价199元") (CPython.random_seed 0))) = Some s /\
    (15 <= innovation s <= 30)%Z /\
    (15 <= pain_point s <= 25)%Z /\
    (10 <= potential s <= 15)%Z /\
    (5 <= social s <= 10)%Z /\
    (5 <= practicality s <= 10)%Z /\
    (5 <= feasibility s <= 10)%Z /\
    interest_score s =
      (innovation s + pain_point s + potential s + social s)%Z /\
    utility_score s = (practicality s + feasibility s)%Z /\
    total s = (interest_score s + utility_score s)%Z /\
    total s = sub_score_sum s.
Proof.
  apply (C2_score_range_invariant (cpython (CPython.secret_of_seed 0))).
Defined.

Example scores_retail_seed0 :
  as_scoreset
    (fst (V1.calculate_scores (I := cpython (CPython.secret_of_seed 0))
            (u "胖东来羽绒服599元进价199元") (CPython.random_seed 0))) =
  Some {| total := 79; interest_score := 62; utility_score := 17;
          innovation := 22; pain_point := 20; potential := 13;
          social := 7; practicality := 10; feasibility := 7 |}.
Proof. vm_compute. reflexivity. Qed.

(** C3 as the specification has it, with interest_score in [50, 80] and
    total in [60, 100], fails: under CPython started with
    [PYTHONHASHSEED=0] the topic below, which has the form of the entries
    of the backup hot list, draws 15, 17, 10, 5, 6 and 6. *)
Lemma C3_counterexample :
  exists s : ScoreSet,
    as_scoreset
      (fst (V1.calculate_scores (I := cpython (CPython.secret_of_seed 0))
              (u "测试热搜话题1140") (CPython.random_seed 0))) = Some s /\
    interest_score s = 47%Z /\
    total s = 59%Z /\
    ~ (50 <= interest_score s <= 80)%Z /\
    ~ (60 <= total s <= 100)%Z.
Proof.
  eexists. split; [vm_compute; reflexivity|].
  cbn. repeat split; lia.
Qed.

Lemma C3_witness :
  exists s : ScoreSet,
    as_scoreset
      (fst (V1.calculate_scores (I := cpython (CPython.secret_of_seed 0))
              (u "测试热搜话题1140") (CPython.random_seed 0))) = Some s /\
    (45 <= interest_score s <= 80)%Z /\
    (10 <= utility_score s <= 20)%Z /\
    (55 <= total s <= 100)%Z.
Proof.
  apply (C3_derived_score_ranges (cpython (CPython.secret_of_seed 0))).
Defined.

(** C4. Two runs of the program need not score a topic alike: the seed of
    the generator is [hash(topic)], and the string hash of CPython is
    keyed by a secret chosen when the process starts.  Started with
    [PYTHONHASHSEED=1] and with [PYTHONHASHSEED=2], the scorer gives the
    same topic two different score tables. *)
Theorem C4_scores_differ_between_runs :
  let topic := u "胖东来羽绒服599元进价199元" in
  let run1 := cpython (CPython.secret_of_seed 1) in
  let run2 := cpython (CPython.secret_of_seed 2) in
  as_scoreset (fst (V1.calculate_scores (I := run1) topic (CPython.random_seed 0))) =
    Some {| total := 75; interest_score := 61; utility_score := 14;
            innovation := 18; pain_point := 23; potential := 11;
            social := 9; practicality := 6; feasibility := 8 |} /\
  as_scoreset (fst (V1.calculate_scores (I := run2) topic (CPython.random_seed 0))) =
    Some {| total := 86; interest_score := 70; utility_score := 16;
            innovation := 30; pain_point := 22; potential := 10;
            social := 8; practicality := 6; feasibility := 10 |} /\
  fst (V1.calculate_scores (I := run1) topic (CPython.random_seed 0)) <>
  fst (V1.calculate_scores (I := run2) topic (CPython.random_seed 0)).
Proof.
  cbv zeta.
  assert (H1 : as_scoreset
                 (fst (V1.calculate_scores (I := cpython (CPython.secret_of_seed 1))
                         (u "胖东来羽绒服599元进价199元") (CPython.random_seed 0))) =
               Some {| total := 75; interest_score := 61; utility_score := 14;
                       innovation := 18; pain_point := 23; potential := 11;
                       social := 9; practicality := 6; feasibility := 8 |})
    by (vm_compute; reflexivity).
  assert (H2 : as_scoreset
                 (fst (V1.calculate_scores (I := cpython (CPython.secret_of_seed 2))
                         (u "胖东来羽绒服599元进价199元") (CPython.random_seed 0))) =
               Some {| total := 86; interest_score := 70; utility_score := 16;
                       innovation := 30; pain_point := 22; potential := 10;
                       social := 8; practicality := 6; feasibility := 10 |})
    by (vm_compute; reflexivity).
  split; [exact H1|]. split; [exact H2|].
  intros Heq. apply (f_equal as_scoreset) in Heq.
  rewrite H1, H2 in Heq. discriminate Heq.
Qed.

(** Inside one process the score of a topic does not depend on what the
    generator did before. *)
Lemma scores_fixed_within_a_run :
  forall (I : Interpreter) (topic : str) (g g' : rng),
    fst (V1.calculate_scores topic g) = fst (V1.calculate_scores topic g').
Proof. intros. rewrite (calculate_scores_reseeds topic g g'). reflexivity. Qed.

(** ** The fallback of v2.1 *)

Section V2Facts.
Context {I : Interpreter}.
Local Open Scope Z_scope.

Ltac draw x g H :=
  match goal with
  | |- context [randint ?lo ?hi ?g0] =>
      pose proof (randint_range lo hi g0 ltac:(lia)) as H;
      destruct (randint lo hi g0) as [x g];
      cbn [fst] in H; cbv beta iota
  end.


Lemma rule_based_scores topic search_results g :
  exists d a b c d' e f,
    in_ranges a b c d' e f /\
    fst (V2._rule_based_analysis topic search_results g) = VDict d /\
    dict_get (u "scores") d = Some (v2_table a b c d' e f).
Proof.
  unfold V2._rule_based_analysis. cbv zeta.
  draw a g1 Ha. draw b g2 Hb. draw c g3 Hc. draw d' g4 Hd.
  draw e g5 He. draw f g6 Hf.
  eexists. exists a, b, c, d', e, f. split; [unfold in_ranges; lia|].
  cbn [fst]. split; reflexivity.
Qed.

Lemma as_scoreset_v2_table a b c d e f :
  as_scoreset (v2_table a b c d e f) =
    Some {| total := 0; interest_score := 0; utility_score := 0;
            innovation := a; pain_point := b; potential := c;
            social := d; practicality := e; feasibility := f |}.
Proof. reflexivity. Qed.

End V2Facts.

(** C1. The rule-based fallback of v2.1 does not recompute the derived
    scores: for every topic its record carries total = interest_score =
    utility_score = 0 next to six sub-scores whose sum is at least 55. *)
Theorem C1_v21_fallback_totals_are_zero :
  forall (I : Interpreter) (topic : str) (search_results : list SearchResult)
         (g : rng),
  exists (d : dict) (scores : pyval) (s : ScoreSet),
    fst (V2._rule_based_analysis topic search_results g) = VDict d /\
    dict_get (u "scores") d = Some scores /\
    as_scoreset scores = Some s /\
    total s = 0%Z /\ interest_score s = 0%Z /\ utility_score s = 0%Z /\
    (55 <= sub_score_sum s)%Z /\
    total s <> sub_score_sum s.
Proof.
  intros I topic search_results g.
  destruct (rule_based_scores topic search_results g)
    as (d & a & b & c & d' & e & f & Hr & Hd & Hs).
  exists d, (v2_table a b c d' e f). eexists.
  split; [exact Hd|]. split; [exact Hs|].
  split; [apply as_scoreset_v2_table|].
  unfold in_ranges in Hr. unfold sub_score_sum. cbn. lia.
Qed.

(** ** Three-stage timeline *)

Section TimelineFacts.
Context {I : Interpreter}.

(** Splits the goal along the tests of the branch it shows, until the
    closing [capped] is on top. *)
Ltac to_capped :=
  repeat first
    [ solve [do 3 eexists; reflexivity]
    | match goal with
      | |- context [if ?b then _ else _] => destruct b
      | |- context [match ?x with _ => _ end] => destruct x
      end ].

Lemma stage_price_capped topic :
  exists c d i, V1.stage_price topic = V1.capped c d i.
Proof. unfold V1.stage_price. cbv zeta. to_capped. Qed.

Lemma stage_entertainment_capped topic :
  exists c d i, V1.stage_entertainment topic = V1.capped c d i.
Proof. unfold V1.stage_entertainment. cbv zeta. to_capped. Qed.

Lemma stage_game_capped topic :
  exists c d i, V1.stage_game topic = V1.capped c d i.
Proof. unfold V1.stage_game. cbv zeta. to_capped. Qed.

Lemma stage_tech_capped topic :
  exists c d i, V1.stage_tech topic = V1.capped c d i.
Proof. unfold V1.stage_tech. to_capped. Qed.

Lemma stage_incident_capped topic :
  exists c d i, V1.stage_incident topic = V1.capped c d i.
Proof. unfold V1.stage_incident. cbv zeta. to_capped. Qed.

Lemma stage_default_capped topic :
  exists c d i, V1.stage_default topic = V1.capped c d i.
Proof. unfold V1.stage_default. cbv zeta. to_capped. Qed.

(** Every branch of the keyword-driven part ends in [capped]. *)
Lemma stage_by_keywords_capped topic :
  exists c d i, V1.stage_by_keywords topic = V1.capped c d i.
Proof.
  unfold V1.stage_by_keywords.
  repeat match goal with
         | |- context [if any_in topic ?ws then _ else _] =>
             destruct (any_in topic ws)
         end;
    first [ apply stage_price_capped | apply stage_entertainment_capped
          | apply stage_game_capped | apply stage_tech_capped
          | apply stage_incident_capped | apply stage_default_capped
          | do 3 eexists; reflexivity ].
Qed.

(** So does the context-driven part. *)
Lemma three_stage_capped topic search_results :
  exists c d i,
    V1.generate_three_stage_timeline topic search_results = V1.capped c d i.
Proof.
  unfold V1.generate_three_stage_timeline.
  destruct (V1.stage_key_info search_results) as [|k0 [|k1 rest]];
    try apply stage_by_keywords_capped.
  cbv zeta. do 3 eexists. reflexivity.
Qed.

Lemma capped_lengths c d i :
  List.length (cause (V1.capped c d i)) <= 100 /\
  List.length (develop (V1.capped c d i)) <= 100 /\
  List.length (impact (V1.capped c d i)) <= 100.
Proof.
  unfold V1.capped. cbn [cause develop impact].
  repeat split; apply firstn_le_length.
Qed.

(** Without search results the generator is its keyword-driven part. *)
Lemma three_stage_no_results topic :
  V1.generate_three_stage_timeline topic [] = V1.stage_by_keywords topic.
Proof. reflexivity. Qed.

End TimelineFacts.

(** C8. For every topic and every list of search results, each of the
    strings cause, develop and impact of the three-stage timeline has at
    most 100 characters, in the context-driven branch and in every
    keyword-driven branch. *)
Theorem C8_timeline_length_bound :
  forall (I : Interpreter) (topic : str) (search_results : list SearchResult),
    let t := V1.generate_three_stage_timeline topic search_results in
    List.length (cause t) <= 100 /\
    List.length (develop t) <= 100 /\
    List.length (impact t) <= 100.
Proof.
  intros I topic search_results. cbv zeta.
  destruct (three_stage_capped topic search_results) as (c & d & i & H).
  rewrite H. apply capped_lengths.
Qed.

Example timeline_retail_seed0 :
  V1.generate_three_stage_timeline (I := cpython (CPython.secret_of_seed 0))
    (u "胖东来羽绒服599元进价199元") [] =
  {| cause := u "胖东来羽绒服599元进价199元曝光，胖东来商品定价引发热议";
     develop := u "网友热议'599元'售价与'199元'进价的价差";
     impact := u "胖东来回应舆论，公众关注商品定价透明度与商业利润" |}.
Proof. vm_compute. reflexivity. Qed.

(** ** The rule-based synthesizer on the empty topic *)

Section SynthesizerFacts.
Context {I : Interpreter}.

Lemma event_timeline_fallback_filled topic :
  filled (VStr (V1.event_timeline_fallback topic)) = true.
Proof.
  unfold V1.event_timeline_fallback.
  repeat match goal with
         | |- context [if any_in topic ?ws then _ else _] =>
             destruct (any_in topic ws)
         end; reflexivity.
Qed.

(** The paragraph always opens with a quotation mark. *)
Lemma generate_event_timeline_filled topic search_results :
  filled (VStr (V1.generate_event_timeline topic search_results)) = true.
Proof.
  unfold V1.generate_event_timeline.
  destruct (V1.event_key_info search_results) as [|k0 [|k1 rest]];
    try apply event_timeline_fallback_filled.
  cbv zeta.
  match goal with
  | |- context [if (100 <? ?n)%nat then _ else _] => destruct (100 <? n)%nat
  end; [reflexivity|].
  match goal with
  | |- context [if (?n <? 50)%nat then _ else _] => destruct (n <? 50)%nat
  end; reflexivity.
Qed.

(** The record of v1.0, field by field. *)
Lemma mock_ai_analysis_fields topic search_results g :
  fst (V1.mock_ai_analysis topic search_results g) =
  let topic_type := V1.type (V1.analyze_topic_keywords topic) in
  let theme := V1.theme (V1.analyze_topic_keywords topic) in
  VDict
    [ (u "name", VStr (V1.generate_product_name topic topic_type theme));
      (u "event_timeline", VStr (V1.generate_event_timeline topic search_results));
      (u "core_features", V1.strs (V1.generate_core_features_by_topic topic topic_type theme));
      (u "market_pain_points", V1.strs (V1.generate_pain_points_by_topic topic topic_type theme));
      (u "target_users", VStr (V1.generate_target_users_by_topic topic topic_type));
      (u "scores", fst (V1.calculate_scores topic g));
      (u "innovation_points", V1.strs (V1.generate_innovation_points_by_topic topic theme));
      (u "market_potential", VDict (V1.generate_market_potential_by_topic topic theme)) ].
Proof.
  unfold V1.mock_ai_analysis. cbv zeta.
  destruct (V1.calculate_scores topic g) as [scores g']. reflexivity.
Qed.

End SynthesizerFacts.

(** C9. The rule-based synthesizer of v1.0 accepts the empty topic: it is
    classified as general news, and for every list of search results the
    record returned has its eight fields and the values of the generic
    template.  Each of the seven fields of text is filled: every string
    in it has characters, every sequence and table has entries.  The
    eighth field is the score table. *)
Theorem C9_empty_topic_gives_filled_record :
  forall (I : Interpreter) (search_results : list SearchResult) (g : rng),
    V1.type (V1.analyze_topic_keywords []) = u "综合资讯" /\
    exists d : dict,
      fst (V1.mock_ai_analysis [] search_results g) = VDict d /\
      map fst d =
        map u ["name"; "event_timeline"; "core_features";
               "market_pain_points"; "target_users"; "scores";
               "innovation_points"; "market_potential"]%string /\
      dict_get (u "name") d = Some (VStr (u "「」智能分析助手")) /\
      dict_get (u "target_users") d =
        Some (VStr (u "关注''话题的用户群体，希望获取相关深度信息和专业分析")) /\
      (forall k,
          In k (map u ["name"; "event_timeline"; "core_features";
                       "market_pain_points"; "target_users";
                       "innovation_points"; "market_potential"]%string) ->
          exists v, dict_get k d = Some v /\ filled v = true) /\
      (exists scores s,
          dict_get (u "scores") d = Some scores /\
          as_scoreset scores = Some s).
Proof.
  intros I search_results g. split; [vm_compute; reflexivity|].
  eexists. split; [apply mock_ai_analysis_fields|].
  cbv zeta. rewrite classify_general. cbn [V1.type V1.theme].
  split; [reflexivity|]. split; [vm_compute; reflexivity|].
  split; [vm_compute; reflexivity|]. split.
  - intros k Hk.
    pose proof (generate_event_timeline_filled [] search_results) as Hev.
    revert Hev.
    generalize (V1.generate_event_timeline [] search_results) as event.
    generalize (fst (V1.calculate_scores [] g)) as scores.
    intros scores event Hev.
    cbn [map In] in Hk.
    repeat (destruct Hk as [Hk|Hk];
            [subst k; eexists; split; [vm_compute; reflexivity|];
             first [exact Hev | vm_compute; reflexivity]|]).
    contradiction.
  - destruct (calculate_scores_draws [] g)
      as (a & b & c & d & e & f & _ & Heq).
    rewrite Heq. do 2 eexists. split; [reflexivity|].
    apply as_scoreset_v1_table.
Qed.

Example event_timeline_empty_topic :
  V1.generate_event_timeline [] [] =
    u "''话题引发广泛讨论。网友从不同角度表达观点，相关内容在社交平台快速传播，热度持续走高。".
Proof. vm_compute. reflexivity. Qed.

(** ** The LLM wrappers *)

Section WrapperFacts.
Context {I : Interpreter} {L : Adapter}.


(** Whatever is raised inside the [try] block ends in the fallback. *)
Lemma v2_any_exception topic search_results g e :
  V2.llm_attempt topic search_results = Raise e ->
  V2.analyze_product_idea topic search_results g =
    V2._rule_based_analysis topic search_results g.
Proof.
  intros H. unfold V2.analyze_product_idea. rewrite H.
  destruct e; reflexivity.
Qed.


Lemma v2_attempt_fails topic search_results :
  llm_failed [topic; V2._format_search_results search_results] ->
  exists e, V2.llm_attempt topic search_results = Raise e.
Proof.
  unfold V2.llm_attempt.
  intros [[e H] | (content & text & e & Hc & Ht & Hj)].
  - rewrite H. exists e. reflexivity.
  - rewrite Hc. cbn [bind]. rewrite Ht. cbn [bind]. rewrite Hj.
    exists e. reflexivity.
Qed.




End WrapperFacts.




(** ** Report ordering *)

Section ReportFacts.
Context {I : Interpreter}.

Lemma count_total_ok p l ts :
  Forall2 (fun x t => V1.total_of x = Ok t) l ts ->
  exists n, V1.count_total p l = Ok n.
Proof.
  induction 1 as [|x t l ts Hx Hl [n IH]]; cbn [V1.count_total].
  - eexists. reflexivity.
  - rewrite Hx. cbn [bind]. rewrite IH. cbn [bind]. eexists. reflexivity.
Qed.


End ReportFacts.




Example sort_scenario :
  sorted V1.total_of true [scored "a" 72; scored "b" 85; scored "c" 85] =
    Ok [scored "b" 85; scored "c" 85; scored "a" 72].
Proof. vm_compute. reflexivity. Qed.

Example sort_scenario_buckets :
  let l := [scored "b" 85; scored "c" 85; scored "a" 72] in
  V1.count_total (fun t => 80 <=? t)%Z l = Ok 2%Z /\
  V1.count_total (fun t => (60 <=? t) && (t <? 80))%Z l = Ok 1%Z /\
  V1.count_total (fun t => t <? 60)%Z l = Ok 0%Z.
Proof. vm_compute. repeat split; reflexivity. Qed.

(** ** The timeline of the report *)

Section CardFacts.
Context {I : Interpreter}.

Lemma all_strs_map l : V1.all_strs (map VStr l) = Ok l.
Proof.
  induction l as [|s l IH]; cbn [map V1.all_strs]; [reflexivity|].
  rewrite IH. reflexivity.
Qed.

Lemma join_first3_strs l :
  V1.join_first3 (V1.strs l) = Ok (join (u "; ") (firstn 3 l)).
Proof.
  unfold V1.join_first3, V1.strs. rewrite firstn_map, all_strs_map.
  reflexivity.
Qed.


(** A record of that shape has no entry [search_results]: the card gets
    the timeline of the empty list. *)
Lemma make_card_v1_record
  topic rank hot results name event features pains users points market
  a b c d e f joined :
  V1.join_first3 features = Ok joined ->
  V1.make_card
    {| td_topic := topic; td_rank := rank; td_hot_score := hot;
       td_search_results := results;
       td_analysis :=
         v1_record name event features pains users (v1_table a b c d e f)
           points market |} =
  Ok {| V1.card_topic := topic;
        V1.card_rank := rank;
        V1.card_hot_score := hot;
        V1.card_total := VInt (a + b + c + d + (e + f));
        V1.card_interest_score := VInt (a + b + c + d);
        V1.card_utility_score := VInt (e + f);
        V1.card_timeline := V1.generate_three_stage_timeline topic [];
        V1.card_name := name;
        V1.card_core_features := joined;
        V1.card_target_users := users |}.
Proof.
  intros Hjoin. unfold V1.make_card.
  cbn -[V1.generate_three_stage_timeline V1.join_first3 Z.add].
  rewrite Hjoin. reflexivity.
Qed.

Lemma total_of_v1_record
  topic rank hot results name event features pains users points market
  a b c d e f :
  V1.total_of
    {| td_topic := topic; td_rank := rank; td_hot_score := hot;
       td_search_results := results;
       td_analysis :=
         v1_record name event features pains users (v1_table a b c d e f)
           points market |} =
  Ok (a + b + c + d + (e + f))%Z.
Proof. reflexivity. Qed.


Lemma analyze_hot_list_entries web_search_topic hot_list :
  forall i g,
    Forall (main_entry web_search_topic)
      (fst (V1.analyze_hot_list web_search_topic i hot_list g)) /\
    map td_topic (fst (V1.analyze_hot_list web_search_topic i hot_list g)) =
      map hotWord hot_list.
Proof.
  induction hot_list as [|hot rest IH]; intros i g;
    cbn [V1.analyze_hot_list].
  - split; constructor.
  - cbv zeta. unfold V1.analyze_product_idea.
    destruct (V1.mock_ai_analysis (hotWord hot)
                (web_search_topic (hotWord hot)) g) as [analysis g1] eqn:Ha.
    specialize (IH (i + 1)%Z g1).
    destruct (V1.analyze_hot_list web_search_topic (i + 1) rest g1)
      as [entries g2].
    cbn [fst] in *. destruct IH as [IHall IHtopics]. split.
    + constructor; [|exact IHall].
      split; [reflexivity|]. cbn [td_analysis td_topic td_search_results].
      exists g. rewrite Ha. reflexivity.
    + cbn [map td_topic]. rewrite IHtopics. reflexivity.
Qed.

(** What [make_card] and [total_of] give on such an entry. *)
Lemma main_entry_card web_search_topic x :
  main_entry web_search_topic x ->
  (exists t, V1.total_of x = Ok t) /\
  (exists c, V1.make_card x = Ok c /\
             V1.card_topic c = td_topic x /\
             V1.card_timeline c =
               V1.generate_three_stage_timeline (td_topic x) []).
Proof.
  intros [_ [g Hx]]. destruct x as [topic rank hot results analysis].
  cbn [td_topic td_search_results td_analysis] in Hx. subst analysis.
  rewrite mock_ai_analysis_fields. cbv zeta.
  destruct (calculate_scores_draws topic g)
    as (a & b & c & d & e & f & _ & Heq).
  rewrite Heq. fold (v1_record
    (VStr (V1.generate_product_name topic
             (V1.type (V1.analyze_topic_keywords topic))
             (V1.theme (V1.analyze_topic_keywords topic))))
    (VStr (V1.generate_event_timeline topic results))
    (V1.strs (V1.generate_core_features_by_topic topic
                (V1.type (V1.analyze_topic_keywords topic))
                (V1.theme (V1.analyze_topic_keywords topic))))
    (V1.strs (V1.generate_pain_points_by_topic topic
                (V1.type (V1.analyze_topic_keywords topic))
                (V1.theme (V1.analyze_topic_keywords topic))))
    (VStr (V1.generate_target_users_by_topic topic
             (V1.type (V1.analyze_topic_keywords topic))))
    (v1_table a b c d e f)
    (V1.strs (V1.generate_innovation_points_by_topic topic
                (V1.theme (V1.analyze_topic_keywords topic))))
    (VDict (V1.generate_market_potential_by_topic topic
              (V1.theme (V1.analyze_topic_keywords topic))))).
  split.
  - eexists. apply total_of_v1_record.
  - eexists. split; [apply make_card_v1_record, join_first3_strs|].
    split; reflexivity.
Qed.

Lemma make_cards_main web_search_topic l :
  Forall (main_entry web_search_topic) l ->
  exists cs,
    V1.make_cards l = Ok cs /\
    map V1.card_topic cs = map td_topic l /\
    Forall (fun c => V1.card_timeline c =
                       V1.generate_three_stage_timeline (V1.card_topic c) [])
           cs.
Proof.
  induction 1 as [|x l Hx Hl (cs & Hcs & Htopics & Hall)];
    cbn [V1.make_cards].
  - exists []. repeat split; constructor.
  - destruct (main_entry_card web_search_topic x Hx)
      as [_ (c & Hc & Htopic & Htl)].
    rewrite Hc. cbn [bind]. rewrite Hcs. cbn [bind].
    exists (c :: cs). split; [reflexivity|]. split.
    + cbn [map]. rewrite Htopic, Htopics. reflexivity.
    + constructor; [rewrite Htopic; exact Htl | exact Hall].
Qed.

Lemma main_totals web_search_topic l :
  Forall (main_entry web_search_topic) l ->
  exists ts, Forall2 (fun x t => V1.total_of x = Ok t) l ts.
Proof.
  induction 1 as [|x l Hx Hl [ts IH]].
  - exists []. constructor.
  - destruct (main_entry_card web_search_topic x Hx) as [[t Ht] _].
    exists (t :: ts). constructor; assumption.
Qed.

End CardFacts.

(** C10. In a run of v1.0 the loop of [main] keeps the search results of
    a topic next to its analysis, not inside it; the report is produced,
    and the timeline on every card is the one the generator gives for an
    empty list of search results, that is, the keyword-driven one. *)
Theorem C10_report_timeline_without_search_results :
  forall (I : Interpreter) (web_search_topic : str -> list SearchResult)
         (hot_list : list hot_item) (g : rng),
    let entries := fst (V1.analyze_hot_list web_search_topic 1 hot_list g) in
    Forall (fun x => td_search_results x = web_search_topic (td_topic x))
           entries /\
    exists r : V1.report,
      V1.generate_html_report entries = Ok r /\
      Permutation (map hotWord hot_list) (map V1.card_topic (V1.cards r)) /\
      Forall (fun c =>
                V1.card_timeline c =
                  V1.generate_three_stage_timeline (V1.card_topic c) [] /\
                V1.card_timeline c = V1.stage_by_keywords (V1.card_topic c))
             (V1.cards r).
Proof.
  intros I web_search_topic hot_list g entries.
  destruct (analyze_hot_list_entries web_search_topic hot_list 1%Z g)
    as [Hentries Htopics].
  fold entries in Hentries, Htopics. split.
  - eapply Forall_impl; [|exact Hentries]. intros x [Hx _]. exact Hx.
  - destruct (main_totals web_search_topic entries Hentries) as [ts Hts].
    destruct (PySortFacts.sorted_reverse_ok V1.total_of Hts) as [s Hs].
    destruct (PySortFacts.sorted_reverse_spec V1.total_of entries Hs)
      as (Hperm & (ks & Hks & _) & _).
    assert (Hmain : Forall (main_entry web_search_topic) s)
      by (eapply Permutation_Forall; eassumption).
    destruct (count_total_ok (fun t => 80 <=? t)%Z s ks Hks) as [n1 Hn1].
    destruct (count_total_ok (fun t => (60 <=? t) && (t <? 80))%Z s ks Hks)
      as [n2 Hn2].
    destruct (count_total_ok (fun t => t <? 60)%Z s ks Hks) as [n3 Hn3].
    destruct (make_cards_main web_search_topic s Hmain)
      as (cs & Hcs & Hcst & Hall).
    eexists. split.
    + unfold V1.generate_html_report. rewrite Hs. cbn [bind].
      rewrite Hn1. cbn [bind]. rewrite Hn2. cbn [bind].
      rewrite Hn3. cbn [bind]. rewrite Hcs. cbn [bind]. reflexivity.
    + cbn [V1.cards]. split.
      * rewrite Hcst, <- Htopics. apply Permutation_map. exact Hperm.
      * eapply Forall_impl; [|exact Hall].
        intros c Hc. split; [exact Hc|]. rewrite Hc. reflexivity.
Qed.

(** A run in which the search found two usable titles: the card shows the
    keyword-driven timeline, not the one built from the titles. *)

Example report_card_drops_the_context :
  let I := cpython (CPython.secret_of_seed 0) in
  let topic := u "胖东来羽绒服599元进价199元" in
  let entries :=
    fst (V1.analyze_hot_list found_titles 1
           [{| hotWord := topic; hotScore := 990000 |}] (CPython.random_seed 0)) in
  map td_search_results entries = [found_titles topic] /\
  V1.generate_three_stage_timeline topic (found_titles topic) =
    {| cause := u "胖东来回应羽绒服定价争议并公布进价明细成为关注焦点";
       develop := u "网友热议市场监管部门介入调查胖东来羽绒服价格";
       impact := u "事件持续发酵，相关讨论热度居高不下" |} /\
  match V1.generate_html_report entries with
  | Ok r =>
      map V1.card_timeline (V1.cards r) =
        [ {| cause := u "胖东来羽绒服599元进价199元曝光，胖东来商品定价引发热议";
             develop := u "网友热议'599元'售价与'199元'进价的价差";
             impact := u "胖东来回应舆论，公众关注商品定价透明度与商业利润" |} ]
  | Raise _ => False
  end.
Proof. vm_compute. repeat split; reflexivity. Qed.

(** ** The totals of the LLM path *)

Lemma str_eqb_refl a : str_eqb a a = true.
Proof. apply str_eqb_eq. reflexivity. Qed.

Lemma dict_get_set_same k v d : dict_get k (dict_set k v d) = Some v.
Proof.
  induction d as [|[k' v'] d IH]; cbn [dict_set dict_get].
  - rewrite str_eqb_refl. reflexivity.
  - destruct (str_eqb k k') eqn:E; cbn [dict_get].
    + rewrite str_eqb_refl. reflexivity.
    + rewrite E. exact IH.
Qed.

Lemma dict_get_set_other k k' v d :
  str_eqb k k' = false -> dict_get k (dict_set k' v d) = dict_get k d.
Proof.
  intros Hne. induction d as [|[k'' v''] d IH]; cbn [dict_set dict_get].
  - rewrite Hne. reflexivity.
  - destruct (str_eqb k' k'') eqn:E; cbn [dict_get].
    + apply str_eqb_eq in E. subst k''. rewrite Hne. reflexivity.
    + destruct (str_eqb k k''); [reflexivity | exact IH].
Qed.

(** [py_add] gives a number only from two numbers. *)
Lemma py_add_int x y n :
  py_add x y = Ok (VInt n) ->
  exists a b, as_int x = Some a /\ as_int y = Some b /\ n = (a + b)%Z.
Proof.
  unfold py_add.
  destruct (as_int x) as [a|] eqn:Hx; destruct (as_int y) as [b|] eqn:Hy;
    intros H.
  - inversion H. exists a, b. repeat split.
  - destruct x, y; discriminate.
  - destruct x, y; discriminate.
  - destruct x, y; discriminate.
Qed.

Lemma py_add_as_int x y r n :
  py_add x y = Ok r -> as_int r = Some n ->
  exists a b, as_int x = Some a /\ as_int y = Some b /\ n = (a + b)%Z.
Proof.
  intros Hadd Hr. apply py_add_int.
  unfold py_add in *.
  destruct (as_int x) as [a|]; destruct (as_int y) as [b|];
    try (inversion Hadd; subst; cbn [as_int] in Hr; inversion Hr; reflexivity);
    destruct x, y; try discriminate;
    inversion Hadd; subst; discriminate.
Qed.

(** When the block that computes the totals goes through, the scores of
    the record it returns hold the sums of the six sub-scores, whatever
    the response had under [total], [interest_score] or
    [utility_score]. *)
Lemma add_totals_recomputes analysis analysis' :
  Llm.add_totals analysis = Ok analysis' ->
  exists sc a b c d e f,
    subscript analysis' (u "scores") = Ok (VDict sc) /\
    sub_int (u "innovation") sc = Some a /\
    sub_int (u "pain_point") sc = Some b /\
    sub_int (u "potential") sc = Some c /\
    sub_int (u "social") sc = Some d /\
    sub_int (u "practicality") sc = Some e /\
    sub_int (u "feasibility") sc = Some f /\
    dict_get (u "total") sc = Some (VInt (a + b + c + d + (e + f))) /\
    dict_get (u "interest_score") sc = Some (VInt (a + b + c + d)) /\
    dict_get (u "utility_score") sc = Some (VInt (e + f)).
Proof.
  unfold Llm.add_totals. intros H.
  destruct (subscript analysis (u "scores")) as [scores|] eqn:Hsc;
    cbn [bind] in H; [|discriminate].
  destruct (subscript scores (u "innovation")) as [va|] eqn:Ha;
    cbn [bind] in H; [|discriminate].
  destruct (subscript scores (u "pain_point")) as [vb|] eqn:Hb;
    cbn [bind] in H; [|discriminate].
  destruct (py_add va vb) as [s1|] eqn:H1; cbn [bind] in H; [|discriminate].
  destruct (subscript scores (u "potential")) as [vc|] eqn:Hc;
    cbn [bind] in H; [|discriminate].
  destruct (py_add s1 vc) as [s2|] eqn:H2; cbn [bind] in H; [|discriminate].
  destruct (subscript scores (u "social")) as [vd|] eqn:Hd;
    cbn [bind] in H; [|discriminate].
  destruct (py_add s2 vd) as [interest|] eqn:H3; cbn [bind] in H; [|discriminate].
  destruct (subscript scores (u "practicality")) as [ve|] eqn:He;
    cbn [bind] in H; [|discriminate].
  destruct (subscript scores (u "feasibility")) as [vf|] eqn:Hf;
    cbn [bind] in H; [|discriminate].
  destruct (py_add ve vf) as [utility|] eqn:H4; cbn [bind] in H; [|discriminate].
  destruct (py_add interest utility) as [sum|] eqn:H5;
    cbn [bind] in H; [|discriminate].
  unfold py_round1 in H.
  destruct (as_int sum) as [n|] eqn:Hsum; cbn [bind] in H; [|discriminate].
  destruct analysis as [| | | | |an]; try discriminate.
  destruct scores as [| | | | |sc]; try discriminate.
  inversion H; subst analysis'; clear H. rewrite round_int_1.
  destruct (py_add_as_int _ _ _ _ H5 Hsum) as (i & ut & Hi & Hut & Hn).
  destruct (py_add_as_int _ _ _ _ H3 Hi) as (i2 & d & Hi2 & Hvd & Hi').
  destruct (py_add_as_int _ _ _ _ H2 Hi2) as (i1 & c & Hi1 & Hvc & Hi2').
  destruct (py_add_as_int _ _ _ _ H1 Hi1) as (a & b & Hva & Hvb & Hi1').
  destruct (py_add_as_int _ _ _ _ H4 Hut) as (e & f & Hve & Hvf & Hut').
  assert (Hinterest : interest = VInt i).
  { unfold py_add in H3. rewrite Hi2, Hvd in H3. inversion H3. subst. reflexivity. }
  assert (Hutility : utility = VInt ut).
  { unfold py_add in H4. rewrite Hve, Hvf in H4. inversion H4. subst. reflexivity. }
  subst. cbn [subscript] in *.
  assert (Hsub : forall k v,
             match dict_get k sc with
             | Some x => Ok x
             | None => Raise (KeyError k)
             end = Ok v -> dict_get k sc = Some v).
  { intros k v Hk. destruct (dict_get k sc); inversion Hk. reflexivity. }
  apply Hsub in Ha, Hb, Hc, Hd, He, Hf.
  eexists. exists a, b, c, d, e, f.
  split; [rewrite dict_get_set_same; reflexivity|].
  unfold sub_int.
  repeat rewrite dict_get_set_other by reflexivity.
  rewrite Ha, Hb, Hc, Hd, He, Hf.
  repeat rewrite dict_get_set_same.
  repeat split; try assumption.
  rewrite dict_get_set_other by reflexivity. apply dict_get_set_same.
Qed.

Example strip_fences_fenced :
  Llm.strip_fences (u "```json" ++ [10%N] ++ u "{...}" ++ [10%N] ++ u "```") =
    u "{...}".
Proof. vm_compute. reflexivity. Qed.

(** The success path of v2.1: the record of the model is returned, and
    the total it brought is replaced by the sum of its sub-scores. *)
Example llm_success_recomputes_total :
  let I := cpython (CPython.secret_of_seed 0) in
  let g := CPython.random_seed 0 in
  exists d sc s,
    V2.analyze_product_idea (L := fenced_adapter)
      (u "胖东来羽绒服599元进价199元") [] g = (VDict d, g) /\
    dict_get (u "name") d = Some (VStr (u "比价助手")) /\
    dict_get (u "scores") d = Some sc /\
    as_scoreset sc = Some s /\
    total s = 78%Z /\ interest_score s = 65%Z /\ utility_score s = 13%Z /\
    total s = sub_score_sum s.
Proof.
  cbv zeta. do 3 eexists.
  split; [vm_compute; reflexivity|].
  split; [vm_compute; reflexivity|].
  split; [vm_compute; reflexivity|].
  split; [vm_compute; reflexivity|].
  vm_compute. repeat split; reflexivity.
Qed.

(* ===================================================================== *)
(** * Part III: further properties of the scripts                         *)
(* ===================================================================== *)

(** ** The report: buckets, failures, top three *)

Section ReportMore.
Context {I : Interpreter}.
Local Open Scope Z_scope.

Lemma count_total_buckets l :
  forall a b c,
    V1.count_total (fun t => 80 <=? t) l = Ok a ->
    V1.count_total (fun t => (60 <=? t) && (t <? 80)) l = Ok b ->
    V1.count_total (fun t => t <? 60) l = Ok c ->
    a + b + c = Z.of_nat (List.length l).
Proof.
  induction l as [|x l IH]; intros a b c Ha Hb Hc;
    cbn [V1.count_total] in Ha, Hb, Hc.
  - inversion Ha; inversion Hb; inversion Hc. reflexivity.
  - destruct (V1.total_of x) as [t|e]; cbn [bind] in Ha, Hb, Hc;
      [|discriminate].
    destruct (V1.count_total (fun t => 80 <=? t) l) as [a'|];
      cbn [bind] in Ha; [|discriminate].
    destruct (V1.count_total (fun t => (60 <=? t) && (t <? 80)) l) as [b'|];
      cbn [bind] in Hb; [|discriminate].
    destruct (V1.count_total (fun t => t <? 60) l) as [c'|];
      cbn [bind] in Hc; [|discriminate].
    specialize (IH a' b' c' eq_refl eq_refl eq_refl).
    inversion Ha; inversion Hb; inversion Hc; subst; clear Ha Hb Hc.
    cbn [List.length]. rewrite Nat2Z.inj_succ.
    destruct (Z.leb_spec 80 t); destruct (Z.leb_spec 60 t);
      destruct (Z.ltb_spec t 80); destruct (Z.ltb_spec t 60);
      cbn [andb]; lia.
Qed.

Lemma make_cards_length l :
  forall cs, V1.make_cards l = Ok cs -> List.length cs = List.length l.
Proof.
  induction l as [|x l IH]; intros cs H; cbn [V1.make_cards] in H.
  - inversion H. reflexivity.
  - destruct (V1.make_card x); cbn [bind] in H; [|discriminate].
    destruct (V1.make_cards l) as [cs'|]; cbn [bind] in H; [|discriminate].
    inversion H. cbn [List.length]. rewrite (IH cs' eq_refl). reflexivity.
Qed.



(** Keys of a sorted list: an element of the first [n] has a total at
    least as large as every element after them. *)
Lemma sorted_prefix_dominates (s : list topic_data) ks :
  Forall2 (fun x k => V1.total_of x = Ok k) s ks ->
  StronglySorted Z.ge ks ->
  forall n x y tx ty,
    In x (firstn n s) -> In y (skipn n s) ->
    V1.total_of x = Ok tx -> V1.total_of y = Ok ty -> ty <= tx.
Proof.
  induction 1 as [|a k s ks Ha Hs IH]; intros Hsorted n x y tx ty Hx Hy Htx Hty.
  - destruct n; contradiction.
  - inversion Hsorted as [|? ? Hsorted' Hall]; subst.
    destruct n as [|n]; [contradiction|]. cbn [firstn skipn] in Hx, Hy.
    destruct Hx as [Hx|Hx].
    + subst a. rewrite Htx in Ha. inversion Ha; subst k.
      assert (Hin : In y s)
        by (rewrite <- (firstn_skipn n s); apply in_or_app; right; exact Hy).
      clear - Hin Hs Hall Hty.
      induction Hs as [|b kb s ks Hb Hs IHs]; [contradiction|].
      inversion Hall; subst. destruct Hin as [Hin|Hin].
      * subst b. rewrite Hty in Hb. inversion Hb; subst. lia.
      * apply IHs; assumption.
    + eapply IH; eassumption.
Qed.

End ReportMore.

(** X1. When the report of v1.0 is produced, its three counts add up to
    the number of topics handed in, it has one card for each of them,
    and the sorted list is a rearrangement of the input. *)
Theorem report_buckets_partition :
  forall (I : Interpreter) (l : list topic_data) (r : V1.report),
    V1.generate_html_report l = Ok r ->
    (V1.excellent r + V1.good r + V1.average r)%Z = Z.of_nat (List.length l) /\
    List.length (V1.cards r) = List.length l /\
    Permutation l (V1.sorted_topics r).
Proof.
  intros I l r. unfold V1.generate_html_report.
  destruct (sorted V1.total_of true l) as [s|] eqn:Hs; cbn [bind];
    [|discriminate].
  destruct (V1.count_total (fun t => 80 <=? t)%Z s) as [a|] eqn:Ha;
    cbn [bind]; [|discriminate].
  destruct (V1.count_total (fun t => (60 <=? t) && (t <? 80))%Z s) as [b|]
    eqn:Hb; cbn [bind]; [|discriminate].
  destruct (V1.count_total (fun t => t <? 60)%Z s) as [c|] eqn:Hc;
    cbn [bind]; [|discriminate].
  destruct (V1.make_cards s) as [cs|] eqn:Hcs; cbn [bind]; [|discriminate].
  intros H. inversion H; subst r; clear H.
  cbn [V1.excellent V1.good V1.average V1.cards V1.sorted_topics].
  destruct (PySortFacts.sorted_reverse_spec V1.total_of l Hs) as [Hperm _].
  rewrite (count_total_buckets s a b c Ha Hb Hc).
  rewrite (make_cards_length s cs Hcs).
  rewrite (Permutation_length Hperm). repeat split. exact Hperm.
Qed.

(** The report of one run of v1.0 under CPython: one topic, one card. *)
Lemma report_buckets_partition_witness :
  let I := cpython (CPython.secret_of_seed 0) in
  let l :=
    fst (V1.analyze_hot_list found_titles 1
           [{| hotWord := u "胖东来羽绒服599元进价199元"; hotScore := 990000 |}]
           (CPython.random_seed 0)) in
  match V1.generate_html_report l with
  | Ok r =>
      (V1.excellent r + V1.good r + V1.average r)%Z = Z.of_nat (List.length l) /\
      List.length (V1.cards r) = List.length l /\
      Permutation l (V1.sorted_topics r)
  | Raise _ => False
  end.
Proof.
  cbv zeta.
  destruct (V1.generate_html_report (I := cpython (CPython.secret_of_seed 0))
              (fst (V1.analyze_hot_list (I := cpython (CPython.secret_of_seed 0))
                      found_titles 1
                      [{| hotWord := u "胖东来羽绒服599元进价199元";
                          hotScore := 990000 |}]
                      (CPython.random_seed 0)))) as [r|e] eqn:E.
  - exact (report_buckets_partition (cpython (CPython.secret_of_seed 0)) _ r E).
  - vm_compute in E. discriminate E.
Defined.



(** X3. The three entries printed as the top three are the first three
    of the sorted list: there are [min 3 n] of them, and none of the
    other topics has a larger total than any of them. *)
Theorem top3_are_maximal :
  forall (l top : list topic_data),
    V1.top3 l = Ok top ->
    List.length top = Nat.min 3 (List.length l) /\
    exists rest,
      Permutation l (top ++ rest) /\
      forall x y tx ty,
        In x top -> In y rest ->
        V1.total_of x = Ok tx -> V1.total_of y = Ok ty -> (ty <= tx)%Z.
Proof.
  intros l top. unfold V1.top3.
  destruct (sorted V1.total_of true l) as [s|] eqn:Hs; cbn [bind];
    [|discriminate].
  intros H. assert (Htop : top = firstn 3 s) by congruence.
  subst top; clear H.
  destruct (PySortFacts.sorted_reverse_spec V1.total_of l Hs)
    as (Hperm & (ks & Hks & Hsorted) & _).
  split.
  - rewrite length_firstn, (Permutation_length Hperm). reflexivity.
  - exists (skipn 3 s). split.
    + rewrite firstn_skipn. exact Hperm.
    + intros x y tx ty Hx Hy Htx Hty.
      exact (sorted_prefix_dominates s ks Hks Hsorted 3 x y tx ty Hx Hy Htx Hty).
Qed.

Lemma top3_are_maximal_witness :
  exists top,
    V1.top3 [scored "a" 72; scored "b" 85; scored "c" 85; scored "d" 90] = Ok top /\
    List.length top = 3%nat.
Proof.
  destruct (V1.top3 [scored "a" 72; scored "b" 85; scored "c" 85; scored "d" 90])
    as [top|e] eqn:E.
  - exists top. split; [reflexivity|].
    exact (proj1 (top3_are_maximal _ top E)).
  - vm_compute in E. discriminate E.
Defined.

Example top3_scenario :
  V1.top3 [scored "a" 72; scored "b" 85; scored "c" 85; scored "d" 90] =
    Ok [scored "d" 90; scored "b" 85; scored "c" 85].
Proof. vm_compute. reflexivity. Qed.

(** ** Records of the wrappers in the report *)

Section WrapperRecords.
Context {I : Interpreter} {L : Adapter}.
Local Open Scope Z_scope.

Ltac draw x g H :=
  match goal with
  | |- context [randint ?lo ?hi ?g0] =>
      pose proof (randint_range lo hi g0 ltac:(lia)) as H;
      destruct (randint lo hi g0) as [x g];
      cbn [fst] in H; cbv beta iota
  end.

Lemma rule_based_record topic search_results g :
  exists a b c d e f,
    in_ranges a b c d e f /\
    fst (V2._rule_based_analysis topic search_results g) =
      v2_record topic (v2_table a b c d e f).
Proof.
  unfold V2._rule_based_analysis. cbv zeta.
  draw a g1 Ha. draw b g2 Hb. draw c g3 Hc. draw d g4 Hd.
  draw e g5 He. draw f g6 Hf.
  exists a, b, c, d, e, f. split; [unfold in_ranges; lia|]. reflexivity.
Qed.

Lemma total_of_v2_record topic rank hot results t a b c d e f :
  V1.total_of (entry_of topic rank hot results
                 (v2_record t (v2_table a b c d e f))) = Ok 0.
Proof. reflexivity. Qed.

Lemma total_of_add_totals topic rank hot results a a' :
  Llm.add_totals a = Ok a' ->
  exists t, V1.total_of (entry_of topic rank hot results a') = Ok t.
Proof.
  intros H.
  destruct (add_totals_recomputes a a' H)
    as (sc & x1 & x2 & x3 & x4 & x5 & x6 & Hsub & _ & _ & _ & _ & _ & _ & Ht & _).
  unfold V1.total_of, entry_of. cbn [td_analysis].
  rewrite Hsub. cbn [bind subscript]. rewrite Ht. cbn [bind as_int].
  eexists. reflexivity.
Qed.

Lemma v2_attempt_totals topic search_results a :
  V2.llm_attempt topic search_results = Ok a ->
  exists a0, Llm.add_totals a0 = Ok a.
Proof.
  unfold V2.llm_attempt.
  destruct (messages_create _) as [content|]; cbn [bind]; [|discriminate].
  destruct (Llm.first_text content) as [text|]; cbn [bind]; [|discriminate].
  destruct (json_loads _) as [a0|]; cbn [bind]; [|discriminate].
  destruct (Llm.add_totals a0) as [a1|] eqn:E; cbn [bind]; [|discriminate].
  destruct (Llm.name_slice a1); cbn [bind]; [|discriminate].
  intros H. inversion H; subst. exists a0. exact E.
Qed.



Lemma total_of_v2_wrapper topic rank hot results search_results g :
  exists t,
    V1.total_of (entry_of topic rank hot results
                   (fst (V2.analyze_product_idea topic search_results g))) = Ok t.
Proof.
  unfold V2.analyze_product_idea.
  destruct (V2.llm_attempt topic search_results) as [a|e] eqn:E.
  - destruct (v2_attempt_totals topic search_results a E) as [a0 Ha0].
    cbn [fst]. exact (total_of_add_totals topic rank hot results a0 a Ha0).
  - destruct (rule_based_record topic search_results g)
      as (a & b & c & d & e' & f & _ & Heq).
    exists 0. destruct e; rewrite Heq; apply total_of_v2_record.
Qed.





End WrapperRecords.


(** ** Runs of v2.1 *)

Section V2Runs.
Context {I : Interpreter} {L : Adapter}.
Local Open Scope Z_scope.

Lemma filter_all (A : Type) (f : A -> bool) l :
  Forall (fun x => f x = true) l -> filter f l = l.
Proof.
  induction 1 as [|x l Hx Hl IH]; cbn [filter]; [reflexivity|].
  rewrite Hx, IH. reflexivity.
Qed.

(** A stable sort leaves a list of equal keys as it is. *)
Lemma sorted_equal_keys (l : list topic_data) t :
  Forall (fun x => V1.total_of x = Ok t) l ->
  sorted V1.total_of true l = Ok l.
Proof.
  intros Hl.
  assert (Hks : Forall2 (fun x k => V1.total_of x = Ok k) l
                  (map (fun _ => t) l)).
  { induction Hl; cbn [map]; constructor; assumption. }
  destruct (PySortFacts.sorted_reverse_ok V1.total_of Hks) as [s Hs].
  destruct (PySortFacts.sorted_reverse_spec V1.total_of l Hs)
    as (Hperm & _ & Hstable).
  specialize (Hstable t).
  assert (Hkey : forall x, V1.total_of x = Ok t ->
                           has_key V1.total_of t x = true).
  { intros x Hx. unfold has_key. rewrite Hx. apply Z.eqb_refl. }
  rewrite (filter_all _ _ l) in Hstable
    by (eapply Forall_impl; [exact Hkey | exact Hl]).
  rewrite (filter_all _ _ s) in Hstable.
  - rewrite Hs, Hstable. reflexivity.
  - eapply Forall_impl; [exact Hkey|].
    eapply Permutation_Forall; eassumption.
Qed.

Lemma count_total_equal p (l : list topic_data) t :
  Forall (fun x => V1.total_of x = Ok t) l ->
  V1.count_total p l =
    Ok (if p t then Z.of_nat (List.length l) else 0).
Proof.
  induction 1 as [|x l Hx Hl IH]; cbn [V1.count_total].
  - destruct (p t); reflexivity.
  - rewrite Hx. cbn [bind]. rewrite IH. cbn [bind List.length].
    rewrite Nat2Z.inj_succ. destruct (p t); f_equal; lia.
Qed.

Lemma make_card_v2_record topic rank hot results a b c d e f :
  exists card,
    V2.make_card (entry_of topic rank hot results
                    (v2_record topic (v2_table a b c d e f))) = Ok card /\
    V2.card_topic card = topic /\
    V2.card_total card = VInt 0 /\
    V2.card_interest_score card = VInt 0 /\
    V2.card_utility_score card = VInt 0 /\
    List.length (V2.card_core_features card) = 5%nat.
Proof.
  eexists. split; [reflexivity|]. repeat split.
Qed.

Lemma fallback_entry_facts x :
  fallback_entry x ->
  V1.total_of x = Ok 0 /\
  Llm.name_slice (td_analysis x) = Ok tt /\
  exists card,
    V2.make_card x = Ok card /\
    V2.card_topic card = td_topic x /\
    V2.card_total card = VInt 0.
Proof.
  intros (search_results & g & Hx).
  destruct x as [topic rank hot results analysis].
  cbn [td_topic td_analysis] in *. subst analysis.
  destruct (rule_based_record topic search_results g)
    as (a & b & c & d & e & f & _ & Heq).
  rewrite Heq. split; [reflexivity|]. split; [reflexivity|].
  destruct (make_card_v2_record topic rank hot results a b c d e f)
    as (card & Hc & Ht & Htot & _).
  exists card. repeat split; assumption.
Qed.

Lemma make_cards_fallback l :
  Forall fallback_entry l ->
  exists cs,
    V2.make_cards l = Ok cs /\
    map V2.card_topic cs = map td_topic l /\
    Forall (fun c => V2.card_total c = VInt 0) cs.
Proof.
  induction 1 as [|x l Hx Hl (cs & Hcs & Htopics & Hall)];
    cbn [V2.make_cards].
  - exists []. repeat split; constructor.
  - destruct (fallback_entry_facts x Hx) as (_ & _ & c & Hc & Ht & Htot).
    rewrite Hc. cbn [bind]. rewrite Hcs. cbn [bind].
    exists (c :: cs). split; [reflexivity|]. split.
    + cbn [map]. rewrite Ht, Htopics. reflexivity.
    + constructor; assumption.
Qed.

Lemma summary_lines_fallback l :
  Forall fallback_entry l -> V2.summary_lines l = Ok tt.
Proof.
  induction 1 as [|x l Hx Hl IH]; cbn [V2.summary_lines]; [reflexivity|].
  destruct (fallback_entry_facts x Hx) as (Ht & Hn & _).
  rewrite Hn. cbn [bind]. rewrite Ht. cbn [bind]. exact IH.
Qed.

Lemma firstn_Forall (A : Type) (P : A -> Prop) n l :
  Forall P l -> Forall P (firstn n l).
Proof.
  intros H. revert n. induction H; intros [|n]; cbn [firstn];
    constructor; auto.
Qed.

(** With a model that never gives a usable answer, the loop of v2.1
    collects fallback records, in the order of the hot list. *)
Lemma v2_entries_fallback web_search_topic hot_list :
  (forall topic search_results,
      llm_failed [topic; V2._format_search_results search_results]) ->
  forall i g,
  exists entries g',
    V2.analyze_hot_list true web_search_topic i hot_list g =
      (Returned entries, g') /\
    map td_topic entries = map hotWord hot_list /\
    Forall fallback_entry entries.
Proof.
  intros Hfail.
  induction hot_list as [|hot rest IH]; intros i g;
    cbn [V2.analyze_hot_list].
  - exists [], g. repeat split; constructor.
  - cbv zeta.
    destruct (v2_attempt_fails (hotWord hot) (web_search_topic (hotWord hot))
                (Hfail _ _)) as [e He].
    rewrite (v2_any_exception _ _ g e He).
    destruct (V2._rule_based_analysis (hotWord hot)
                (web_search_topic (hotWord hot)) g) as [analysis g1] eqn:Ha.
    destruct (IH (i + 1) g1) as (entries & g2 & Heq & Htopics & Hall).
    rewrite Heq. eexists. exists g2. split; [reflexivity|]. split.
    + cbn [map td_topic]. rewrite Htopics. reflexivity.
    + constructor; [|exact Hall].
      exists (web_search_topic (hotWord hot)), g.
      cbn [td_analysis td_topic]. rewrite Ha. reflexivity.
Qed.

End V2Runs.

(** X5. A run of v2.1 in which the analyzer starts and the model never
    gives a usable answer ends with a report: the topics appear in the
    order of the hot list, every card shows the total 0, and all of them
    are counted as average, none as excellent or good. *)
Theorem v21_fallback_run_is_unranked :
  forall (I : Interpreter) (L : Adapter) (dv : N -> Z) (date_str : str)
         (names : list str) (web_search_topic : str -> list SearchResult)
         (hot_list : list hot_item) (g : rng),
    (forall topic search_results,
        llm_failed [topic; V2._format_search_results search_results]) ->
    hot_list <> [] ->
    exists r g',
      V2.main (Ok tt) dv date_str names web_search_topic hot_list g =
        (Returned (Some r), g') /\
      map td_topic (V2.report_sorted r) = map hotWord hot_list /\
      map V2.card_topic (V2.cards r) = map hotWord hot_list /\
      Forall (fun c => V2.card_total c = VInt 0) (V2.cards r) /\
      V2.excellent r = 0%Z /\ V2.good r = 0%Z /\
      V2.average r = Z.of_nat (List.length hot_list).
Proof.
  intros I L dv date_str names web_search_topic hot_list g Hfail Hne.
  destruct (v2_entries_fallback web_search_topic hot_list Hfail 1%Z g)
    as (entries & g' & Heq & Htopics & Hall).
  assert (Htot : Forall (fun x => V1.total_of x = Ok 0%Z) entries).
  { eapply Forall_impl; [|exact Hall].
    intros x Hx. exact (proj1 (fallback_entry_facts x Hx)). }
  pose proof (sorted_equal_keys entries 0%Z Htot) as Hs.
  destruct (make_cards_fallback entries Hall) as (cs & Hcs & Hcst & Hcz).
  assert (Hlen : List.length entries = List.length hot_list).
  { rewrite <- (length_map td_topic entries), Htopics. apply length_map. }
  exists {| V2.report_sorted := entries;
            V2.excellent := 0;
            V2.good := 0;
            V2.average := Z.of_nat (List.length entries);
            V2.filename :=
              report_filename date_str
                (get_next_file_number isdecimal dv date_str names);
            V2.cards := cs |}, g'.
  split.
  - unfold V2.main. destruct hot_list as [|hot rest]; [contradiction|].
    rewrite Heq.
    unfold V2.generate_html_report, V2.print_summary, V2.sorted_topics.
    rewrite Hs. cbn [bind].
    rewrite !(count_total_equal _ entries 0%Z Htot). cbn [bind].
    rewrite Hcs. cbn [bind].
    rewrite (summary_lines_fallback (firstn 3 entries))
      by (apply firstn_Forall; exact Hall).
    reflexivity.
  - cbn [V2.report_sorted V2.cards V2.excellent V2.good V2.average].
    rewrite Hlen. repeat split; try assumption.
    rewrite Hcst. exact Htopics.
Qed.

Lemma v21_fallback_run_is_unranked_witness :
  let I := cpython (CPython.secret_of_seed 0) in
  exists r g',
    V2.main (L := offline_adapter) (Ok tt) CPython.py_digit_value
      (u "20260101") [] found_titles
      [ {| hotWord := u "甲"; hotScore := 3 |};
        {| hotWord := u "乙"; hotScore := 2 |} ] (CPython.random_seed 0) =
      (Returned (Some r), g') /\
    map td_topic (V2.report_sorted r) = [u "甲"; u "乙"] /\
    V2.average r = 2%Z.
Proof.
  cbv zeta.
  destruct (v21_fallback_run_is_unranked
              (cpython (CPython.secret_of_seed 0)) offline_adapter
              CPython.py_digit_value (u "20260101") [] found_titles
              [ {| hotWord := u "甲"; hotScore := 3 |};
                {| hotWord := u "乙"; hotScore := 2 |} ]
              (CPython.random_seed 0))
    as (r & g' & Hmain & Hsorted & _ & _ & _ & _ & Havg).
  - intros topic search_results. left.
    exists (APIError (u "Connection error.")). reflexivity.
  - discriminate.
  - exists r, g'. split; [exact Hmain|]. split; [exact Hsorted | exact Havg].
Defined.

(** X6. When the constructor of the analyzer raises, v2.1 announces the
    rule engine and then fails on the first topic: the loop reads the
    variable [analyzer], which was never assigned.  No report is
    written, whatever the hot list holds. *)
Theorem v21_without_analyzer_crashes :
  forall (I : Interpreter) (L : Adapter) (e : exn) (dv : N -> Z)
         (date_str : str) (names : list str)
         (web_search_topic : str -> list SearchResult)
         (hot_list : list hot_item) (g : rng),
    hot_list <> [] ->
    V2.main (Raise e) dv date_str names web_search_topic hot_list g =
      (Crashed (UnboundLocalError (u "analyzer")), g).
Proof.
  intros I L e dv date_str names web_search_topic hot_list g Hne.
  destruct hot_list as [|hot rest]; [contradiction|]. reflexivity.
Qed.

Lemma v21_without_analyzer_crashes_witness :
  V2.main (I := cpython (CPython.secret_of_seed 0)) (L := prose_adapter)
    (Raise (APIError (u "ANTHROPIC_API_KEY"))) CPython.py_digit_value
    (u "20260101") [] found_titles
    [ {| hotWord := u "甲"; hotScore := 3 |} ] (CPython.random_seed 0) =
  (Crashed (UnboundLocalError (u "analyzer")), CPython.random_seed 0).
Proof.
  apply (v21_without_analyzer_crashes (cpython (CPython.secret_of_seed 0))).
  discriminate.
Defined.

(** ** Report file numbers *)

Section FileNumbers.
Local Open Scope Z_scope.

Lemma startswith_app p : forall s, startswith (p ++ s) p = true.
Proof.
  induction p as [|c p IH]; intros s; cbn [app].
  - destruct s; reflexivity.
  - cbn [startswith]. rewrite N.eqb_refl. apply IH.
Qed.

Lemma startswith_refl p : startswith p p = true.
Proof. rewrite <- (app_nil_r p) at 1. apply startswith_app. Qed.

Lemma endswith_app s p : endswith (s ++ p) p = true.
Proof. unfold endswith. rewrite rev_app_distr. apply startswith_app. Qed.

Lemma skipn_exact (A : Type) (a b : list A) :
  skipn (List.length a) (a ++ b) = b.
Proof. induction a; cbn [List.length app skipn]; auto. Qed.

(** *** Decimal text *)

Lemma int_of_digits_rev dv l :
  int_of_digits dv (rev l) = value_lsd dv l.
Proof.
  unfold int_of_digits, value_lsd.
  rewrite <- (fold_left_rev_right (fun c acc => 10 * acc + dv c) (rev l)).
  rewrite rev_involutive.
  induction l as [|c l IH]; cbn [fold_right]; [reflexivity|].
  rewrite IH. lia.
Qed.

Variable isd : N -> bool.
Variable dv : N -> Z.
Hypothesis Htable : digit_table isd dv.

Lemma ascii_digit_code n :
  0 <= n -> (48 <= Z.to_N (48 + n mod 10) <= 57)%N.
Proof.
  intros Hn. pose proof (Z.mod_pos_bound n 10 ltac:(lia)). lia.
Qed.

Lemma digits_rev_value fuel :
  forall n, 0 <= n < 2 ^ Z.of_nat fuel ->
  value_lsd dv (digits_rev fuel n) = n /\
  Forall (fun c => isd c = true) (digits_rev fuel n).
Proof.
  induction fuel as [|f IH]; intros n Hn.
  - cbn in Hn. assert (n = 0) by lia. subst. split; [reflexivity|constructor].
  - cbn [digits_rev]. destruct (Z.leb_spec n 0) as [Hle|Hpos].
    + assert (n = 0) by lia. subst. split; [reflexivity|constructor].
    + rewrite Nat2Z.inj_succ, Z.pow_succ_r in Hn by lia.
      assert (Hq : 0 <= n / 10 < 2 ^ Z.of_nat f).
      { split; [apply Z.div_pos; lia|].
        apply Z.div_lt_upper_bound; lia. }
      destruct (IH (n / 10) Hq) as [Hv Hall].
      destruct Htable as [Hascii _].
      destruct (Hascii _ (ascii_digit_code n ltac:(lia))) as [Hd Hval].
      split.
      * cbn [value_lsd fold_right]. fold (value_lsd dv (digits_rev f (n / 10))).
        rewrite Hv, Hval.
        pose proof (Z.mod_pos_bound n 10 ltac:(lia)).
        rewrite Z2N.id by lia.
        pose proof (Z.div_mod n 10 ltac:(lia)). lia.
      * constructor; assumption.
Qed.

Lemma str_of_nonneg_spec n :
  0 <= n ->
  int_of_digits dv (str_of_nonneg n) = n /\
  Forall (fun c => isd c = true) (str_of_nonneg n) /\
  str_of_nonneg n <> [].
Proof.
  intros Hn. unfold str_of_nonneg.
  destruct (Z.eqb_spec n 0) as [->|Hne].
  - destruct Htable as [Hascii _].
    destruct (Hascii 48%N ltac:(lia)) as [Hd Hv].
    split; [|split].
    + cbn. rewrite Hv. reflexivity.
    + repeat constructor. exact Hd.
    + discriminate.
  - assert (Hpos : 0 < n) by lia.
    pose proof (Z.log2_spec n Hpos) as [_ Hlt].
    pose proof (Z.log2_nonneg n) as Hl.
    destruct (digits_rev_value (S (Z.to_nat (Z.log2 n))) n) as [Hv Hall].
    { rewrite Nat2Z.inj_succ, Z2Nat.id by lia. lia. }
    split; [|split].
    + rewrite int_of_digits_rev. exact Hv.
    + apply Forall_rev. exact Hall.
    + intros Hnil. apply (f_equal (@rev N)) in Hnil.
      rewrite rev_involutive in Hnil. cbn [rev] in Hnil.
      rewrite Hnil in Hv. cbn in Hv. lia.
Qed.

(** *** Reading a name back *)

Lemma take_digits_app ds rest :
  Forall (fun c => isd c = true) ds ->
  match rest with [] => True | c :: _ => isd c = false end ->
  take_digits isd (ds ++ rest) = ds.
Proof.
  induction 1 as [|c ds Hc Hds IH]; intros Hrest; cbn [app take_digits].
  - destruct rest as [|c rest]; [reflexivity|].
    cbn [take_digits]. rewrite Hrest. reflexivity.
  - rewrite Hc, IH by exact Hrest. reflexivity.
Qed.

Lemma take_digits_all s :
  Forall (fun c => isd c = true) (take_digits isd s).
Proof.
  induction s as [|c s IH]; cbn [take_digits]; [constructor|].
  destruct (isd c) eqn:E; constructor; assumption.
Qed.

Lemma html_head : u ".html" = 46%N :: u "html".
Proof. reflexivity. Qed.

Lemma match_here_report date_str n :
  0 <= n ->
  match_here isd date_str (report_filename date_str n) =
    Some (str_of_int n).
Proof.
  intros Hn. unfold match_here, report_filename, str_of_int.
  destruct (Z.ltb_spec n 0); [lia|].
  destruct (str_of_nonneg_spec n Hn) as (_ & Hall & Hne).
  rewrite startswith_app, skipn_exact.
  rewrite take_digits_app; [|exact Hall|].
  - destruct (str_of_nonneg n) as [|c ds] eqn:E; [contradiction|].
    rewrite <- E. rewrite skipn_exact, startswith_refl. reflexivity.
  - rewrite html_head. exact (proj1 (proj2 Htable)).
Qed.

Lemma search_number_report date_str n :
  0 <= n ->
  search_number isd date_str (report_filename date_str n) =
    Some (str_of_int n).
Proof.
  intros Hn.
  destruct (report_filename date_str n) as [|c s] eqn:E;
    cbn [search_number]; rewrite <- E, (match_here_report _ _ Hn);
    reflexivity.
Qed.

Lemma glob_match_report date_str n :
  glob_match date_str (report_filename date_str n) = true.
Proof.
  unfold glob_match, report_filename.
  rewrite startswith_app, app_assoc, endswith_app. cbn [andb].
  apply Nat.leb_le. rewrite !length_app. lia.
Qed.

Lemma match_here_digits date_str s ds :
  match_here isd date_str s = Some ds ->
  Forall (fun c => isd c = true) ds.
Proof.
  unfold match_here.
  destruct (startswith s (file_prefix date_str)); [|discriminate].
  cbv zeta.
  pose proof (take_digits_all
                (skipn (List.length (file_prefix date_str)) s)) as Hall.
  destruct (take_digits isd (skipn (List.length (file_prefix date_str)) s))
    as [|c l] eqn:E; [discriminate|].
  destruct (startswith _ (u ".html")); [|discriminate].
  intros H. inversion H; subst. exact Hall.
Qed.

Lemma search_number_digits date_str name :
  forall ds, search_number isd date_str name = Some ds ->
  Forall (fun c => isd c = true) ds.
Proof.
  induction name as [|c name IH]; intros ds; cbn [search_number].
  - destruct (match_here isd date_str []) eqn:E; [|discriminate].
    intros H. inversion H; subst. eapply match_here_digits; eassumption.
  - destruct (match_here isd date_str (c :: name)) eqn:E.
    + intros H. inversion H; subst. eapply match_here_digits; eassumption.
    + apply IH.
Qed.

Lemma int_of_digits_nonneg ds :
  Forall (fun c => isd c = true) ds -> 0 <= int_of_digits dv ds.
Proof.
  intros H. unfold int_of_digits.
  assert (Hgen : forall acc, 0 <= acc ->
            0 <= fold_left (fun acc c => 10 * acc + dv c) ds acc).
  { induction H as [|c ds Hc Hds IH]; intros acc Hacc; cbn [fold_left];
      [exact Hacc|].
    apply IH. pose proof (proj2 (proj2 Htable) c Hc). lia. }
  apply Hgen. lia.
Qed.

End FileNumbers.

Section FileNumbersOrder.
Local Open Scope Z_scope.
Variable isd : N -> bool.
Variable dv : N -> Z.

Lemma py_max_spec ns :
  forall n,
    n <= py_max n ns /\
    Forall (fun k => k <= py_max n ns) ns /\
    In (py_max n ns) (n :: ns).
Proof.
  unfold py_max.
  induction ns as [|k ns IH]; intros n; cbn [fold_left].
  - split; [lia|]. split; [constructor | left; reflexivity].
  - destruct (IH (Z.max n k)) as (H1 & H2 & H3). split; [lia|]. split.
    + constructor; [lia | exact H2].
    + destruct H3 as [H3|H3].
      * rewrite <- H3.
        destruct (Z.max_spec n k) as [[_ ->]|[_ ->]];
          [right; left | left]; reflexivity.
      * right; right; exact H3.
Qed.

Lemma numbers_of_In date_str files name ds :
  In name files ->
  search_number isd date_str name = Some ds ->
  In (int_of_digits dv ds) (numbers_of isd dv date_str files).
Proof.
  intros Hin Hs. unfold numbers_of. apply in_flat_map.
  exists name. split; [exact Hin|]. rewrite Hs. left. reflexivity.
Qed.

Lemma numbers_of_perm date_str l l' :
  Permutation l l' ->
  Permutation (numbers_of isd dv date_str l) (numbers_of isd dv date_str l').
Proof.
  unfold numbers_of.
  induction 1 as [|x l l' H IH|x y l|l l' l'' H1 IH1 H2 IH2];
    cbn [flat_map].
  - constructor.
  - apply Permutation_app_head, IH.
  - rewrite !app_assoc. apply Permutation_app_tail, Permutation_app_comm.
  - eapply perm_trans; eassumption.
Qed.

Lemma filter_perm (A : Type) (f : A -> bool) l l' :
  Permutation l l' -> Permutation (filter f l) (filter f l').
Proof.
  induction 1 as [|x l l' H IH|x y l|l l' l'' H1 IH1 H2 IH2];
    cbn [filter].
  - constructor.
  - destruct (f x); [apply perm_skip|]; exact IH.
  - destruct (f x), (f y); try apply Permutation_refl. apply perm_swap.
  - eapply perm_trans; eassumption.
Qed.

Lemma filter_none (A : Type) (f : A -> bool) l :
  (forall x, In x l -> f x = false) -> filter f l = [].
Proof.
  induction l as [|x l IH]; intros H; [reflexivity|].
  cbn [filter]. rewrite (H x (or_introl eq_refl)).
  apply IH. intros y Hy. apply H. right. exact Hy.
Qed.

(** The next number, said without the order of the list: one more than
    the largest number found, or 1 when none is found. *)
Lemma next_number_spec date_str names :
  let ns := numbers_of isd dv date_str (filter (glob_match date_str) names) in
  (ns = [] /\ get_next_file_number isd dv date_str names = 1) \/
  (In (get_next_file_number isd dv date_str names - 1) ns /\
   Forall (fun k => k < get_next_file_number isd dv date_str names) ns).
Proof.
  cbv zeta. unfold get_next_file_number.
  destruct (filter (glob_match date_str) names) as [|f fs] eqn:Ef.
  - left. split; reflexivity.
  - destruct (numbers_of isd dv date_str (f :: fs)) as [|n ns] eqn:En.
    + left. split; reflexivity.
    + right. destruct (py_max_spec ns n) as (H1 & H2 & H3). split.
      * replace (py_max n ns + 1 - 1) with (py_max n ns) by lia. exact H3.
      * constructor; [lia|].
        eapply Forall_impl; [|exact H2]. intros; cbn in *; lia.
Qed.

End FileNumbersOrder.

Lemma next_number_above (isd : N -> bool) (dv : N -> Z) (date_str : str)
  (names : list str) (name digits : str) :
  In name names ->
  glob_match date_str name = true ->
  search_number isd date_str name = Some digits ->
  (int_of_digits dv digits < get_next_file_number isd dv date_str names)%Z.
Proof.
  intros Hin Hglob Hs.
  assert (Hnum : In (int_of_digits dv digits)
                   (numbers_of isd dv date_str
                      (filter (glob_match date_str) names))).
  { apply numbers_of_In with (name := name); [|exact Hs].
    apply filter_In. split; assumption. }
  destruct (next_number_spec isd dv date_str names) as [[He _]|[_ Hall]].
  - rewrite He in Hnum. contradiction.
  - rewrite Forall_forall in Hall. exact (Hall _ Hnum).
Qed.

Lemma next_number_pos (isd : N -> bool) (dv : N -> Z) (date_str : str)
  (names : list str) :
  digit_table isd dv ->
  (1 <= get_next_file_number isd dv date_str names)%Z.
Proof.
  intros Htable.
  destruct (next_number_spec isd dv date_str names) as [[_ H1]|[Hin _]];
    [lia|].
  unfold numbers_of in Hin. apply in_flat_map in Hin.
  destruct Hin as (name & _ & Hin).
  destruct (search_number isd date_str name) as [ds|] eqn:Es;
    [|contradiction].
  destruct Hin as [Hin|[]].
  pose proof (int_of_digits_nonneg isd dv Htable ds
                (search_number_digits isd date_str name ds Es)).
  lia.
Qed.

Lemma int_of_str_of_int (isd : N -> bool) (dv : N -> Z) (n : Z) :
  digit_table isd dv -> (0 <= n)%Z -> int_of_digits dv (str_of_int n) = n.
Proof.
  intros Htable Hn. unfold str_of_int. destruct (Z.ltb_spec n 0); [lia|].
  apply (str_of_nonneg_spec isd dv Htable). exact Hn.
Qed.

(** X7. For a date written in digits, the number given to a new report
    is larger than the number of every report of the day already in the
    directory, and it is 1 when there is none; the order in which the
    directory lists its files does not matter. *)
Theorem next_file_number_is_fresh :
  forall (isd : N -> bool) (dv : N -> Z) (date_str : str)
         (names names' : list str),
    date_of_digits date_str = true ->
    Permutation names names' ->
    get_next_file_number isd dv date_str names' =
      get_next_file_number isd dv date_str names /\
    (forall name digits,
        In name names ->
        glob_match date_str name = true ->
        search_number isd date_str name = Some digits ->
        (int_of_digits dv digits <
           get_next_file_number isd dv date_str names)%Z) /\
    ((forall name, In name names -> glob_match date_str name = false) ->
     get_next_file_number isd dv date_str names = 1%Z).
Proof.
  intros isd dv date_str names names' _ Hperm. split; [|split].
  - pose proof (numbers_of_perm isd dv date_str _ _
                  (filter_perm _ (glob_match date_str) _ _ Hperm)) as Hp.
    destruct (next_number_spec isd dv date_str names) as [[He H1]|[Hin Hall]];
      destruct (next_number_spec isd dv date_str names')
        as [[He' H1']|[Hin' Hall']].
    + rewrite H1, H1'. reflexivity.
    + rewrite He in Hp. apply Permutation_nil in Hp.
      rewrite Hp in Hin'. contradiction.
    + rewrite He' in Hp. apply Permutation_sym, Permutation_nil in Hp.
      rewrite Hp in Hin. contradiction.
    + rewrite Forall_forall in Hall, Hall'.
      pose proof (Hall' _ (Permutation_in _ Hp Hin)).
      pose proof (Hall _ (Permutation_in _ (Permutation_sym Hp) Hin')).
      lia.
  - intros name digits. apply next_number_above.
  - intros Hnone. unfold get_next_file_number.
    rewrite (filter_none _ (glob_match date_str) names Hnone).
    reflexivity.
Qed.

Lemma next_file_number_is_fresh_witness :
  let names := [u "weibo_hot_20260101_2.html"; u "notes.txt";
                u "weibo_hot_20260101_7.html"] in
  get_next_file_number CPython.py_isdecimal CPython.py_digit_value
    (u "20260101") (rev names) =
  get_next_file_number CPython.py_isdecimal CPython.py_digit_value
    (u "20260101") names /\
  (7 < get_next_file_number CPython.py_isdecimal CPython.py_digit_value
         (u "20260101") names)%Z.
Proof.
  cbv zeta.
  destruct (next_file_number_is_fresh CPython.py_isdecimal
              CPython.py_digit_value (u "20260101")
              [u "weibo_hot_20260101_2.html"; u "notes.txt";
               u "weibo_hot_20260101_7.html"]
              (rev [u "weibo_hot_20260101_2.html"; u "notes.txt";
                    u "weibo_hot_20260101_7.html"])
              eq_refl (Permutation_rev _)) as (Hperm & Hfresh & _).
  split; [exact Hperm|].
  apply (Hfresh (u "weibo_hot_20260101_7.html") (u "7")).
  - right. right. left. reflexivity.
  - vm_compute. reflexivity.
  - vm_compute. reflexivity.
Defined.

(** X8. For a date written in digits, numbers follow one another: once
    the report has been saved under the name made from the number it was
    given, the next report of the day gets the number after it. *)
Theorem next_file_number_after_saving :
  forall (isd : N -> bool) (dv : N -> Z) (date_str : str) (names : list str),
    date_of_digits date_str = true ->
    digit_table isd dv ->
    let n := get_next_file_number isd dv date_str names in
    (1 <= n)%Z /\
    get_next_file_number isd dv date_str
      (report_filename date_str n :: names) = (n + 1)%Z.
Proof.
  intros isd dv date_str names _ Htable n.
  assert (Hn : (1 <= n)%Z) by (apply next_number_pos; exact Htable).
  split; [exact Hn|].
  assert (Hval : int_of_digits dv (str_of_int n) = n)
    by (apply (int_of_str_of_int isd dv n Htable); lia).
  unfold get_next_file_number at 1. cbn [filter].
  rewrite glob_match_report. unfold numbers_of. cbn [flat_map].
  rewrite (search_number_report isd dv Htable date_str n) by lia.
  cbn [app]. rewrite Hval.
  fold (numbers_of isd dv date_str (filter (glob_match date_str) names)).
  assert (Hmax : py_max n
                   (numbers_of isd dv date_str
                      (filter (glob_match date_str) names)) = n).
  { destruct (py_max_spec
                (numbers_of isd dv date_str
                   (filter (glob_match date_str) names)) n)
      as (Hge & _ & Hin).
    destruct Hin as [Hin|Hin]; [symmetry; exact Hin|].
    destruct (next_number_spec isd dv date_str names) as [[He _]|[_ Hall]].
    - rewrite He in Hin. contradiction.
    - rewrite Forall_forall in Hall. specialize (Hall _ Hin).
      fold n in Hall. lia. }
  rewrite Hmax. reflexivity.
Qed.

Lemma cpython_digit_table :
  digit_table CPython.py_isdecimal CPython.py_digit_value.
Proof.
  split; [|split].
  - intros c Hc. unfold CPython.py_isdecimal, CPython.py_digit_value.
    unfold CPython.decimal_ranges. cbn [existsb find fst snd].
    assert (H1 : (48 <=? c)%N = true) by (apply N.leb_le; lia).
    assert (H2 : (c <=? 57)%N = true) by (apply N.leb_le; lia).
    rewrite H1, H2. cbn [andb orb fst]. split; [reflexivity|].
    rewrite N.mod_small by lia. lia.
  - vm_compute. reflexivity.
  - intros c _. unfold CPython.py_digit_value.
    destruct (find _ CPython.decimal_ranges); [apply N2Z.is_nonneg | lia].
Qed.

Lemma next_file_number_after_saving_witness :
  let names := [u "weibo_hot_20260101_2.html"; u "weibo_hot_20260101_7.html"] in
  let n := get_next_file_number CPython.py_isdecimal CPython.py_digit_value
             (u "20260101") names in
  (1 <= n)%Z /\
  get_next_file_number CPython.py_isdecimal CPython.py_digit_value
    (u "20260101") (report_filename (u "20260101") n :: names) = (n + 1)%Z.
Proof.
  exact (next_file_number_after_saving CPython.py_isdecimal
           CPython.py_digit_value (u "20260101")
           [u "weibo_hot_20260101_2.html"; u "weibo_hot_20260101_7.html"]
           eq_refl cpython_digit_table).
Defined.

Example file_number_scenario :
  get_next_file_number CPython.py_isdecimal CPython.py_digit_value
    (u "20260101")
    [u "weibo_hot_20260101_2.html"; u "weibo_hot_20260102_9.html";
     u "weibo_hot_20260101_x.html"; u "weibo_hot_20260101_7.html"] = 8%Z /\
  report_filename (u "20260101") 8 = u "weibo_hot_20260101_8.html".
Proof. vm_compute. split; reflexivity. Qed.

(** ** Fetching the hot list *)

Section Fetching.
Context {I : Interpreter}.


Lemma length_py_range a b : List.length (py_range a b) = Z.to_nat (b - a).
Proof. unfold py_range. rewrite length_map, length_seq. reflexivity. Qed.






(** *** The backup list *)

Lemma str_of_int_inj n m :
  (0 <= n)%Z -> (0 <= m)%Z -> str_of_int n = str_of_int m -> n = m.
Proof.
  intros Hn Hm. unfold str_of_int.
  destruct (Z.ltb_spec n 0) as [Hn'|_]; [lia|].
  destruct (Z.ltb_spec m 0) as [Hm'|_]; [lia|].
  intros Heq.
  destruct (str_of_nonneg_spec _ _ cpython_digit_table n Hn) as [Hvn _].
  destruct (str_of_nonneg_spec _ _ cpython_digit_table m Hm) as [Hvm _].
  rewrite <- Hvn, <- Hvm, Heq. reflexivity.
Qed.

Lemma py_range_In a b i : In i (py_range a b) -> (a <= i < b)%Z.
Proof.
  unfold py_range. rewrite in_map_iff. intros (k & <- & Hk).
  apply in_seq in Hk. lia.
Qed.

Lemma NoDup_map_on (A B : Type) (f : A -> B) (l : list A) :
  (forall x y, In x l -> In y l -> f x = f y -> x = y) ->
  NoDup l -> NoDup (map f l).
Proof.
  intros Hinj Hl. induction Hl as [|x l Hx Hl IH]; cbn [map]; constructor.
  - rewrite in_map_iff. intros (y & Hy & Hin).
    apply Hx. rewrite (Hinj x y); [exact Hin|left; reflexivity|right; exact Hin|].
    symmetry. exact Hy.
  - apply IH. intros a b Ha Hb. apply Hinj; right; assumption.
Qed.

Lemma py_range_NoDup a b : NoDup (py_range a b).
Proof.
  unfold py_range. apply NoDup_map_on; [|apply seq_NoDup].
  intros x y _ _ H. lia.
Qed.

End Fetching.


Example fetch_second_reply :
  let reply k :=
    match k with
    | 1 => Ok {| status_code := 200;
                 body := Ok (VDict [(u "code", VInt 200);
                                    (u "result",
                                      VDict [(u "list",
                                        VList [VInt 1; VInt 2; VInt 3])])]) |}
    | _ => Ok {| status_code := 503; body := Raise JSONDecodeError |}
    end in
  V2.fetch_weibo_hot reply 2 = (VList [VInt 1; VInt 2], 2).
Proof. vm_compute. reflexivity. Qed.



(** X11. The backup list has as many entries as asked for, ranked
    1, 2, ... in order, and the lookup of the topic that the loop of
    [main] does finds a different topic in each of them; this holds for
    the list of v1.0, which v2.0 uses as well, and for that of v2.1. *)
Theorem backup_list_is_ranked_and_distinct :
  forall (count : Z),
    List.length (V1.get_backup_hot_list count) = Z.to_nat count /\
    map (dict_get (u "hotRank")) (V1.get_backup_hot_list count) =
      map (fun i => Some (VInt i)) (py_range 1 (count + 1)) /\
    map V1.topic_of (V1.get_backup_hot_list count) =
      map (fun i => VStr (u "测试热搜话题" ++ str_of_int i))
          (py_range 1 (count + 1)) /\
    NoDup (map V1.topic_of (V1.get_backup_hot_list count)) /\
    List.length (V2.get_backup_hot_list count) = Z.to_nat count /\
    map (dict_get (u "hotRank")) (V2.get_backup_hot_list count) =
      map (fun i => Some (VInt i)) (py_range 1 (count + 1)) /\
    map V2.topic_of (V2.get_backup_hot_list count) =
      map (fun i => VStr (u "AI技术突破" ++ str_of_int i))
          (py_range 1 (count + 1)) /\
    NoDup (map V2.topic_of (V2.get_backup_hot_list count)).
Proof.
  intros count.
  assert (Hlen : Z.to_nat (count + 1 - 1) = Z.to_nat count)
    by (f_equal; lia).
  assert (Hdistinct : forall prefix : str,
             NoDup (map (fun i => VStr (prefix ++ str_of_int i))
                      (py_range 1 (count + 1)))).
  { intros prefix. apply NoDup_map_on; [|apply py_range_NoDup].
    intros x y Hx Hy H. apply py_range_In in Hx, Hy.
    inversion H as [H']. apply app_inv_head in H'.
    apply str_of_int_inj; [lia|lia|exact H']. }
  assert (H1 : map V1.topic_of (V1.get_backup_hot_list count) =
               map (fun i => VStr (u "测试热搜话题" ++ str_of_int i))
                 (py_range 1 (count + 1))).
  { unfold V1.get_backup_hot_list. rewrite map_map.
    apply map_ext. intros i. reflexivity. }
  assert (H2 : map V2.topic_of (V2.get_backup_hot_list count) =
               map (fun i => VStr (u "AI技术突破" ++ str_of_int i))
                 (py_range 1 (count + 1))).
  { unfold V2.get_backup_hot_list. rewrite map_map.
    apply map_ext. intros i. reflexivity. }
  repeat split.
  - unfold V1.get_backup_hot_list.
    rewrite length_map, length_py_range. exact Hlen.
  - unfold V1.get_backup_hot_list. rewrite map_map.
    apply map_ext. intros i. reflexivity.
  - exact H1.
  - rewrite H1. apply Hdistinct.
  - unfold V2.get_backup_hot_list.
    rewrite length_map, length_py_range. exact Hlen.
  - unfold V2.get_backup_hot_list. rewrite map_map.
    apply map_ext. intros i. reflexivity.
  - exact H2.
  - rewrite H2. apply Hdistinct.
Qed.

(** ** The classifier, label by label *)

Section Classifier.

Lemma contains_refl s : contains s s = true.
Proof.
  destruct s; cbn [contains]; rewrite startswith_refl; reflexivity.
Qed.

Lemma in_list_In x xs : in_list x xs = true -> In x xs.
Proof.
  unfold in_list. rewrite existsb_exists. intros (y & Hy & Heq).
  apply str_eqb_eq in Heq. subst y. exact Hy.
Qed.

Lemma exact_pass_Some topic ps name :
  V1.exact_pass topic ps = Some name ->
  exists kws, In (name, kws) ps /\ In topic kws.
Proof.
  induction ps as [|[n kws] ps IH]; cbn [V1.exact_pass]; [discriminate|].
  destruct (in_list topic kws) eqn:E.
  - intros H. inversion H; subst. exists kws. split; [left; reflexivity|].
    apply in_list_In. exact E.
  - intros H. destruct (IH H) as (k & Hin & Ht).
    exists k. split; [right; exact Hin | exact Ht].
Qed.

Lemma substring_pass_Some topic ps name :
  V1.substring_pass topic ps = Some name ->
  exists kws kw, In (name, kws) ps /\ In kw kws /\ contains topic kw = true.
Proof.
  induction ps as [|[n kws] ps IH]; cbn [V1.substring_pass]; [discriminate|].
  destruct (existsb (fun kw => contains topic kw) kws) eqn:E.
  - intros H. inversion H; subst. apply existsb_exists in E.
    destruct E as (kw & Hkw & Hc). exists kws, kw.
    split; [left; reflexivity|]. split; assumption.
  - intros H. destruct (IH H) as (k & kw & Hin & Hkw & Hc).
    exists k, kw. split; [right; exact Hin|]. split; assumption.
Qed.

Lemma substring_pass_None topic ps :
  V1.substring_pass topic ps = None ->
  forall name kws kw, In (name, kws) ps -> In kw kws ->
    contains topic kw = false.
Proof.
  induction ps as [|[n k] ps IH]; cbn [V1.substring_pass];
    intros Hs name kws kw Hin Hkw; [destruct Hin|].
  destruct (existsb (fun kw => contains topic kw) k) eqn:E; [discriminate|].
  destruct Hin as [Heq|Hin].
  - inversion Heq; subst.
    destruct (contains topic kw) eqn:Hc; [|reflexivity].
    assert (Ht : existsb (fun kw => contains topic kw) kws = true)
      by (apply existsb_exists; exists kw; split; assumption).
    rewrite Ht in E. discriminate.
  - exact (IH Hs name kws kw Hin Hkw).
Qed.

Lemma general_is_no_theme name kws :
  In (name, kws) V1.theme_patterns -> name <> u "综合资讯".
Proof.
  intros Hin Heq.
  assert (Hall : forallb (fun e => negb (str_eqb (fst e) (u "综合资讯")))
                   V1.theme_patterns = true) by (vm_compute; reflexivity).
  rewrite forallb_forall in Hall. specialize (Hall _ Hin).
  cbn [fst] in Hall. subst name. rewrite str_eqb_refl in Hall.
  discriminate.
Qed.

End Classifier.

(** X12. The classifier of v1.0 answers with one of the eight themes of
    its table, as type and as theme, or with the general label; it
    answers with the general label exactly when no keyword of the table
    occurs in the topic. *)
Theorem classifier_general_iff_no_keyword :
  forall (topic : str),
    let r := V1.analyze_topic_keywords topic in
    ((exists kws, In (V1.type r, kws) V1.theme_patterns) /\
     V1.theme r = V1.type r \/
     V1.type r = u "综合资讯" /\ V1.theme r = u "热点追踪") /\
    (V1.type r = u "综合资讯" <->
     forall name kws kw,
       In (name, kws) V1.theme_patterns -> In kw kws ->
       contains topic kw = false).
Proof.
  intros topic. cbv zeta. unfold V1.analyze_topic_keywords.
  destruct (V1.exact_pass topic V1.theme_patterns) as [n|] eqn:Ee.
  - destruct (exact_pass_Some _ _ _ Ee) as (kws & Hin & Ht).
    cbn [V1.type V1.theme]. split.
    + left. split; [exists kws; exact Hin | reflexivity].
    + split.
      * intros Heq. exfalso. exact (general_is_no_theme _ _ Hin Heq).
      * intros Hnone. exfalso.
        pose proof (Hnone n kws topic Hin Ht) as Hc.
        rewrite contains_refl in Hc. discriminate.
  - destruct (V1.substring_pass topic V1.theme_patterns) as [n|] eqn:Es.
    + destruct (substring_pass_Some _ _ _ Es) as (kws & kw & Hin & Hkw & Hc).
      cbn [V1.type V1.theme]. split.
      * left. split; [exists kws; exact Hin | reflexivity].
      * split.
        -- intros Heq. exfalso. exact (general_is_no_theme _ _ Hin Heq).
        -- intros Hnone. exfalso.
           rewrite (Hnone n kws kw Hin Hkw) in Hc. discriminate.
    + cbn [V1.type V1.theme]. split.
      * right. split; reflexivity.
      * split; [|reflexivity].
        intros _. exact (substring_pass_None _ _ Es).
Qed.

Example classifier_scenarios :
  V1.type (V1.analyze_topic_keywords (u "今天天气不错")) = u "综合资讯" /\
  V1.type (V1.analyze_topic_keywords (u "华为手机价格")) = u "电商零售" /\
  V1.type (V1.analyze_topic_keywords (u "华为")) = u "科技数码".
Proof. vm_compute. repeat split; reflexivity. Qed.

(** ** The fences around a response *)

Section Fences.

Lemma lstrip_app_space p c :
  isspace c = true ->
  lstrip (p ++ [c]) =
    match lstrip p with
    | [] => []
    | _ => lstrip p ++ [c]
    end.
Proof.
  intros Hc. induction p as [|a p IH]; cbn [app lstrip].
  - rewrite Hc. reflexivity.
  - destruct (isspace a); [exact IH | reflexivity].
Qed.

Lemma strip_between_newlines p :
  strip (10%N :: p ++ [10%N]) = strip p.
Proof.
  unfold strip. cbn [lstrip].
  change (isspace 10) with true. cbv iota.
  rewrite lstrip_app_space by reflexivity.
  destruct (lstrip p) as [|a q] eqn:E; [reflexivity|].
  rewrite rev_app_distr. cbn [rev app lstrip].
  change (isspace 10) with true. cbv iota. reflexivity.
Qed.

Lemma firstn_exact (A : Type) (a b : list A) :
  firstn (List.length a) (a ++ b) = a.
Proof.
  induction a as [|x a IH]; cbn [List.length app firstn].
  - destruct b; reflexivity.
  - rewrite IH. reflexivity.
Qed.

Lemma startswith_prefix a b : forall p,
  startswith p (a ++ b) = true -> startswith p a = true.
Proof.
  induction a as [|x a IH]; intros p; cbn [app].
  - destruct p; reflexivity.
  - destruct p as [|c p]; cbn [startswith]; [discriminate|].
    destruct (x =? c)%N; cbn [andb]; [apply IH | discriminate].
Qed.

Lemma fence : u "```" = [96; 96; 96]%N.
Proof. reflexivity. Qed.

Lemma fence_json : u "```json" = [96; 96; 96; 106; 115; 111; 110]%N.
Proof. reflexivity. Qed.

Lemma closing_fence p :
  (if endswith (10%N :: p ++ 10%N :: u "```") (u "```")
   then firstn (List.length (10%N :: p ++ 10%N :: u "```") - 3)
          (10%N :: p ++ 10%N :: u "```")
   else 10%N :: p ++ 10%N :: u "```") = 10%N :: p ++ [10%N].
Proof.
  replace (10%N :: p ++ 10%N :: u "```")
    with ((10%N :: p ++ [10%N]) ++ u "```")
    by (cbn [app]; rewrite <- app_assoc; reflexivity).
  rewrite endswith_app.
  replace (List.length ((10%N :: p ++ [10%N]) ++ u "```") - 3)
    with (List.length (10%N :: p ++ [10%N])).
  - apply firstn_exact.
  - rewrite (length_app (10%N :: p ++ [10%N])), fence. cbn [List.length]. lia.
Qed.

End Fences.

(** X13. A payload between a line with three backquotes, followed or not
    by the word json, and a closing line with three backquotes comes out
    of the clean-up as the payload without the white space around it,
    which is also what the clean-up makes of a response that neither
    starts nor ends with three backquotes. *)
Theorem strip_fences_recovers_payload :
  forall (p : str),
    Llm.strip_fences (u "```json" ++ 10%N :: p ++ 10%N :: u "```") = strip p /\
    Llm.strip_fences (u "```" ++ 10%N :: p ++ 10%N :: u "```") = strip p /\
    (startswith p (u "```") = false -> endswith p (u "```") = false ->
     Llm.strip_fences p = strip p).
Proof.
  intros p. split; [|split].
  - unfold Llm.strip_fences.
    rewrite startswith_app.
    change 7 with (List.length (u "```json")). rewrite skipn_exact.
    replace (startswith (10%N :: p ++ 10%N :: u "```") (u "```"))
      with false by (rewrite fence; reflexivity).
    rewrite closing_fence. apply strip_between_newlines.
  - unfold Llm.strip_fences.
    replace (startswith (u "```" ++ 10%N :: p ++ 10%N :: u "```")
               (u "```json"))
      with false by (rewrite fence, fence_json; reflexivity).
    rewrite startswith_app.
    change 3 with (List.length (u "```")) at 1. rewrite skipn_exact.
    rewrite closing_fence. apply strip_between_newlines.
  - intros Hs He. unfold Llm.strip_fences.
    assert (Hj : startswith p (u "```json") = false).
    { destruct (startswith p (u "```json")) eqn:E; [|reflexivity].
      change (u "```json") with (u "```" ++ u "json") in E.
      apply startswith_prefix in E. congruence. }
    rewrite Hj, Hs, He. reflexivity.
Qed.

Lemma strip_fences_recovers_payload_witness :
  Llm.strip_fences (u "{}") = strip (u "{}").
Proof.
  destruct (strip_fences_recovers_payload (u "{}")) as (_ & _ & H).
  apply H; reflexivity.
Defined.

(** ** The name of the report *)

(** X14. For a date written in digits, the name under which a report is
    written is the name of no file of the output directory: the report
    of v2.1, once its data are computed, does not replace an earlier
    report, and neither does the name made from [get_next_file_number]
    in v1.0. *)
Theorem report_name_is_new :
  forall (I : Interpreter) (dv : N -> Z) (date_str : str) (names : list str),
    date_of_digits date_str = true ->
    digit_table isdecimal dv ->
    ~ In (report_filename date_str
            (get_next_file_number isdecimal dv date_str names)) names /\
    (forall l r,
        V2.generate_html_report dv date_str names l = Ok r ->
        ~ In (V2.filename r) names).
Proof.
  intros I dv date_str names _ Htable.
  assert (Hnew : ~ In (report_filename date_str
                         (get_next_file_number isdecimal dv date_str names))
                      names).
  { intros Hin.
    pose proof (next_number_pos isdecimal dv date_str names Htable) as Hn.
    remember (get_next_file_number isdecimal dv date_str names) as n eqn:En.
    assert (H0 : (0 <= n)%Z) by lia.
    pose proof (next_number_above isdecimal dv date_str names _ _ Hin
                  (glob_match_report date_str n)
                  (search_number_report isdecimal dv Htable date_str n H0))
      as Hfresh.
    rewrite (int_of_str_of_int isdecimal dv n Htable H0), <- En in Hfresh.
    lia. }
  split; [exact Hnew|].
  intros l r. unfold V2.generate_html_report.
  destruct (V2.sorted_topics l) as [s|]; cbn [bind]; [|discriminate].
  destruct (V1.count_total _ s); cbn [bind]; [|discriminate].
  destruct (V1.count_total _ s); cbn [bind]; [|discriminate].
  destruct (V1.count_total _ s); cbn [bind]; [|discriminate].
  cbv zeta.
  destruct (V2.make_cards s); cbn [bind]; [|discriminate].
  intros H. inversion H; subst. cbn [V2.filename]. exact Hnew.
Qed.

Lemma report_name_is_new_witness :
  let names := [u "weibo_hot_20260101_1.html"; u "weibo_hot_20260101_2.html"] in
  ~ In (report_filename (u "20260101")
          (get_next_file_number CPython.py_isdecimal CPython.py_digit_value
             (u "20260101") names)) names.
Proof.
  exact (proj1 (report_name_is_new (cpython (CPython.secret_of_seed 0))
                 CPython.py_digit_value (u "20260101")
                 [u "weibo_hot_20260101_1.html"; u "weibo_hot_20260101_2.html"]
                 eq_refl cpython_digit_table)).
Defined.

(** ** The loops of [main] *)

Section MainLoops.
Context {I : Interpreter} {L : Adapter}.









End MainLoops.




(** ** Records the report cannot use *)

Section MissingFields.
Context {I : Interpreter}.

Ltac step_bind H :=
  repeat match goal with
         | |- exists e, bind ?c _ = Raise e =>
             first [ rewrite H; cbn [bind]; eexists; reflexivity
                   | destruct c; cbn [bind]; [|eexists; reflexivity] ]
         end.

Lemma v1_make_card_needs_features x e0 :
  subscript (td_analysis x) (u "core_features") = Raise e0 ->
  exists e, V1.make_card x = Raise e.
Proof.
  intros H. unfold V1.make_card. cbv zeta. step_bind H.
Qed.

Lemma v2_make_card_needs_features x e0 :
  subscript (td_analysis x) (u "core_features") = Raise e0 ->
  exists e, V2.make_card x = Raise e.
Proof.
  intros H. unfold V2.make_card. cbv zeta. step_bind H.
Qed.

Lemma v1_make_cards_raise s x :
  In x s -> (exists e, V1.make_card x = Raise e) ->
  exists e, V1.make_cards s = Raise e.
Proof.
  induction s as [|y s IH]; intros Hin Hx; [destruct Hin|].
  cbn [V1.make_cards]. destruct Hin as [->|Hin].
  - destruct Hx as [e ->]. cbn [bind]. eexists. reflexivity.
  - destruct (V1.make_card y); cbn [bind]; [|eexists; reflexivity].
    destruct (IH Hin Hx) as [e ->]. cbn [bind]. eexists. reflexivity.
Qed.

Lemma v2_make_cards_raise s x :
  In x s -> (exists e, V2.make_card x = Raise e) ->
  exists e, V2.make_cards s = Raise e.
Proof.
  induction s as [|y s IH]; intros Hin Hx; [destruct Hin|].
  cbn [V2.make_cards]. destruct Hin as [->|Hin].
  - destruct Hx as [e ->]. cbn [bind]. eexists. reflexivity.
  - destruct (V2.make_card y); cbn [bind]; [|eexists; reflexivity].
    destruct (IH Hin Hx) as [e ->]. cbn [bind]. eexists. reflexivity.
Qed.

End MissingFields.

(** X17. The report needs the core features of every entry: when the
    analysis of one entry of the list has nothing to give under
    [core_features], [generate_html_report] raises, in v1.0 and in v2.1,
    wherever the entry stands in the list.  A response of the model with
    a name and the six scores only is such an analysis, and the wrapper
    returns it. *)
Theorem report_needs_core_features :
  forall (I : Interpreter) (dv : N -> Z) (date_str : str)
         (names : list str) (l : list topic_data) (x : topic_data)
         (e0 : exn),
    In x l ->
    subscript (td_analysis x) (u "core_features") = Raise e0 ->
    (exists e, V1.generate_html_report l = Raise e) /\
    (exists e, V2.generate_html_report dv date_str names l = Raise e).
Proof.
  intros I dv date_str names l x e0 Hin Hx. split.
  - unfold V1.generate_html_report.
    destruct (sorted V1.total_of true l) as [s|e] eqn:Hs; cbn [bind];
      [|eexists; reflexivity].
    destruct (PySortFacts.sorted_reverse_spec V1.total_of l Hs)
      as (Hperm & _ & _).
    destruct (V1.count_total _ s); cbn [bind]; [|eexists; reflexivity].
    destruct (V1.count_total _ s); cbn [bind]; [|eexists; reflexivity].
    destruct (V1.count_total _ s); cbn [bind]; [|eexists; reflexivity].
    destruct (v1_make_cards_raise s x (Permutation_in _ Hperm Hin)
                (v1_make_card_needs_features x e0 Hx)) as [e ->].
    cbn [bind]. eexists. reflexivity.
  - unfold V2.generate_html_report, V2.sorted_topics.
    destruct (sorted V1.total_of true l) as [s|e] eqn:Hs; cbn [bind];
      [|eexists; reflexivity].
    destruct (PySortFacts.sorted_reverse_spec V1.total_of l Hs)
      as (Hperm & _ & _).
    destruct (V1.count_total _ s); cbn [bind]; [|eexists; reflexivity].
    destruct (V1.count_total _ s); cbn [bind]; [|eexists; reflexivity].
    destruct (V1.count_total _ s); cbn [bind]; [|eexists; reflexivity].
    cbv zeta.
    destruct (v2_make_cards_raise s x (Permutation_in _ Hperm Hin)
                (v2_make_card_needs_features x e0 Hx)) as [e ->].
    cbn [bind]. eexists. reflexivity.
Qed.

Lemma report_needs_core_features_witness :
  let I := cpython (CPython.secret_of_seed 0) in
  let x :=
    entry_of (u "胖东来羽绒服599元进价199元") 1 990000 []
      (fst (V2.analyze_product_idea (L := fenced_adapter)
              (u "胖东来羽绒服599元进价199元") []
              (CPython.random_seed 0))) in
  (exists e, V1.generate_html_report [scored "a" 72; x] = Raise e) /\
  (exists e, V2.generate_html_report CPython.py_digit_value (u "20260101") []
               [scored "a" 72; x] = Raise e).
Proof.
  cbv zeta.
  apply (report_needs_core_features (cpython (CPython.secret_of_seed 0))
           CPython.py_digit_value (u "20260101") []
           [scored "a" 72;
            entry_of (u "胖东来羽绒服599元进价199元") 1 990000 []
              (fst (V2.analyze_product_idea
                      (I := cpython (CPython.secret_of_seed 0))
                      (L := fenced_adapter)
                      (u "胖东来羽绒服599元进价199元") []
                      (CPython.random_seed 0)))]
           (entry_of (u "胖东来羽绒服599元进价199元") 1 990000 []
              (fst (V2.analyze_product_idea
                      (I := cpython (CPython.secret_of_seed 0))
                      (L := fenced_adapter)
                      (u "胖东来羽绒服599元进价199元") []
                      (CPython.random_seed 0))))
           (KeyError (u "core_features"))).
  - right. left. reflexivity.
  - vm_compute. reflexivity.
Defined.

(** ** The texts of the timelines *)

Section TimelineTexts.
Context {I : Interpreter}.

Lemma startswith_app_same a :
  forall s p, startswith (a ++ s) (a ++ p) = startswith s p.
Proof.
  induction a as [|c a IH]; intros s p; cbn [app]; [reflexivity|].
  cbn [startswith]. rewrite N.eqb_refl. apply IH.
Qed.

Lemma startswith_app_l p : forall a b,
  startswith a p = true -> startswith (a ++ b) p = true.
Proof.
  induction p as [|c p IH]; intros a b H.
  - destruct (a ++ b); reflexivity.
  - destruct a as [|d a]; [destruct p; discriminate|].
    cbn [app startswith] in *. apply andb_true_iff in H.
    destruct H as [H1 H2]. rewrite H1. apply IH. exact H2.
Qed.

Lemma quoted_prefix topic lit :
  startswith lit (u "'") = true ->
  startswith (u "'" ++ topic ++ lit) (u "'" ++ topic ++ u "'") = true.
Proof.
  intros H. rewrite !startswith_app_same. exact H.
Qed.

Lemma event_timeline_fallback_quotes topic :
  startswith (V1.event_timeline_fallback topic) (u "'" ++ topic ++ u "'")
    = true.
Proof.
  unfold V1.event_timeline_fallback.
  repeat match goal with
         | |- context [if any_in topic ?ws then _ else _] =>
             destruct (any_in topic ws)
         end; apply quoted_prefix; reflexivity.
Qed.

Lemma firstn_ne (A : Type) (l : list A) : l <> [] -> firstn 100 l <> [].
Proof. destruct l; [contradiction | discriminate]. Qed.

Lemma app_ne_l (A : Type) (a b : list A) : a <> [] -> a ++ b <> [].
Proof. destruct a; [contradiction | discriminate]. Qed.

Lemma app_ne_r (A : Type) (a b : list A) : b <> [] -> a ++ b <> [].
Proof. destruct a, b; try contradiction; discriminate. Qed.

Lemma capped_filled c d i :
  c <> [] -> d <> [] -> i <> [] -> all_stages_filled (V1.capped c d i).
Proof.
  intros Hc Hd Hi. unfold all_stages_filled, V1.capped.
  cbn [cause develop impact]. repeat split; apply firstn_ne; assumption.
Qed.

Ltac nonempty :=
  lazymatch goal with
  | |- u _ <> [] => vm_compute; discriminate
  | |- _ ++ _ <> [] =>
      first [ apply app_ne_l; nonempty | apply app_ne_r; nonempty ]
  end.

Ltac stages := apply capped_filled; nonempty.

Lemma stage_price_filled topic : all_stages_filled (V1.stage_price topic).
Proof.
  unfold V1.stage_price. cbv zeta.
  destruct (findall_number isdecimal topic) as [|n0 more]; [stages|].
  destruct (contains topic (u "羽绒服")); stages.
Qed.

Lemma stage_entertainment_filled topic :
  all_stages_filled (V1.stage_entertainment topic).
Proof.
  unfold V1.stage_entertainment. cbv zeta.
  destruct (contains topic (u "轧戏")); [stages|].
  destruct (contains topic (u "连开") && contains topic (u "场")); stages.
Qed.

Lemma stage_game_filled topic : all_stages_filled (V1.stage_game topic).
Proof.
  unfold V1.stage_game. cbv zeta.
  destruct (contains topic (u "世界之外") || contains topic (u "第五人格")).
  - destruct (contains topic (u "世界之外")); stages.
  - destruct (contains topic (u "开大")); stages.
Qed.

Lemma stage_tech_filled topic : all_stages_filled (V1.stage_tech topic).
Proof.
  unfold V1.stage_tech.
  destruct (contains topic (u "3D打印") && contains topic (u "器官"));
    [stages|].
  destruct (contains topic (u "发布") || contains topic (u "新品")); stages.
Qed.

Lemma stage_incident_filled topic :
  all_stages_filled (V1.stage_incident topic).
Proof.
  unfold V1.stage_incident. cbv zeta.
  destruct (contains topic (u "韩国") &&
            (contains topic (u "火灾") || contains topic (u "事故")));
    stages.
Qed.

Lemma stage_default_filled topic :
  all_stages_filled (V1.stage_default topic).
Proof.
  unfold V1.stage_default. cbv zeta.
  destruct (List.length topic <=? 20); stages.
Qed.

Lemma stage_by_keywords_filled topic :
  all_stages_filled (V1.stage_by_keywords topic).
Proof.
  unfold V1.stage_by_keywords.
  repeat match goal with
         | |- context [if any_in topic ?ws then _ else _] =>
             destruct (any_in topic ws)
         end.
  - apply stage_price_filled.
  - apply stage_entertainment_filled.
  - apply stage_game_filled.
  - apply stage_tech_filled.
  - apply stage_incident_filled.
  - unfold V1.stage_car. stages.
  - unfold V1.stage_festival. stages.
  - apply stage_default_filled.
Qed.

End TimelineTexts.

(** X18. The paragraph of [generate_event_timeline] opens with the topic
    between single quotes, for every topic and every list of search
    results: in each of the keyword branches, and in the three forms of
    the paragraph made from the titles. *)
Theorem event_timeline_opens_with_topic :
  forall (topic : str) (search_results : list SearchResult),
    startswith (V1.generate_event_timeline topic search_results)
      (u "'" ++ topic ++ u "'") = true.
Proof.
  intros topic search_results. unfold V1.generate_event_timeline.
  destruct (V1.event_key_info search_results) as [|k0 [|k1 rest]];
    try apply event_timeline_fallback_quotes.
  cbv zeta. cbn [join].
  match goal with
  | |- context [if (100 <? ?n)%nat then _ else _] => destruct (100 <? n)%nat
  end.
  - apply quoted_prefix. reflexivity.
  - match goal with
    | |- context [if (?n <? 50)%nat then _ else _] => destruct (n <? 50)%nat
    end.
    + do 3 apply startswith_app_l. apply quoted_prefix. reflexivity.
    + do 2 apply startswith_app_l. apply quoted_prefix. reflexivity.
Qed.

(** X19. None of the three stages of the timeline is empty, for every
    topic and every list of search results: together with the bound of
    100 characters, each stage shown on a card has between 1 and 100
    characters. *)
Theorem timeline_stages_are_never_empty :
  forall (I : Interpreter) (topic : str) (search_results : list SearchResult),
    all_stages_filled (V1.generate_three_stage_timeline topic search_results).
Proof.
  intros I topic search_results. unfold V1.generate_three_stage_timeline.
  destruct (V1.stage_key_info search_results) as [|k0 [|k1 rest]];
    try apply stage_by_keywords_filled.
  cbv zeta. apply capped_filled.
  - apply app_ne_r. vm_compute. discriminate.
  - apply app_ne_l. vm_compute. discriminate.
  - apply app_ne_l. vm_compute. discriminate.
Qed.

(** ** The templates of the general label *)

Section GeneralTemplates.
Context {I : Interpreter}.

Lemma contains_app_r a : forall s p,
  contains s p = true -> contains (a ++ s) p = true.
Proof.
  induction a as [|c a IH]; intros s p H; cbn [app]; [exact H|].
  cbn [contains]. rewrite (IH s p H). apply orb_true_r.
Qed.

Lemma core_features_general topic theme :
  V1.generate_core_features_by_topic topic (u "综合资讯") theme =
    [ u "智能内容推荐 - AI根据'" ++ topic ++ u "'推送最相关的内容";
      u "实时动态追踪 - 第一时间获取'{topic}'的最新进展";
      u "个性化定制 - 根据用户偏好自定义展示内容";
      u "社交互动分享 - 支持一键分享到各大平台";
      u "数据可视化看板 - 直观展示关键数据和趋势" ].
Proof. reflexivity. Qed.

End GeneralTemplates.

(** X20. For a topic the classifier gives the general label, the card of
    v1.0 shows three core features of which only the first names the
    topic: the second one is the same for every topic and holds the
    characters [{topic}] as they stand in the source. *)
Theorem general_card_shows_placeholder :
  forall (I : Interpreter) (topic : str) (rank hot_score : Z)
         (search_results : list SearchResult) (g : rng),
    V1.type (V1.analyze_topic_keywords topic) = u "综合资讯" ->
    exists c,
      V1.make_card
        (entry_of topic rank hot_score search_results
           (fst (V1.mock_ai_analysis topic search_results g))) = Ok c /\
      V1.card_core_features c =
        join (u "; ")
          [ u "智能内容推荐 - AI根据'" ++ topic ++ u "'推送最相关的内容";
            u "实时动态追踪 - 第一时间获取'{topic}'的最新进展";
            u "个性化定制 - 根据用户偏好自定义展示内容" ] /\
      contains (V1.card_core_features c) (u "{topic}") = true.
Proof.
  intros I topic rank hot_score search_results g Hgen.
  rewrite mock_ai_analysis_fields. cbv zeta. rewrite Hgen.
  rewrite core_features_general.
  destruct (calculate_scores_draws topic g)
    as (a & b & c & d & e & f & _ & Heq).
  rewrite Heq. unfold entry_of.
  eexists. split.
  - apply (make_card_v1_record topic rank hot_score search_results).
    apply join_first3_strs.
  - cbn [V1.card_core_features firstn]. split; [reflexivity|].
    cbn [join]. rewrite <- !app_assoc. do 2 apply contains_app_r.
    vm_compute. reflexivity.
Qed.

Lemma general_card_shows_placeholder_witness :
  exists c,
    V1.make_card (I := cpython (CPython.secret_of_seed 0))
      (entry_of (u "今天天气不错") 3 5000 []
         (fst (V1.mock_ai_analysis (I := cpython (CPython.secret_of_seed 0))
                 (u "今天天气不错") [] (CPython.random_seed 0)))) = Ok c /\
    V1.card_core_features c =
      join (u "; ")
        [ u "智能内容推荐 - AI根据'" ++ u "今天天气不错" ++ u "'推送最相关的内容";
          u "实时动态追踪 - 第一时间获取'{topic}'的最新进展";
          u "个性化定制 - 根据用户偏好自定义展示内容" ] /\
    contains (V1.card_core_features c) (u "{topic}") = true.
Proof.
  apply (general_card_shows_placeholder (cpython (CPython.secret_of_seed 0))
           (u "今天天气不错") 3 5000 [] (CPython.random_seed 0)).
  vm_compute. reflexivity.
Defined.

(** ** The summary of v2.1 *)

Section V2Summary.
Context {I : Interpreter} {L : Adapter}.

Lemma v2_wrapper_ready topic rank hot results search_results g :
  summary_ready
    (entry_of topic rank hot results
       (fst (V2.analyze_product_idea topic search_results g))).
Proof.
  split; [|apply total_of_v2_wrapper].
  cbn [entry_of td_analysis]. unfold V2.analyze_product_idea.
  destruct (V2.llm_attempt topic search_results) as [a|e] eqn:E.
  - cbn [fst]. revert E. unfold V2.llm_attempt.
    destruct (messages_create _) as [content|]; cbn [bind]; [|discriminate].
    destruct (Llm.first_text content) as [text|]; cbn [bind];
      [|discriminate].
    destruct (json_loads _) as [a0|]; cbn [bind]; [|discriminate].
    destruct (Llm.add_totals a0) as [a1|]; cbn [bind]; [|discriminate].
    destruct (Llm.name_slice a1) as [[]|] eqn:Hn; cbn [bind];
      [|discriminate].
    intros H. inversion H; subst. exact Hn.
  - destruct (rule_based_record topic search_results g)
      as (a & b & c & d & e' & f & _ & Heq).
    destruct e; rewrite Heq; reflexivity.
Qed.

Lemma v2_entries_ready web_search_topic hot_list :
  forall i g,
  exists entries g',
    V2.analyze_hot_list true web_search_topic i hot_list g =
      (Returned entries, g') /\
    Forall summary_ready entries.
Proof.
  induction hot_list as [|hot rest IH]; intros i g;
    cbn [V2.analyze_hot_list].
  - exists [], g. split; constructor.
  - cbv zeta.
    pose proof (v2_wrapper_ready (hotWord hot) i (hotScore hot)
                  (web_search_topic (hotWord hot))
                  (web_search_topic (hotWord hot)) g) as Hready.
    destruct (V2.analyze_product_idea (hotWord hot)
                (web_search_topic (hotWord hot)) g) as [analysis g1].
    cbn [fst] in Hready.
    destruct (IH (i + 1)%Z g1) as (entries & g' & Heq & Hall).
    rewrite Heq. eexists. exists g'. split; [reflexivity|].
    constructor; [exact Hready | exact Hall].
Qed.

Lemma ready_totals l :
  Forall summary_ready l ->
  exists ts, Forall2 (fun x t => V1.total_of x = Ok t) l ts.
Proof.
  induction 1 as [|x l [_ [t Ht]] Hl [ts IH]].
  - exists []. constructor.
  - exists (t :: ts). constructor; assumption.
Qed.

Lemma summary_lines_ready l :
  Forall summary_ready l -> V2.summary_lines l = Ok tt.
Proof.
  induction 1 as [|x l [Hn [t Ht]] Hl IH]; cbn [V2.summary_lines];
    [reflexivity|].
  rewrite Hn. cbn [bind]. rewrite Ht. cbn [bind]. exact IH.
Qed.

Lemma print_summary_ready l :
  Forall summary_ready l -> V2.print_summary l = Ok tt.
Proof.
  intros Hall. destruct (ready_totals l Hall) as [ts Hts].
  unfold V2.print_summary, V2.sorted_topics.
  destruct (PySortFacts.sorted_reverse_ok V1.total_of Hts) as [s Hs].
  rewrite Hs. cbn [bind].
  destruct (PySortFacts.sorted_reverse_spec V1.total_of l Hs)
    as (Hperm & (ks & Hks & _) & _).
  destruct (count_total_ok (fun t => 80 <=? t)%Z s ks Hks) as [n1 ->].
  cbn [bind].
  destruct (count_total_ok (fun t => (60 <=? t) && (t <? 80))%Z s ks Hks)
    as [n2 ->].
  cbn [bind]. apply summary_lines_ready.
  assert (Hs' : Forall summary_ready s)
    by (eapply Permutation_Forall; eassumption).
  rewrite <- (firstn_skipn 3 s) in Hs'. apply Forall_app in Hs'.
  exact (proj1 Hs').
Qed.

End V2Summary.

(** X21. In v2.1, once the analyzer is built, [print_summary] does not
    raise on the entries of the loop, whatever the model answered: the
    wrapper has checked the name and computed the total of every record
    it returns, and the fallback writes both.  So a run whose report is
    produced returns it. *)
Theorem v21_summary_never_raises :
  forall (I : Interpreter) (L : Adapter) (dv : N -> Z) (date_str : str)
         (names : list str) (web_search_topic : str -> list SearchResult)
         (hot_list : list hot_item) (g : rng),
    exists entries g',
      V2.analyze_hot_list true web_search_topic 1 hot_list g =
        (Returned entries, g') /\
      V2.print_summary entries = Ok tt /\
      (forall r,
          hot_list <> [] ->
          V2.generate_html_report dv date_str names entries = Ok r ->
          V2.main (Ok tt) dv date_str names web_search_topic hot_list g =
            (Returned (Some r), g')).
Proof.
  intros I L dv date_str names ws hot_list g.
  destruct (v2_entries_ready ws hot_list 1%Z g)
    as (entries & g' & Heq & Hall).
  exists entries, g'. split; [exact Heq|].
  pose proof (print_summary_ready entries Hall) as Hsum.
  split; [exact Hsum|].
  intros r Hne Hr. unfold V2.main.
  destruct hot_list as [|hot rest]; [contradiction|].
  rewrite Heq, Hr, Hsum. reflexivity.
Qed.

Lemma v21_summary_never_raises_witness :
  exists r g',
    V2.main (I := cpython (CPython.secret_of_seed 0)) (L := complete_adapter)
      (Ok tt) CPython.py_digit_value (u "20260101") [] found_titles
      [{| hotWord := u "胖东来羽绒服599元进价199元"; hotScore := 990000 |}]
      (CPython.random_seed 0) = (Returned (Some r), g').
Proof.
  destruct (v21_summary_never_raises (cpython (CPython.secret_of_seed 0))
              complete_adapter CPython.py_digit_value (u "20260101") []
              found_titles
              [{| hotWord := u "胖东来羽绒服599元进价199元";
                  hotScore := 990000 |}]
              (CPython.random_seed 0)) as (entries & g' & Heq & _ & Hmain).
  pose proof (f_equal
                (fun p => match fst p with
                          | Returned l => l
                          | Crashed _ => []
                          end) Heq) as He.
  cbv beta in He. cbn [fst] in He. clear Heq. subst entries.
  match type of Hmain with
  | forall r, _ -> ?report = Ok r -> _ =>
      destruct report as [r|e] eqn:Hr;
        [ exists r, g'; apply Hmain; [discriminate | reflexivity]
        | exfalso; vm_compute in Hr; discriminate Hr ]
  end.
Defined.

(** ** The rule-based records, for every topic *)

Section FilledRecords.
Context {I : Interpreter}.

Lemma classify_cases topic :
  In (V1.type (V1.analyze_topic_keywords topic),
      V1.theme (V1.analyze_topic_keywords topic))
     ((u "综合资讯", u "热点追踪") ::
      map (fun e => (fst e, fst e)) V1.theme_patterns).
Proof.
  unfold V1.analyze_topic_keywords.
  destruct (V1.exact_pass topic V1.theme_patterns) as [n|] eqn:Ee.
  - destruct (exact_pass_Some _ _ _ Ee) as (kws & Hin & _).
    right. apply in_map_iff. exists (n, kws). split; [reflexivity|exact Hin].
  - destruct (V1.substring_pass topic V1.theme_patterns) as [n|] eqn:Es.
    + destruct (substring_pass_Some _ _ _ Es) as (kws & kw & Hin & _).
      right. apply in_map_iff. exists (n, kws).
      split; [reflexivity|exact Hin].
    + left. reflexivity.
Qed.

Lemma v1_fields_filled topic ty th event scores :
  In (ty, th)
     ((u "综合资讯", u "热点追踪") ::
      map (fun e => (fst e, fst e)) V1.theme_patterns) ->
  filled event = true ->
  forall k,
    In k (map u ["name"; "event_timeline"; "core_features";
                 "market_pain_points"; "target_users";
                 "innovation_points"; "market_potential"]%string) ->
    exists v,
      dict_get k
        [ (u "name", VStr (V1.generate_product_name topic ty th));
          (u "event_timeline", event);
          (u "core_features",
            V1.strs (V1.generate_core_features_by_topic topic ty th));
          (u "market_pain_points",
            V1.strs (V1.generate_pain_points_by_topic topic ty th));
          (u "target_users",
            VStr (V1.generate_target_users_by_topic topic ty));
          (u "scores", scores);
          (u "innovation_points",
            V1.strs (V1.generate_innovation_points_by_topic topic th));
          (u "market_potential",
            VDict (V1.generate_market_potential_by_topic topic th)) ] =
        Some v /\
      filled v = true.
Proof.
  intros Hcase Hev k Hk.
  unfold V1.theme_patterns in Hcase. cbn [map In fst] in Hcase.
  cbn [map In] in Hk.
  repeat (destruct Hcase as [Hcase|Hcase];
          [inversion Hcase; subst ty th; clear Hcase;
           repeat (destruct Hk as [Hk|Hk];
                   [subst k; eexists; split; [vm_compute; reflexivity|];
                    first [exact Hev | vm_compute; reflexivity]|]);
           contradiction|]).
  contradiction.
Qed.

End FilledRecords.

(** X22. For every topic and every list of search results, each of the
    seven fields of text of the record of v1.0 is filled, and so is each
    of the six fields of text of the fallback record of v2.1: every
    string in them has characters, every list and table has entries. *)
Theorem rule_based_records_are_filled :
  forall (I : Interpreter) (topic : str) (search_results : list SearchResult)
         (g : rng),
    (exists d,
        fst (V1.mock_ai_analysis topic search_results g) = VDict d /\
        forall k,
          In k (map u ["name"; "event_timeline"; "core_features";
                       "market_pain_points"; "target_users";
                       "innovation_points"; "market_potential"]%string) ->
          exists v, dict_get k d = Some v /\ filled v = true) /\
    (exists d,
        fst (V2._rule_based_analysis topic search_results g) = VDict d /\
        forall k,
          In k (map u ["name"; "core_features"; "market_pain_points";
                       "target_users"; "innovation_points";
                       "market_potential"]%string) ->
          exists v, dict_get k d = Some v /\ filled v = true).
Proof.
  intros I topic search_results g. split.
  - eexists. split; [apply mock_ai_analysis_fields|]. cbv zeta.
    apply v1_fields_filled.
    + apply classify_cases.
    + apply generate_event_timeline_filled.
  - destruct (rule_based_record topic search_results g)
      as (a & b & c & d & e & f & _ & Heq).
    rewrite Heq. unfold v2_record. eexists. split; [reflexivity|].
    generalize (v2_table a b c d e f) as scores. intros scores k Hk.
    cbn [map In] in Hk.
    repeat (destruct Hk as [Hk|Hk];
            [subst k; eexists; split; [vm_compute; reflexivity|];
             vm_compute; reflexivity|]).
    contradiction.
Qed.
